(** * agent_swarm: task lifecycle, dependency cascade and persistent store

    A shallow embedding of [agent_swarm.py].  The program is a command line
    tool: every invocation builds a [TechDirector] or a [Group] object,
    which reads the JSON files of the state directory, runs one method and
    writes the files back.  The embedding keeps that shape:

    - the three JSON files, the per-agent logs, the tmux server, the
      console and the clock form a [World];
    - a method is a function from [World] to an outcome (a value or a
      Python exception) and the [World] it leaves behind ([M]);
    - a Python [dict] is an insertion-ordered association list with
      unique keys ([dict]); mutating an object stored in a dict is
      written as replacing the entry in place.

    Writing a file ([open(..., 'w')], [open(..., 'a')]) is taken to
    succeed; reading may fail in every way the code distinguishes.  A
    statement that speaks of the state of a JSON file an operation
    writes is made for files the process can write over: the file is
    not there, or holds a collection, or holds text that is not JSON
    ([tasks_readable], [messages_readable], [groups_readable]).  A file
    that cannot be opened, for which the [save_*] methods print an error
    and raise again, is outside these statements. *)

From Stdlib Require Import String Ascii List Bool Arith Lia.
Import ListNotations.
Open Scope string_scope.
Open Scope list_scope.
Open Scope nat_scope.

(* ================================================================== *)
(** ** Data model *)

(** [class TaskStatus(Enum)] with the string value of each member. *)
Inductive TaskStatus : Type :=
| PENDING
| IN_PROGRESS
| COMPLETED
| BLOCKED.

Definition status_value (s : TaskStatus) : string :=
  match s with
  | PENDING => "pending"
  | IN_PROGRESS => "in_progress"
  | COMPLETED => "completed"
  | BLOCKED => "blocked"
  end.

(** [TaskStatus(value)]: lookup by value, [None] where Python raises
    [ValueError]. *)
Definition TaskStatus_of_value (v : string) : option TaskStatus :=
  if (v =? "pending")%string then Some PENDING
  else if (v =? "in_progress")%string then Some IN_PROGRESS
  else if (v =? "completed")%string then Some COMPLETED
  else if (v =? "blocked")%string then Some BLOCKED
  else None.

Definition status_eqb (a b : TaskStatus) : bool :=
  match a, b with
  | PENDING, PENDING | IN_PROGRESS, IN_PROGRESS
  | COMPLETED, COMPLETED | BLOCKED, BLOCKED => true
  | _, _ => false
  end.

(** [@dataclass class Task]. *)
Record Task : Type := mkTask {
  id : string;
  title : string;
  description : string;
  assigned_to : option string;
  status : TaskStatus;
  dependencies : list string;
  created_at : string;
  completed_at : option string
}.

(** Attribute assignments [task.status = s], [task.assigned_to = g],
    [task.completed_at = ts]. *)
Definition set_status (t : Task) (s : TaskStatus) : Task :=
  mkTask (id t) (title t) (description t) (assigned_to t) s
         (dependencies t) (created_at t) (completed_at t).

Definition set_assigned_to (t : Task) (g : option string) : Task :=
  mkTask (id t) (title t) (description t) g (status t)
         (dependencies t) (created_at t) (completed_at t).

Definition set_completed_at (t : Task) (ts : option string) : Task :=
  mkTask (id t) (title t) (description t) (assigned_to t) (status t)
         (dependencies t) (created_at t) ts.

(** [@dataclass class Message]. *)
Record Message : Type := mkMessage {
  from_agent : string;
  to_agent : string;
  content : string;
  timestamp : string
}.

(** The registration record of a group in [groups.json]. *)
Record GroupInfo : Type := mkGroupInfo {
  group_name : string;
  group_created_at : string
}.

(* ------------------------------------------------------------------ *)
(** *** Python dictionaries with string keys

    Insertion ordered; [d[k] = v] replaces the value of an existing key
    where it stands and appends a new key at the end. *)

Definition dict (V : Type) : Type := list (string * V).

Fixpoint dict_get {V} (d : dict V) (k : string) : option V :=
  match d with
  | [] => None
  | (k', v) :: r => if (k =? k')%string then Some v else dict_get r k
  end.

Definition dict_mem {V} (d : dict V) (k : string) : bool :=
  match dict_get d k with Some _ => true | None => false end.

Fixpoint dict_set {V} (d : dict V) (k : string) (v : V) : dict V :=
  match d with
  | [] => [(k, v)]
  | (k', v') :: r =>
      if (k =? k')%string then (k', v) :: r else (k', v') :: dict_set r k v
  end.

Definition keys {V} (d : dict V) : list string := map fst d.

(** [x in l] for a list of strings. *)
Fixpoint str_in (x : string) (l : list string) : bool :=
  match l with
  | [] => false
  | y :: r => if (x =? y)%string then true else str_in x r
  end.

(** Truth value of an [Optional[str]]: [None] and the empty string are
    false. *)
Definition truthy (o : option string) : bool :=
  match o with
  | Some (String _ _) => true
  | _ => false
  end.

(* ------------------------------------------------------------------ *)
(** *** The identifier pattern

    [re.match(r'^[a-zA-Z0-9_-]+$', id_str)].  The class matches one ASCII
    letter, digit, underscore or hyphen; [+] takes the longest run of
    them; Python's [$] (no flags) matches at the end of the string and
    also just before a line feed that is the last character. *)

Definition LF : ascii := "010"%char.

Definition id_char (c : ascii) : bool :=
  let n := nat_of_ascii c in
  ((97 <=? n) && (n <=? 122)) || ((65 <=? n) && (n <=? 90))
  || ((48 <=? n) && (n <=? 57)) || (n =? 95) || (n =? 45).

(** The longest prefix made of class characters: its length and what
    follows it. *)
Fixpoint span_id_chars (s : string) : nat * string :=
  match s with
  | String c r =>
      if id_char c then let (n, rest) := span_id_chars r in (S n, rest)
      else (0, s)
  | EmptyString => (0, s)
  end.

(** Where [$] matches. *)
Definition re_dollar (rest : string) : bool :=
  match rest with
  | EmptyString => true
  | String c EmptyString => Ascii.eqb c LF
  | _ => false
  end.

(** A shorter run than the longest one is followed by a class character,
    where [$] cannot match, so backtracking adds nothing. *)
Definition re_match_id (s : string) : bool :=
  let (n, rest) := span_id_chars s in (0 <? n) && re_dollar rest.

(** The strings the specification calls identifiers: one or more class
    characters and nothing else. *)
Fixpoint all_id_chars (s : string) : bool :=
  match s with
  | EmptyString => true
  | String c r => id_char c && all_id_chars r
  end.

Definition is_identifier (s : string) : bool :=
  negb (s =? "")%string && all_id_chars s.

(* ================================================================== *)
(** ** The world outside the process *)

(** Python exceptions the code can meet while reading a file. *)
Inductive exn_class : Type :=
| JSONDecodeError      (* json: the text is not JSON *)
| OSError              (* IOError, PermissionError, IsADirectoryError, ... *)
| UnicodeDecodeError   (* the bytes are not text *)
| RecursionError       (* json: the text nests deeper than the interpreter allows *)
| ValueError           (* e.g. TaskStatus('done') *)
| TypeError            (* e.g. the Task constructor given a missing or extra field *)
| KeyError             (* e.g. data['status'] *)
| AttributeError.      (* e.g. data.items() on a JSON list *)

Record exn : Type := mkExn {
  exn_type : exn_class;
  exn_str : string      (* str(e) *)
}.

(** [except json.JSONDecodeError] and [except (IOError, OSError)]:
    neither clause takes the other classes, although JSONDecodeError and
    UnicodeDecodeError both derive from ValueError. *)
Definition is_JSONDecodeError (e : exn) : bool :=
  match exn_type e with JSONDecodeError => true | _ => false end.

Definition is_OSError (e : exn) : bool :=
  match exn_type e with OSError => true | _ => false end.

(** A JSON file as the body of the [try] in a [load_*] method sees it:
    - [Missing]: [os.path.exists] is false;
    - [Holds a]: [open], [json.load] and the [from_dict] conversions go
      through and give the collection [a];
    - [Broken e]: one of them raises [e]. *)
Inductive file (A : Type) : Type :=
| Missing
| Holds (a : A)
| Broken (e : exn).
Arguments Missing {A}.
Arguments Holds {A} a.
Arguments Broken {A} e.

Record World : Type := mkWorld {
  tasks_file : file (dict Task);            (* tasks.json *)
  messages_file : file (list Message);      (* messages.json *)
  groups_file : file (dict GroupInfo);      (* groups.json *)
  saves : list string;                      (* files rewritten, oldest first *)
  logs : list (string * string);            (* (agent, line) appended to <agent>.log *)
  tmux_sessions : dict (option string);     (* live sessions; the error text of a
                                               session that refuses send-keys *)
  tmux_keys : list (string * string);       (* (session, text) delivered *)
  stdout : list string;                     (* lines printed *)
  wall : nat -> string;                     (* isoformat() of the n-th clock reading *)
  clock : nat                               (* readings taken so far *)
}.

Definition with_tasks_file (f : file (dict Task)) (w : World) : World :=
  mkWorld f (messages_file w) (groups_file w) (saves w) (logs w)
          (tmux_sessions w) (tmux_keys w) (stdout w) (wall w) (clock w).

Definition with_messages_file (f : file (list Message)) (w : World) : World :=
  mkWorld (tasks_file w) f (groups_file w) (saves w) (logs w)
          (tmux_sessions w) (tmux_keys w) (stdout w) (wall w) (clock w).

Definition with_groups_file (f : file (dict GroupInfo)) (w : World) : World :=
  mkWorld (tasks_file w) (messages_file w) f (saves w) (logs w)
          (tmux_sessions w) (tmux_keys w) (stdout w) (wall w) (clock w).

Definition with_saves (l : list string) (w : World) : World :=
  mkWorld (tasks_file w) (messages_file w) (groups_file w) l (logs w)
          (tmux_sessions w) (tmux_keys w) (stdout w) (wall w) (clock w).

Definition with_logs (l : list (string * string)) (w : World) : World :=
  mkWorld (tasks_file w) (messages_file w) (groups_file w) (saves w) l
          (tmux_sessions w) (tmux_keys w) (stdout w) (wall w) (clock w).

Definition with_tmux_keys (l : list (string * string)) (w : World) : World :=
  mkWorld (tasks_file w) (messages_file w) (groups_file w) (saves w) (logs w)
          (tmux_sessions w) l (stdout w) (wall w) (clock w).

Definition with_stdout (l : list string) (w : World) : World :=
  mkWorld (tasks_file w) (messages_file w) (groups_file w) (saves w) (logs w)
          (tmux_sessions w) (tmux_keys w) l (wall w) (clock w).

Definition with_clock (n : nat) (w : World) : World :=
  mkWorld (tasks_file w) (messages_file w) (groups_file w) (saves w) (logs w)
          (tmux_sessions w) (tmux_keys w) (stdout w) (wall w) n.

(* ------------------------------------------------------------------ *)
(** *** Computations: a value or an exception, and the world left behind *)

Inductive outcome (A : Type) : Type :=
| Return (a : A)
| Raise (e : exn).
Arguments Return {A} a.
Arguments Raise {A} e.

Definition M (A : Type) : Type := World -> outcome A * World.

Definition ret {A} (a : A) : M A := fun w => (Return a, w).

Definition raise {A} (e : exn) : M A := fun w => (Raise e, w).

Definition bind {A B} (c : M A) (k : A -> M B) : M B :=
  fun w =>
    match c w with
    | (Return a, w') => k a w'
    | (Raise e, w') => (Raise e, w')
    end.

Notation "x <- c ;; k" := (bind c (fun x => k))
  (at level 61, c at next level, right associativity).
Notation "c ;; k" := (bind c (fun _ => k))
  (at level 61, right associativity).

(** [print(line)]. *)
Definition print (line : string) : M unit :=
  fun w => (Return tt, with_stdout (stdout w ++ [line]) w).

(** [datetime.now().isoformat()]. *)
Definition datetime_now : M string :=
  fun w => (Return (wall w (clock w)), with_clock (S (clock w)) w).

(** [validate_id(id_str, name)]. *)
Definition validate_id (id_str name : string) : M bool :=
  if (id_str =? "")%string then
    print ("Error: " ++ name ++ " cannot be empty") ;;
    ret false
  else if negb (re_match_id id_str) then
    print ("Error: " ++ name ++ " '" ++ id_str
           ++ "' contains invalid characters. Use only letters, numbers, underscores, and hyphens.") ;;
    ret false
  else ret true.

(** [Task(id=..., title=..., description=..., dependencies=...)]: the other
    fields take their defaults and [__post_init__] stamps [created_at]. *)
Definition new_Task (task_id ttl descr : string) (deps : list string) : M Task :=
  now <- datetime_now ;;
  ret (mkTask task_id ttl descr None PENDING deps now None).

(** [Message(from_agent=..., to_agent=..., content=...)]. *)
Definition new_Message (sender receiver text : string) : M Message :=
  now <- datetime_now ;;
  ret (mkMessage sender receiver text now).

(* ================================================================== *)
(** ** [class StateManager] *)

Module StateManager.

(** The body shared by [load_tasks], [load_messages] and [load_groups]:
    a missing file gives the empty collection; the two [except] clauses
    print a diagnostic and give the empty collection; every other
    exception leaves the method. *)
Definition load_json {A} (what : string) (f : file A) (empty : A) : M A :=
  match f with
  | Missing => ret empty
  | Holds a => ret a
  | Broken e =>
      if is_JSONDecodeError e then
        print ("Error: Corrupted " ++ what ++ " file. " ++ exn_str e) ;;
        ret empty
      else if is_OSError e then
        print ("Error loading " ++ what ++ ": " ++ exn_str e) ;;
        ret empty
      else raise e
  end.

Definition save_tasks (tasks : dict Task) : M unit :=
  fun w => (Return tt,
            with_saves (saves w ++ ["tasks.json"]) (with_tasks_file (Holds tasks) w)).

Definition load_tasks : M (dict Task) :=
  fun w => load_json "tasks" (tasks_file w) [] w.

Definition save_messages (messages : list Message) : M unit :=
  fun w => (Return tt,
            with_saves (saves w ++ ["messages.json"])
                       (with_messages_file (Holds messages) w)).

Definition load_messages : M (list Message) :=
  fun w => load_json "messages" (messages_file w) [] w.

Definition append_message (message : Message) : M unit :=
  messages <- load_messages ;;
  save_messages (messages ++ [message]).

Definition save_groups (groups : dict GroupInfo) : M unit :=
  fun w => (Return tt,
            with_saves (saves w ++ ["groups.json"]) (with_groups_file (Holds groups) w)).

Definition load_groups : M (dict GroupInfo) :=
  fun w => load_json "groups" (groups_file w) [] w.

(** [append_log(agent_name, message)]: one line at the end of the agent's
    log file. *)
Definition append_log (agent_name message : string) : M unit :=
  ts <- datetime_now ;;
  fun w => (Return tt,
            with_logs (logs w ++ [(agent_name,
                                   ("[" ++ ts ++ "] " ++ message ++ String LF "")%string)]) w).

End StateManager.

(* ================================================================== *)
(** ** [class TmuxManager] *)

Module TmuxManager.

Definition get_session_name (agent_name : string) : string :=
  "agent_swarm_" ++ agent_name.

(** [tmux has-session]; without a tmux binary there is no session. *)
Definition session_exists (session_name : string) : M bool :=
  fun w => (Return (dict_mem (tmux_sessions w) session_name), w).

(** [tmux send-keys] with [check=True]: a session that refuses the keys
    makes it raise [CalledProcessError], which is caught and reported with
    its text.  The last case, a session that is not there, is not reached:
    every call follows a [session_exists] that answered True. *)
Definition send_message (session_name message : string) : M unit :=
  fun w =>
    match dict_get (tmux_sessions w) session_name with
    | Some None =>
        (Return tt,
         with_tmux_keys (tmux_keys w ++ [(session_name, ("# MESSAGE: " ++ message)%string)]) w)
    | Some (Some e) =>
        print ("Warning: Failed to send message to " ++ session_name ++ ": " ++ e) w
    | None =>
        print ("Warning: Failed to send message to " ++ session_name
               ++ ": can't find session: " ++ session_name) w
    end.

(** The recurring [if self.tmux.session_exists(s): self.tmux.send_message(s, text)]. *)
Definition notify (agent_name text : string) : M unit :=
  let session_name := get_session_name agent_name in
  live <- session_exists session_name ;;
  if live then send_message session_name text else ret tt.

End TmuxManager.

(* ================================================================== *)
(** ** Dependency check and cascade, as both facades carry them *)

(** [_check_dependencies]: every dependency is a key of [tasks] and the
    task stored there is completed.  [TechDirector] reads [self.tasks],
    [Group] the dictionary it is handed. *)
Definition check_dependencies (tasks : dict Task) (task : Task) : bool :=
  forallb (fun dep_id =>
             match dict_get tasks dep_id with
             | None => false
             | Some dep => status_eqb (status dep) COMPLETED
             end)
          (dependencies task).

Section Cascade.

(** Who completes: ["TD"] or the group's name, used as log owner and as
    sender; [notice tid] is the text of the message. *)
Variable actor : string.
Variable notice : string -> string.
(** The task that was just completed. *)
Variable task_id : string.

(** The body of the [for] loop for the entry [(tid, task)], with [tasks]
    the dictionary as it stands when the entry is visited.  The result
    is the task as the visit leaves it. *)
Definition unblock_visit (tasks : dict Task) (tid : string) (task : Task)
  : M Task :=
  if str_in task_id (dependencies task) && status_eqb (status task) BLOCKED then
    if check_dependencies tasks task then
      let task' := set_status task IN_PROGRESS in
      StateManager.append_log actor ("Unblocked task " ++ tid) ;;
      (if truthy (assigned_to task') then
         let group := match assigned_to task' with Some g => g | None => "" end in
         message <- new_Message actor group (notice tid) ;;
         StateManager.append_message message ;;
         TmuxManager.notify group ("Task " ++ tid ++ " is now unblocked!")
       else ret tt) ;;
      ret task'
    else ret task
  else ret task.

(** [for tid, task in tasks.items()]: the entries are visited in the
    dictionary's order.  [visited] holds the entries already passed, as
    the loop left them, [todo] those still ahead; the dictionary the
    program holds at that moment is [visited ++ todo]. *)
Fixpoint unblock_loop (visited todo : dict Task) : M (dict Task) :=
  match todo with
  | [] => ret visited
  | (tid, task) :: rest =>
      task' <- unblock_visit (visited ++ todo) tid task ;;
      unblock_loop (visited ++ [(tid, task')]) rest
  end.

End Cascade.

(* ================================================================== *)
(** ** [class TechDirector] *)

Module TechDirector.

(** The object: [self.tasks], read once by the constructor.
    [self.agent_name] is the constant ["TD"]. *)
Record t : Type := mk { tasks : dict Task }.

Definition __init__ : M t :=
  loaded <- StateManager.load_tasks ;;
  ret (mk loaded).

Definition _check_dependencies (self : t) (task : Task) : bool :=
  check_dependencies (tasks self) task.

(** [create_task]; [dependencies] is [None] when the argument is left out. *)
Definition create_task (self : t) (task_id ttl descr : string)
                       (deps : option (list string)) : M (bool * t) :=
  ok <- validate_id task_id "Task ID" ;;
  if negb ok then ret (false, self)
  else if dict_mem (tasks self) task_id then
    print ("Error: Task " ++ task_id ++ " already exists") ;;
    ret (false, self)
  else
    let listed := match deps with Some l => l | None => [] end in
    match find (fun dep_id => negb (dict_mem (tasks self) dep_id)) listed with
    | Some dep_id =>
        print ("Error: Dependency " ++ dep_id ++ " does not exist") ;;
        ret (false, self)
    | None =>
        task <- new_Task task_id ttl descr listed ;;
        let self' := mk (dict_set (tasks self) task_id task) in
        StateManager.save_tasks (tasks self') ;;
        StateManager.append_log "TD" ("Created task " ++ task_id ++ ": " ++ ttl) ;;
        print ("Task " ++ task_id ++ " created successfully") ;;
        ret (true, self')
    end.

Definition assign_task (self : t) (task_id group : string) : M (bool * t) :=
  ok <- validate_id group "Group name" ;;
  if negb ok then ret (false, self)
  else
    match dict_get (tasks self) task_id with
    | None =>
        print ("Error: Task " ++ task_id ++ " does not exist") ;;
        ret (false, self)
    | Some task =>
        let task := set_assigned_to task (Some group) in
        let self := mk (dict_set (tasks self) task_id task) in
        if negb (_check_dependencies self task) then
          let task := set_status task BLOCKED in
          let self := mk (dict_set (tasks self) task_id task) in
          StateManager.save_tasks (tasks self) ;;
          StateManager.append_log "TD"
            ("Assigned task " ++ task_id ++ " to " ++ group
             ++ " (blocked by dependencies)") ;;
          print ("Task " ++ task_id ++ " assigned to " ++ group
                 ++ " (blocked by dependencies)") ;;
          ret (true, self)
        else
          let task := set_status task IN_PROGRESS in
          let self := mk (dict_set (tasks self) task_id task) in
          StateManager.save_tasks (tasks self) ;;
          message <- new_Message "TD" group
                       ("Assigned task " ++ task_id ++ ": " ++ title task) ;;
          StateManager.append_message message ;;
          StateManager.append_log "TD"
            ("Assigned task " ++ task_id ++ " to " ++ group) ;;
          TmuxManager.notify group
            ("New task assigned: " ++ task_id ++ " - " ++ title task) ;;
          print ("Task " ++ task_id ++ " assigned to " ++ group) ;;
          ret (true, self)
    end.

Definition unblock_notice (tid : string) : string :=
  "Task " ++ tid ++ " is now unblocked and ready to work on".

Definition _unblock_dependent_tasks (self : t) (task_id : string) : M t :=
  tasks' <- unblock_loop "TD" unblock_notice task_id [] (tasks self) ;;
  StateManager.save_tasks tasks' ;;
  ret (mk tasks').

Definition complete_task (self : t) (task_id : string) : M (bool * t) :=
  match dict_get (tasks self) task_id with
  | None =>
      print ("Error: Task " ++ task_id ++ " does not exist") ;;
      ret (false, self)
  | Some task =>
      if status_eqb (status task) COMPLETED then
        print ("Warning: Task " ++ task_id ++ " is already completed") ;;
        ret (true, self)
      else if status_eqb (status task) BLOCKED then
        print ("Error: Cannot complete task " ++ task_id
               ++ " - it is blocked by dependencies") ;;
        ret (false, self)
      else
        let task := set_status task COMPLETED in
        now <- datetime_now ;;
        let task := set_completed_at task (Some now) in
        let self := mk (dict_set (tasks self) task_id task) in
        StateManager.save_tasks (tasks self) ;;
        StateManager.append_log "TD" ("Completed task " ++ task_id) ;;
        self <- _unblock_dependent_tasks self task_id ;;
        print ("Task " ++ task_id ++ " marked as completed") ;;
        ret (true, self)
  end.

End TechDirector.

(* ================================================================== *)
(** ** [class Group] *)

Module Group.

Record t : Type := mk { name : string }.

(** The constructor: an invalid name raises [ValueError]; a new name is
    registered, a known one is left as it is. *)
Definition __init__ (group : string) : M t :=
  ok <- validate_id group "Group name" ;;
  if negb ok then raise (mkExn ValueError ("Invalid group name: " ++ group))
  else
    groups <- StateManager.load_groups ;;
    (if negb (dict_mem groups group) then
       now <- datetime_now ;;
       StateManager.save_groups (dict_set groups group (mkGroupInfo group now))
     else ret tt) ;;
    ret (mk group).

Definition _check_dependencies (self : t) (task : Task) (tasks : dict Task) : bool :=
  check_dependencies tasks task.

Definition unblock_notice (task_id tid : string) : string :=
  "Task " ++ tid ++ " is now unblocked and ready to work on (dependency "
  ++ task_id ++ " completed)".

Definition _unblock_dependent_tasks (self : t) (task_id : string)
                                    (tasks : dict Task) : M (dict Task) :=
  unblock_loop (name self) (unblock_notice task_id) task_id [] tasks.

(** [task.assigned_to != self.name]. *)
Definition assigned_to_other (task : Task) (self : t) : bool :=
  match assigned_to task with
  | Some g => negb (g =? name self)%string
  | None => true
  end.

Definition complete_task (self : t) (task_id : string) : M bool :=
  tasks <- StateManager.load_tasks ;;
  match dict_get tasks task_id with
  | None =>
      print ("Error: Task " ++ task_id ++ " does not exist") ;;
      ret false
  | Some task =>
      if assigned_to_other task self then
        print ("Error: Task " ++ task_id ++ " is not assigned to " ++ name self) ;;
        ret false
      else if status_eqb (status task) COMPLETED then
        print ("Warning: Task " ++ task_id ++ " is already completed") ;;
        ret true
      else if status_eqb (status task) BLOCKED then
        print ("Error: Cannot complete task " ++ task_id
               ++ " - it is blocked by dependencies") ;;
        ret false
      else
        let task := set_status task COMPLETED in
        now <- datetime_now ;;
        let task := set_completed_at task (Some now) in
        let tasks := dict_set tasks task_id task in
        tasks <- _unblock_dependent_tasks self task_id tasks ;;
        StateManager.save_tasks tasks ;;
        StateManager.append_log (name self) ("Completed task " ++ task_id) ;;
        message <- new_Message (name self) "TD" ("Task " ++ task_id ++ " completed") ;;
        StateManager.append_message message ;;
        TmuxManager.notify "TD" (name self ++ " completed task: " ++ task_id) ;;
        print ("Task " ++ task_id ++ " marked as completed") ;;
        ret true
  end.

End Group.

(* ================================================================== *)
(** ** What the cascade decides, as functions of the dictionary *)

(** Is the dependency [k] a completed task of [tasks]? *)
Definition completed_in (tasks : dict Task) (k : string) : bool :=
  match dict_get tasks k with
  | None => false
  | Some dep => status_eqb (status dep) COMPLETED
  end.

(** The three tests a visit makes before it unblocks [task]. *)
Definition unblockable (tasks : dict Task) (task_id : string) (task : Task) : bool :=
  str_in task_id (dependencies task) && status_eqb (status task) BLOCKED
  && check_dependencies tasks task.

Definition unblock_task (tasks : dict Task) (task_id : string) (task : Task) : Task :=
  if unblockable tasks task_id task then set_status task IN_PROGRESS else task.

Definition dict_map {V} (g : V -> V) (d : dict V) : dict V :=
  map (fun kv => (fst kv, g (snd kv))) d.

(** A message without its time stamp: sender, receiver, text. *)
Definition envelope (m : Message) : string * string * string :=
  (from_agent m, to_agent m, content m).

Definition assignee (task : Task) : string :=
  match assigned_to task with Some g => g | None => "" end.

(** The entries of [todo] whose visit sends a message, in order. *)
Definition notified (tasks : dict Task) (task_id : string) (todo : dict Task)
  : dict Task :=
  filter (fun kv => unblockable tasks task_id (snd kv)
                    && truthy (assigned_to (snd kv))) todo.

Definition notices (actor : string) (notice : string -> string)
                   (tasks : dict Task) (task_id : string) (todo : dict Task)
  : list (string * string * string) :=
  map (fun kv => (actor, assignee (snd kv), notice (fst kv)))
      (notified tasks task_id todo).

(** The message log as a reader finds it.  [messages_readable]: the
    file is not there, or holds a list of messages, or holds text that
    is not JSON; these are the files [load_messages] returns from and
    [save_messages] can write over.  A file that cannot be opened (an
    [OSError], such as a directory of that name) is left out: opening
    it for writing fails as well. *)
Definition stored_messages (w : World) : list Message :=
  match messages_file w with Holds l => l | _ => [] end.

Definition messages_readable (w : World) : Prop :=
  match messages_file w with
  | Broken e => is_JSONDecodeError e = true
  | _ => True
  end.

(** A store every blocked task of which still waits for a dependency:
    the meaning the glossary gives to Blocked.  Every store the
    operations build from the empty one is of this kind
    ([built_is_consistent]). *)
Definition store_consistent (tasks : dict Task) : Prop :=
  forallb (fun kv => negb (status_eqb (status (snd kv)) BLOCKED
                           && check_dependencies tasks (snd kv)))
          tasks = true.

(** The keys of a Python dictionary are pairwise different. *)
Fixpoint distinct (l : list string) : bool :=
  match l with
  | [] => true
  | x :: r => negb (str_in x r) && distinct r
  end.

Definition unique_keys {V} (d : dict V) : Prop := distinct (keys d) = true.

(** [w'] differs from [w] at most by what was printed: no file was
    written, no log line added, no key sent, the clock was not read. *)
Definition untouched (w w' : World) : Prop :=
  tasks_file w' = tasks_file w /\ messages_file w' = messages_file w
  /\ groups_file w' = groups_file w /\ saves w' = saves w
  /\ logs w' = logs w /\ tmux_keys w' = tmux_keys w /\ clock w' = clock w.

(* ================================================================== *)
(** ** Running computations *)

(** [c] started in [w] returns [a] and leaves [w']. *)
Definition runs {A} (c : M A) (w : World) (a : A) (w' : World) : Prop :=
  c w = (Return a, w').

(** Between [w] and [w'] the message log was extended by [appended] and
    can still be read. *)
Definition log_grows (w w' : World) (appended : list Message) : Prop :=
  stored_messages w' = stored_messages w ++ appended /\ messages_readable w'.

(** The task [complete_task] stores: completed and stamped. *)
Definition completed_now (task : Task) (now : string) : Task :=
  set_completed_at (set_status task COMPLETED) (Some now).

(** What [validate_id] returns. *)
Definition passes_validate_id (s : string) : bool :=
  negb (s =? "")%string && re_match_id s.

(** The task [assign_task] stores. *)
Definition assigned_now (tasks : dict Task) (task : Task) (g : string) : Task :=
  set_status (set_assigned_to task (Some g))
             (if check_dependencies tasks task then IN_PROGRESS else BLOCKED).

(** The tasks a reader of [tasks.json] finds.  [tasks_readable]: the
    file is not there, or holds a dictionary of tasks, or holds text
    that is not JSON; a file that cannot be opened is left out, as for
    the message log. *)
Definition stored_tasks (w : World) : dict Task :=
  match tasks_file w with Holds d => d | _ => [] end.

Definition tasks_readable (w : World) : Prop :=
  match tasks_file w with
  | Broken e => is_JSONDecodeError e = true
  | _ => True
  end.

(** [main] on [td create-task <id> <title> <description> --deps ...]: the
    process builds the Director, which loads the store, and calls
    [create_task]; the result is what [create_task] returned. *)
Definition td_create_task (task_id ttl descr : string) (deps : list string) : M bool :=
  td <- TechDirector.__init__ ;;
  r <- TechDirector.create_task td task_id ttl descr (Some deps) ;;
  ret (fst r).

(** The stores the operations build, one process after the other, from
    an empty state directory: what [create_task], [assign_task] and the
    two [complete_task] save when they return True. *)
Inductive built : dict Task -> Prop :=
| built_empty : built []
| built_create (tasks : dict Task) (task_id ttl descr now : string) (deps : list string) :
    built tasks ->
    dict_mem tasks task_id = false ->
    (forall dep, In dep deps -> dict_mem tasks dep = true) ->
    built (tasks ++ [(task_id, mkTask task_id ttl descr None PENDING deps now None)])
| built_assign (tasks : dict Task) (task_id g : string) (task : Task) :
    built tasks ->
    dict_get tasks task_id = Some task ->
    built (dict_set tasks task_id (assigned_now tasks task g))
| built_complete (tasks : dict Task) (task_id now : string) (task : Task) :
    built tasks ->
    dict_get tasks task_id = Some task ->
    status task = PENDING \/ status task = IN_PROGRESS ->
    built (let D := dict_set tasks task_id (completed_now task now) in
           dict_map (unblock_task D task_id) D).

(* ------------------------------------------------------------------ *)
(** *** Stores and worlds used as examples *)

Definition example_wall (n : nat) : string :=
  "2024-01-01T00:00:0" ++ String (ascii_of_nat (48 + n)) "".

(** A fresh state directory: no file yet, no tmux session. *)
Definition fresh_world : World :=
  mkWorld Missing Missing Missing [] [] [] [] [] example_wall 0.

(** The chain A <- B <- C: A in progress at alpha, B and C assigned to
    beta and waiting. *)
Definition chain_A : Task :=
  mkTask "A" "first" "" (Some "alpha") IN_PROGRESS [] "2023-12-31T10:00:00" None.
Definition chain_B : Task :=
  mkTask "B" "second" "" (Some "beta") BLOCKED ["A"] "2023-12-31T10:00:01" None.
Definition chain_C : Task :=
  mkTask "C" "third" "" (Some "beta") BLOCKED ["B"] "2023-12-31T10:00:02" None.

Definition chain_store : dict Task :=
  [("A", chain_A); ("B", chain_B); ("C", chain_C)].

Definition chain_world : World :=
  mkWorld (Holds chain_store) Missing Missing [] [] [] [] [] example_wall 0.

(** A state directory whose three JSON files hold text that is not JSON. *)
Definition bad_json : exn :=
  mkExn JSONDecodeError "Expecting value: line 1 column 1 (char 0)".

Definition corrupt_world : World :=
  mkWorld (Broken bad_json) (Broken bad_json) (Broken bad_json)
          [] [] [] [] [] example_wall 0.



(** Two tasks waiting for [t1], created in the order z, a: the store the
    commands create-task t1, create-task z, create-task a, assign-task t1
    alpha, assign-task z alpha, assign-task a beta leave behind. *)
Definition unsorted_t1 : Task :=
  mkTask "t1" "base" "" (Some "alpha") IN_PROGRESS [] (example_wall 0) None.

Definition unsorted_store : dict Task :=
  [("t1", unsorted_t1);
   ("z", mkTask "z" "later" "" (Some "alpha") BLOCKED ["t1"] (example_wall 2) None);
   ("a", mkTask "a" "sooner" "" (Some "beta") BLOCKED ["t1"] (example_wall 4) None)].

Definition unsorted_world : World :=
  mkWorld (Holds unsorted_store) Missing Missing [] [] [] [] [] example_wall 0.

(** One task just created, and the same task completed. *)
Definition fresh_t1 : Task :=
  mkTask "t1" "base" "" None PENDING [] (example_wall 0) None.

Definition fresh_store : dict Task := [("t1", fresh_t1)].

Definition done_t1 : Task := completed_now fresh_t1 (example_wall 2).

Definition done_store : dict Task := [("t1", done_t1)].

(** An identifier followed by a line feed, as a shell passes it with
    [$'t1\n']. *)
Definition newline_id : string := "t1" ++ String LF "".

(* ================================================================== *)
(** ** The rest of the program *)

From Stdlib Require Import Permutation Sorted.

(* ------------------------------------------------------------------ *)
(** *** [to_dict] and [from_dict] *)

(** The dictionary [Task.to_dict] builds and [Task.from_dict] reads: the
    fields of the dataclass, the status as its string value.  A field of
    type option is [None] where the JSON holds null. *)
Record TaskData : Type := mkTaskData {
  d_id : string;
  d_title : string;
  d_description : string;
  d_assigned_to : option string;
  d_status : string;
  d_dependencies : option (list string);
  d_created_at : option string;
  d_completed_at : option string
}.

(** [asdict(self)] with [data['status'] = self.status.value]. *)
Definition Task_to_dict (t : Task) : TaskData :=
  mkTaskData (id t) (title t) (description t) (assigned_to t)
             (status_value (status t)) (Some (dependencies t))
             (Some (created_at t)) (completed_at t).

(** [Task.from_dict]: [TaskStatus(data['status'])] raises [ValueError] on
    a string that is no status value; then the constructor runs, and
    [__post_init__] replaces a null [dependencies] by the empty list and
    a null [created_at] by the time of the call. *)
Definition Task_from_dict (data : TaskData) : M Task :=
  match TaskStatus_of_value (d_status data) with
  | None =>
      raise (mkExn ValueError ("'" ++ d_status data ++ "' is not a valid TaskStatus"))
  | Some s =>
      let deps := match d_dependencies data with Some l => l | None => [] end in
      created <- match d_created_at data with
                 | Some c => ret c
                 | None => datetime_now
                 end ;;
      ret (mkTask (d_id data) (d_title data) (d_description data)
                  (d_assigned_to data) s deps created (d_completed_at data))
  end.

(** The dictionary of a message; [timestamp] may be null on the way in. *)
Record MessageData : Type := mkMessageData {
  d_from_agent : string;
  d_to_agent : string;
  d_content : string;
  d_timestamp : option string
}.

Definition Message_to_dict (m : Message) : MessageData :=
  mkMessageData (from_agent m) (to_agent m) (content m) (Some (timestamp m)).

Definition Message_from_dict (data : MessageData) : M Message :=
  stamp <- match d_timestamp data with
           | Some ts => ret ts
           | None => datetime_now
           end ;;
  ret (mkMessage (d_from_agent data) (d_to_agent data) (d_content data) stamp).

(* ------------------------------------------------------------------ *)
(** *** [sorted], [split], [join] and slices *)

(** [sorted(d.items())]: the entries in ascending order of their keys,
    strings being compared character by character.  The keys of a
    dictionary differ, so the order of the values is never asked for. *)
Fixpoint insert_item {V} (kv : string * V) (l : dict V) : dict V :=
  match l with
  | [] => [kv]
  | kv' :: r =>
      if String.leb (fst kv) (fst kv') then kv :: l else kv' :: insert_item kv r
  end.

Fixpoint sorted_items {V} (d : dict V) : dict V :=
  match d with
  | [] => []
  | kv :: r => insert_item kv (sorted_items r)
  end.

(** [s.split(',')]. *)
Fixpoint split_commas (s : string) : list string :=
  match s with
  | EmptyString => [EmptyString]
  | String c r =>
      if Ascii.eqb c ","%char then EmptyString :: split_commas r
      else match split_commas r with
           | p :: ps => String c p :: ps
           | [] => [String c EmptyString]
           end
  end.

(** [l[-n:]] for a positive [n]. *)
Definition last_n {X} (n : nat) (l : list X) : list X :=
  skipn (length l - n) l.

(* ------------------------------------------------------------------ *)
(** *** [class TechDirector], continued *)

Module TechDirector'.

(** The line [list_tasks] prints for one task. *)
Definition task_line (task_id : string) (task : Task) : string :=
  let deps_str : string :=
    match dependencies task with
    | [] => ""
    | _ => (" [deps: " ++ String.concat ", " (dependencies task) ++ "]")%string
    end in
  let assigned_str : string :=
    if truthy (assigned_to task) then (" -> " ++ assignee task)%string else "" in
  (task_id ++ ": " ++ title task ++ " [" ++ status_value (status task) ++ "]"
   ++ assigned_str ++ deps_str)%string.

(** [if status_filter and task.status.value != status_filter: continue],
    read as the test for printing. *)
Definition shown (status_filter : option string) (task : Task) : bool :=
  negb (truthy status_filter
        && negb (status_value (status task)
                 =? match status_filter with Some f => f | None => "" end)%string).

(** The [for] loop of [list_tasks] over the sorted entries. *)
Fixpoint print_tasks (status_filter : option string) (items : dict Task) : M unit :=
  match items with
  | [] => ret tt
  | (task_id, task) :: rest =>
      (if shown status_filter task then print (task_line task_id task)
       else ret tt) ;;
      print_tasks status_filter rest
  end.

Definition list_tasks (self : TechDirector.t) (status_filter : option string) : M unit :=
  match TechDirector.tasks self with
  | [] => print "No tasks found"
  | _ =>
      print (String LF "=== Tasks ===") ;;
      print_tasks status_filter (sorted_items (TechDirector.tasks self)) ;;
      print ""
  end.

(** [send_message]: no check of the receiver. *)
Definition send_message (self : TechDirector.t) (to_agent text : string) : M unit :=
  message <- new_Message "TD" to_agent text ;;
  StateManager.append_message message ;;
  StateManager.append_log "TD" ("Sent message to " ++ to_agent ++ ": " ++ text) ;;
  TmuxManager.notify to_agent text ;;
  print ("Message sent to " ++ to_agent).

End TechDirector'.

(* ------------------------------------------------------------------ *)
(** *** [class Group], continued *)

Module Group'.

(** [t.assigned_to == self.name]. *)
Definition assigned_to_me (self : Group.t) (task : Task) : bool :=
  negb (Group.assigned_to_other task self).

(** The two lines [my_tasks] prints for one task. *)
Fixpoint print_my_tasks (items : dict Task) : M unit :=
  match items with
  | [] => ret tt
  | (task_id, task) :: rest =>
      print (task_id ++ ": " ++ title task ++ " [" ++ status_value (status task) ++ "]") ;;
      print ("  Description: " ++ description task) ;;
      print_my_tasks rest
  end.

Definition my_tasks (self : Group.t) : M unit :=
  tasks <- StateManager.load_tasks ;;
  match filter (fun kv => assigned_to_me self (snd kv)) tasks with
  | [] => print ("No tasks assigned to " ++ Group.name self)
  | mine =>
      print (String LF ("=== Tasks for " ++ Group.name self ++ " ===")) ;;
      print_my_tasks (sorted_items mine) ;;
      print ""
  end.

Definition report_progress (self : Group.t) (task_id progress_message : string) : M bool :=
  tasks <- StateManager.load_tasks ;;
  match dict_get tasks task_id with
  | None =>
      print ("Error: Task " ++ task_id ++ " does not exist") ;;
      ret false
  | Some task =>
      if Group.assigned_to_other task self then
        print ("Error: Task " ++ task_id ++ " is not assigned to " ++ Group.name self) ;;
        ret false
      else
        StateManager.append_log (Group.name self)
          ("Progress on " ++ task_id ++ ": " ++ progress_message) ;;
        message <- new_Message (Group.name self) "TD"
                     ("Progress on " ++ task_id ++ ": " ++ progress_message) ;;
        StateManager.append_message message ;;
        TmuxManager.notify "TD" (Group.name self ++ " reports: " ++ progress_message) ;;
        print ("Progress reported for task " ++ task_id) ;;
        ret true
  end.

(** The line [read_messages] prints for one message. *)
Definition message_line (msg : Message) : string :=
  "[" ++ timestamp msg ++ "] From " ++ from_agent msg ++ ": " ++ content msg.

Fixpoint print_messages (msgs : list Message) : M unit :=
  match msgs with
  | [] => ret tt
  | msg :: rest => print (message_line msg) ;; print_messages rest
  end.

Definition read_messages (self : Group.t) : M unit :=
  messages <- StateManager.load_messages ;;
  match filter (fun m => (to_agent m =? Group.name self)%string) messages with
  | [] => print ("No messages for " ++ Group.name self)
  | mine =>
      print (String LF ("=== Messages for " ++ Group.name self ++ " ===")) ;;
      print_messages (last_n 10 mine) ;;
      print ""
  end.

End Group'.

(* ------------------------------------------------------------------ *)
(** *** [monitor_logs] and [main] *)

(** The text of [<agent>.log]: the lines appended for the agent, in
    order; [None] when no line was ever written and the file is not
    there. *)
Definition log_text (w : World) (agent : string) : option string :=
  match filter (fun entry => (fst entry =? agent)%string) (logs w) with
  | [] => None
  | entries => Some (String.concat "" (map snd entries))
  end.

(** [monitor_logs].  Called without a group it calls itself for every
    registered name; a registered empty name is no group for the test
    [if group_name:], so that call starts over.  [depth] is the number of
    calls Python's recursion limit still allows; the result [None]
    stands for the [RecursionError] that ends the process. *)
Fixpoint monitor_logs (depth : nat) (self : TechDirector.t) (group_name : option string)
  : M (option unit) :=
  match depth with
  | 0 => ret None
  | S depth' =>
      if truthy group_name then
        let group := match group_name with Some g => g | None => "" end in
        fun w =>
          match log_text w group with
          | Some text =>
              (print (String LF ("=== " ++ group ++ " Logs ===")) ;;
               print text ;;
               ret (Some tt)) w
          | None =>
              (print ("No logs found for " ++ group) ;; ret (Some tt)) w
          end
      else
        groups <- StateManager.load_groups ;;
        (fix each (names : list string) : M (option unit) :=
           match names with
           | [] => ret (Some tt)
           | gname :: rest =>
               r <- monitor_logs depth' self (Some gname) ;;
               match r with
               | Some _ => each rest
               | None => ret None
               end
           end) (keys groups)
  end.

(** The lines printed when no command is given. *)
Definition usage : list string :=
  ["Usage: agent_swarm.py <command> [args...]";
   String LF "Tech Director Commands:";
   "  td create-task <id> <title> <description> [--deps dep1,dep2,...]";
   "  td assign-task <id> <group>";
   "  td complete-task <id>";
   "  td list-tasks [--status <status>]";
   "  td monitor-logs [<group>]";
   "  td send-message <group> <message>";
   String LF "Group Commands:";
   "  group <name> my-tasks";
   "  group <name> report-progress <task-id> <message>";
   "  group <name> complete-task <task-id>";
   "  group <name> read-messages"].

Fixpoint print_lines (lines : list string) : M unit :=
  match lines with
  | [] => ret tt
  | line :: rest => print line ;; print_lines rest
  end.

(** [sys.argv[k]], read only where the length was checked. *)
Definition arg (argv : list string) (k : nat) : string := nth k argv "".

(** [main()]: the value is the exit status handed to [sys.exit]; [None]
    is the process ended by a [RecursionError] in [monitor_logs]. *)
Definition main (depth : nat) (argv : list string) : M (option nat) :=
  if length argv <? 2 then print_lines usage ;; ret (Some 1)
  else
    let command := arg argv 1 in
    if (command =? "td")%string then
      if length argv <? 3 then print "Error: TD command required" ;; ret (Some 1)
      else
        td <- TechDirector.__init__ ;;
        let td_command := arg argv 2 in
        if (td_command =? "create-task")%string then
          if length argv <? 6 then
            print "Error: create-task requires <id> <title> <description>" ;;
            ret (Some 1)
          else
            let dependencies :=
              if (6 <? length argv) && (arg argv 6 =? "--deps")%string then
                if 7 <? length argv then split_commas (arg argv 7) else []
              else [] in
            TechDirector.create_task td (arg argv 3) (arg argv 4) (arg argv 5)
                                     (Some dependencies) ;;
            ret (Some 0)
        else if (td_command =? "assign-task")%string then
          if length argv <? 5 then
            print "Error: assign-task requires <id> <group>" ;; ret (Some 1)
          else
            TechDirector.assign_task td (arg argv 3) (arg argv 4) ;;
            ret (Some 0)
        else if (td_command =? "complete-task")%string then
          if length argv <? 4 then
            print "Error: complete-task requires <id>" ;; ret (Some 1)
          else
            TechDirector.complete_task td (arg argv 3) ;;
            ret (Some 0)
        else if (td_command =? "list-tasks")%string then
          let status_filter :=
            if (3 <? length argv) && (arg argv 3 =? "--status")%string then
              if 4 <? length argv then Some (arg argv 4) else None
            else None in
          TechDirector'.list_tasks td status_filter ;;
          ret (Some 0)
        else if (td_command =? "monitor-logs")%string then
          let group := if 3 <? length argv then Some (arg argv 3) else None in
          r <- monitor_logs depth td group ;;
          match r with
          | Some _ => ret (Some 0)
          | None => ret None
          end
        else if (td_command =? "send-message")%string then
          if length argv <? 5 then
            print "Error: send-message requires <group> <message>" ;; ret (Some 1)
          else
            TechDirector'.send_message td (arg argv 3)
                                       (String.concat " " (skipn 4 argv)) ;;
            ret (Some 0)
        else
          print ("Error: Unknown TD command: " ++ td_command) ;; ret (Some 1)
    else if (command =? "group")%string then
      if length argv <? 4 then
        print "Error: group command requires <name> <action>" ;; ret (Some 1)
      else
        let group_name := arg argv 2 in
        let group_command := arg argv 3 in
        group <- Group.__init__ group_name ;;
        if (group_command =? "my-tasks")%string then
          Group'.my_tasks group ;; ret (Some 0)
        else if (group_command =? "report-progress")%string then
          if length argv <? 6 then
            print "Error: report-progress requires <task-id> <message>" ;;
            ret (Some 1)
          else
            Group'.report_progress group (arg argv 4)
                                   (String.concat " " (skipn 5 argv)) ;;
            ret (Some 0)
        else if (group_command =? "complete-task")%string then
          if length argv <? 5 then
            print "Error: complete-task requires <task-id>" ;; ret (Some 1)
          else
            Group.complete_task group (arg argv 4) ;;
            ret (Some 0)
        else if (group_command =? "read-messages")%string then
          Group'.read_messages group ;; ret (Some 0)
        else
          print ("Error: Unknown group command: " ++ group_command) ;; ret (Some 1)
    else
      print ("Error: Unknown command: " ++ command) ;; ret (Some 1).

(* ------------------------------------------------------------------ *)
(** *** Notions used to state what the rest of the program does *)

(** [append_message] called for each message of a list in turn. *)
Fixpoint append_messages (messages : list Message) : M unit :=
  match messages with
  | [] => ret tt
  | m :: rest => StateManager.append_message m ;; append_messages rest
  end.

(** The registrations a reader of [groups.json] finds.
    [groups_readable]: the file is not there, or holds a dictionary, or
    holds text that is not JSON; a file that cannot be opened is left
    out, as for the message log. *)
Definition stored_groups (w : World) : dict GroupInfo :=
  match groups_file w with Holds d => d | _ => [] end.

Definition groups_readable (w : World) : Prop :=
  match groups_file w with
  | Broken e => is_JSONDecodeError e = true
  | _ => True
  end.

(** The fields no operation assigns to after the task is created. *)
Definition same_core (t t' : Task) : Prop :=
  id t' = id t /\ title t' = title t /\ description t' = description t
  /\ dependencies t' = dependencies t /\ created_at t' = created_at t.

(** A message log that cannot be read: the exception is none of those
    [load_messages] catches. *)
Definition schema_error : exn :=
  mkExn TypeError "Message.__init__() got an unexpected keyword argument 'sender'".

(** What stays of the files while only the clock, the logs, the console
    and tmux are used. *)
Definition files_kept (w w' : World) : Prop :=
  tasks_file w' = tasks_file w /\ messages_file w' = messages_file w
  /\ groups_file w' = groups_file w /\ saves w' = saves w.

(** The world after the lines [lines] were printed. *)
Definition printed (w : World) (lines : list string) : World :=
  with_stdout (stdout w ++ lines) w.

(** Entries in ascending order of their keys. *)
Definition ascending {V} (d : dict V) : Prop :=
  Sorted (fun a b => String.leb (fst a) (fst b) = true) d.


(** What of a store no operation changes once a task is created: the
    identifiers in their order, each with its dependencies. *)
Definition skeleton (tasks : dict Task) : list (string * list string) :=
  map (fun kv => (fst kv, dependencies (snd kv))) tasks.

(** The fields of the task stored under [k] agree with each other: the
    task carries its key; a pending task has no group and no completion
    time; a blocked task and a task in progress have a group; a
    completed task has a completion time. *)
Definition coherent (k : string) (t : Task) : Prop :=
  id t = k
  /\ (status t = PENDING -> assigned_to t = None /\ completed_at t = None)
  /\ (status t = BLOCKED \/ status t = IN_PROGRESS -> exists g, assigned_to t = Some g)
  /\ (status t = COMPLETED -> exists ts, completed_at t = Some ts).

(** Runs the binds of a hypothesis about [main] down to the exit status. *)
Ltac run_to_status H :=
  repeat match type of H with
         | bind ?c ?k ?w = _ =>
             let E := fresh "E" in
             unfold bind at 1 in H;
             destruct (c w) as [[? | ?] ?] eqn:E; [cbv beta in H | discriminate H]
         | ret _ _ = _ => unfold ret in H
         | (match ?r with Some _ => _ | None => _ end) _ = _ => destruct r
         end.
(* ================================================================== *)
(** ** Basic facts *)

Lemma status_eqb_eq (a b : TaskStatus) : status_eqb a b = true <-> a = b.
Proof. destruct a, b; simpl; split; intro H; try reflexivity; discriminate H. Qed.

Lemma status_eqb_neq (a b : TaskStatus) : status_eqb a b = false <-> a <> b.
Proof.
  destruct a, b; simpl; split; intro H; try reflexivity; try discriminate H;
    try (intro E; discriminate E); exfalso; apply H; reflexivity.
Qed.

Lemma status_value_roundtrip (s : TaskStatus) :
  TaskStatus_of_value (status_value s) = Some s.
Proof. destruct s; reflexivity. Qed.

Section DictFacts.
Context {V : Type}.
Implicit Types (d : dict V) (k : string) (v : V).

Lemma dict_get_set_same d k v : dict_get (dict_set d k v) k = Some v.
Proof.
  induction d as [|[k' v'] r IH]; simpl.
  - rewrite String.eqb_refl. reflexivity.
  - destruct (String.eqb_spec k k') as [E|N]; simpl.
    + subst. rewrite String.eqb_refl. reflexivity.
    + destruct (String.eqb_spec k k'); [contradiction|exact IH].
Qed.

Lemma dict_get_set_other d k k' v :
  k <> k' -> dict_get (dict_set d k v) k' = dict_get d k'.
Proof.
  intro N. induction d as [|[k0 v0] r IH]; simpl.
  - destruct (String.eqb_spec k' k); [subst; contradiction|reflexivity].
  - destruct (String.eqb_spec k k0) as [E|N0]; simpl.
    + subst k0. destruct (String.eqb_spec k' k); [subst; contradiction|reflexivity].
    + rewrite IH. reflexivity.
Qed.

Lemma dict_get_In_keys d k v : dict_get d k = Some v -> In k (keys d).
Proof.
  induction d as [|[k' v'] r IH]; simpl; [discriminate|].
  destruct (String.eqb_spec k k'); [subst; auto|auto].
Qed.

Lemma dict_get_not_In d k : ~ In k (keys d) -> dict_get d k = None.
Proof.
  induction d as [|[k' v'] r IH]; simpl; [reflexivity|].
  intro N. destruct (String.eqb_spec k k'); [subst; exfalso; auto|auto].
Qed.

Lemma dict_get_In d k v : dict_get d k = Some v -> In (k, v) d.
Proof.
  induction d as [|[k' v'] r IH]; simpl; [discriminate|].
  destruct (String.eqb_spec k k').
  - intro E. injection E as ->. subst. auto.
  - auto.
Qed.

Lemma In_dict_get d k v : NoDup (keys d) -> In (k, v) d -> dict_get d k = Some v.
Proof.
  induction d as [|[k' v'] r IH]; simpl; [intros _ []|].
  intros ND [E|I].
  - injection E as -> ->. rewrite String.eqb_refl. reflexivity.
  - inversion ND as [|? ? NI ND']; subst.
    destruct (String.eqb_spec k k') as [->|_]; [|auto].
    exfalso. apply NI. change (In (fst (k', v)) (map fst r)).
    apply in_map. exact I.
Qed.

Lemma keys_dict_set_present d k v :
  dict_mem d k = true -> keys (dict_set d k v) = keys d.
Proof.
  unfold dict_mem. induction d as [|[k' v'] r IH]; simpl; [discriminate|].
  destruct (String.eqb_spec k k'); simpl; [reflexivity|].
  intro H. rewrite (IH H). reflexivity.
Qed.

Lemma keys_dict_set_absent d k v :
  dict_mem d k = false -> keys (dict_set d k v) = keys d ++ [k].
Proof.
  unfold dict_mem. induction d as [|[k' v'] r IH]; simpl; [reflexivity|].
  destruct (String.eqb_spec k k'); simpl; [discriminate|].
  intro H. rewrite (IH H). reflexivity.
Qed.

Lemma dict_set_absent d k v :
  dict_mem d k = false -> dict_set d k v = d ++ [(k, v)].
Proof.
  unfold dict_mem. induction d as [|[k' v'] r IH]; simpl; [reflexivity|].
  destruct (String.eqb_spec k k'); simpl; [discriminate|].
  intro H. rewrite (IH H). reflexivity.
Qed.

Lemma dict_get_dict_map (g : V -> V) d k :
  dict_get (dict_map g d) k = option_map g (dict_get d k).
Proof.
  induction d as [|[k' v'] r IH]; simpl; [reflexivity|].
  destruct (k =? k')%string; [reflexivity|exact IH].
Qed.

Lemma keys_dict_map (g : V -> V) d : keys (dict_map g d) = keys d.
Proof.
  unfold keys, dict_map. rewrite map_map. reflexivity.
Qed.

Lemma dict_get_app d1 d2 k :
  dict_get (d1 ++ d2) k =
  match dict_get d1 k with Some v => Some v | None => dict_get d2 k end.
Proof.
  induction d1 as [|[k' v'] r IH]; simpl; [reflexivity|].
  destruct (k =? k')%string; [reflexivity|exact IH].
Qed.

End DictFacts.

Lemma dict_mem_get_Some {V} (d : dict V) k v : dict_get d k = Some v -> dict_mem d k = true.
Proof. unfold dict_mem. intros ->. reflexivity. Qed.

Lemma str_in_In x l : str_in x l = true <-> In x l.
Proof.
  induction l as [|y r IH]; simpl.
  - split; [discriminate|intros []].
  - destruct (String.eqb_spec x y) as [->|N].
    + split; auto.
    + rewrite IH. split; [auto|intros [E|I]; [congruence|exact I]].
Qed.

(** Dependency checks only look at which tasks are completed. *)
Lemma check_dependencies_ext (d1 d2 : dict Task) (task : Task) :
  (forall k, completed_in d1 k = completed_in d2 k) ->
  check_dependencies d1 task = check_dependencies d2 task.
Proof.
  intro H. unfold check_dependencies.
  induction (dependencies task) as [|k r IH]; simpl; [reflexivity|].
  rewrite IH. f_equal. exact (H k).
Qed.

Lemma unblock_task_ext (d1 d2 : dict Task) (task_id : string) (task : Task) :
  (forall k, completed_in d1 k = completed_in d2 k) ->
  unblock_task d1 task_id task = unblock_task d2 task_id task.
Proof.
  intro H. unfold unblock_task, unblockable.
  rewrite (check_dependencies_ext d1 d2 task H). reflexivity.
Qed.

(** Replacing a task where it stands by one that is completed exactly
    when it was does not change any dependency check. *)
Lemma completed_in_replace (visited rest : dict Task) tid (t t' : Task) k :
  status_eqb (status t) COMPLETED = status_eqb (status t') COMPLETED ->
  completed_in (visited ++ (tid, t) :: rest) k
  = completed_in (visited ++ (tid, t') :: rest) k.
Proof.
  intro H. unfold completed_in. rewrite !dict_get_app. simpl.
  destruct (dict_get visited k); [reflexivity|].
  destruct (k =? tid)%string; [exact H|reflexivity].
Qed.

Lemma completed_in_unblock_task (visited rest D : dict Task) task_id tid t k :
  completed_in (visited ++ (tid, unblock_task D task_id t) :: rest) k
  = completed_in (visited ++ (tid, t) :: rest) k.
Proof.
  apply completed_in_replace. unfold unblock_task.
  destruct (unblockable D task_id t) eqn:U; [|reflexivity].
  unfold unblockable in U.
  apply andb_prop in U as [U _]. apply andb_prop in U as [_ U].
  apply status_eqb_eq in U. simpl. rewrite U. reflexivity.
Qed.

(* ------------------------------------------------------------------ *)
(** *** Running computations *)

Lemma runs_ret {A} (a : A) w : runs (ret a) w a w.
Proof. reflexivity. Qed.

Lemma runs_bind {A B} (c : M A) (k : A -> M B) w a w1 b w2 :
  runs c w a w1 -> runs (k a) w1 b w2 -> runs (bind c k) w b w2.
Proof. unfold runs, bind. intros -> H. exact H. Qed.

Lemma log_grows_same w w' :
  messages_readable w -> messages_file w' = messages_file w -> log_grows w w' [].
Proof.
  unfold log_grows, stored_messages, messages_readable. intros R E.
  rewrite E, app_nil_r. auto.
Qed.

Lemma log_grows_trans w1 w2 w3 l1 l2 :
  log_grows w1 w2 l1 -> log_grows w2 w3 l2 -> log_grows w1 w3 (l1 ++ l2).
Proof.
  unfold log_grows. intros [E1 _] [E2 R]. split; [|exact R].
  rewrite E2, E1, app_assoc. reflexivity.
Qed.

Lemma print_runs line w :
  runs (print line) w tt (with_stdout (stdout w ++ [line]) w).
Proof. reflexivity. Qed.

Lemma datetime_now_runs w :
  runs datetime_now w (wall w (clock w)) (with_clock (S (clock w)) w).
Proof. reflexivity. Qed.

Lemma append_log_runs agent text w :
  exists w', runs (StateManager.append_log agent text) w tt w'
             /\ messages_file w' = messages_file w
             /\ tasks_file w' = tasks_file w.
Proof. eexists. split; [reflexivity|]. split; reflexivity. Qed.

Lemma notify_runs agent text w :
  exists w', runs (TmuxManager.notify agent text) w tt w'
             /\ messages_file w' = messages_file w
             /\ tasks_file w' = tasks_file w.
Proof.
  unfold TmuxManager.notify, TmuxManager.session_exists, TmuxManager.send_message,
    runs, bind, dict_mem.
  destruct (dict_get (tmux_sessions w) (TmuxManager.get_session_name agent))
    as [[e|]|] eqn:E; cbv beta iota; try rewrite E;
    eexists; (split; [reflexivity|split; reflexivity]).
Qed.

Lemma save_tasks_runs tasks w :
  exists w', runs (StateManager.save_tasks tasks) w tt w'
             /\ messages_file w' = messages_file w
             /\ tasks_file w' = Holds tasks.
Proof. eexists. split; [reflexivity|]. split; reflexivity. Qed.

Lemma new_Message_runs sender receiver text w :
  exists w' ts, runs (new_Message sender receiver text) w
                     (mkMessage sender receiver text ts) w'
                /\ messages_file w' = messages_file w
                /\ tasks_file w' = tasks_file w.
Proof. eexists. eexists. split; [reflexivity|]. split; reflexivity. Qed.

(** Reading a readable log returns what is stored and leaves it so. *)
Lemma load_messages_runs w :
  messages_readable w ->
  exists w', runs StateManager.load_messages w (stored_messages w) w'
             /\ messages_file w' = messages_file w
             /\ tasks_file w' = tasks_file w.
Proof.
  unfold messages_readable, stored_messages, StateManager.load_messages,
    StateManager.load_json, runs.
  destruct (messages_file w) as [|l|e] eqn:E; intro R.
  - exists w. auto.
  - exists w. auto.
  - destruct (is_JSONDecodeError e).
    + eexists. split; [reflexivity|]. simpl. auto.
    + discriminate R.
Qed.

Lemma append_message_runs message w :
  messages_readable w ->
  exists w', runs (StateManager.append_message message) w tt w'
             /\ log_grows w w' [message]
             /\ tasks_file w' = tasks_file w.
Proof.
  intro R. destruct (load_messages_runs w R) as (w1 & L & Em & Et).
  exists (with_saves (saves w1 ++ ["messages.json"])
            (with_messages_file (Holds (stored_messages w ++ [message])) w1)).
  split; [|split; [split|]].
  - unfold StateManager.append_message. eapply runs_bind; [exact L|reflexivity].
  - reflexivity.
  - exact I.
  - exact Et.
Qed.

Lemma readable_same w w' :
  messages_readable w -> messages_file w' = messages_file w -> messages_readable w'.
Proof. unfold messages_readable. intros R ->. exact R. Qed.

(** One visit of the cascade: the task it leaves and the message it
    sends. *)
Lemma unblock_visit_runs actor notice task_id tasks tid task w :
  messages_readable w ->
  exists w' appended,
    runs (unblock_visit actor notice task_id tasks tid task) w
         (unblock_task tasks task_id task) w'
    /\ log_grows w w' appended
    /\ tasks_file w' = tasks_file w
    /\ map envelope appended =
       if unblockable tasks task_id task && truthy (assigned_to task)
       then [(actor, assignee task, notice tid)] else [].
Proof.
  intro R. unfold unblock_visit, unblock_task, unblockable.
  destruct (str_in task_id (dependencies task) && status_eqb (status task) BLOCKED);
    simpl;
    [|exists w, []; split; [apply runs_ret|]; split; [apply log_grows_same|]; auto].
  destruct (check_dependencies tasks task);
    simpl;
    [|exists w, []; split; [apply runs_ret|]; split; [apply log_grows_same|]; auto].
  destruct (append_log_runs actor ("Unblocked task " ++ tid) w) as (w1 & L1 & M1 & T1).
  destruct (truthy (assigned_to task)) eqn:Tr.
  - destruct (new_Message_runs actor (assignee task) (notice tid) w1)
      as (w2 & ts & L2 & M2 & T2).
    assert (R2 : messages_readable w2).
    { apply (readable_same w1); [apply (readable_same w)|]; assumption. }
    destruct (append_message_runs (mkMessage actor (assignee task) (notice tid) ts) w2 R2)
      as (w3 & L3 & [S3 R3] & T3).
    destruct (notify_runs (assignee task) ("Task " ++ tid ++ " is now unblocked!") w3)
      as (w4 & L4 & M4 & T4).
    exists w4, [mkMessage actor (assignee task) (notice tid) ts].
    split; [|split; [|split]].
    + eapply runs_bind; [exact L1|].
      eapply runs_bind; [|apply runs_ret].
      eapply runs_bind; [exact L2|].
      eapply runs_bind; [exact L3|exact L4].
    + split; [|apply (readable_same w3); assumption].
      unfold stored_messages in *. rewrite M4, S3, M2, M1. reflexivity.
    + congruence.
    + reflexivity.
  - exists w1, []. split; [|split; [|split]].
    + eapply runs_bind; [exact L1|].
      eapply runs_bind; [apply runs_ret|apply runs_ret].
    + apply log_grows_same; assumption.
    + exact T1.
    + reflexivity.
Qed.

(** The whole loop: every entry still ahead is replaced by what its visit
    makes of it, where the dependency checks may be read off any
    dictionary [D] with the same completed tasks; the messages follow the
    order of the entries. *)
Lemma unblock_loop_runs actor notice task_id D :
  forall todo visited w,
    (forall k, completed_in (visited ++ todo) k = completed_in D k) ->
    messages_readable w ->
    exists w' appended,
      runs (unblock_loop actor notice task_id visited todo) w
           (visited ++ dict_map (unblock_task D task_id) todo) w'
      /\ log_grows w w' appended
      /\ tasks_file w' = tasks_file w
      /\ map envelope appended = notices actor notice D task_id todo.
Proof.
  induction todo as [|[tid task] rest IH]; intros visited w HD R.
  - exists w, []. simpl. rewrite app_nil_r.
    split; [apply runs_ret|]. split; [apply log_grows_same|]; auto.
  - destruct (unblock_visit_runs actor notice task_id
                (visited ++ (tid, task) :: rest) tid task w R)
      as (w1 & l1 & L1 & G1 & T1 & E1).
    rewrite (unblock_task_ext _ D task_id task HD) in L1.
    assert (U : unblockable (visited ++ (tid, task) :: rest) task_id task
                = unblockable D task_id task).
    { unfold unblockable. rewrite (check_dependencies_ext _ D task HD). reflexivity. }
    rewrite U in E1.
    destruct (IH (visited ++ [(tid, unblock_task D task_id task)]) w1)
      as (w2 & l2 & L2 & G2 & T2 & E2).
    + intro k. rewrite <- app_assoc. simpl.
      rewrite completed_in_unblock_task. apply HD.
    + apply G1.
    + exists w2, (l1 ++ l2). split; [|split; [|split]].
      * simpl. eapply runs_bind; [exact L1|].
        rewrite <- app_assoc in L2. exact L2.
      * eapply log_grows_trans; eassumption.
      * congruence.
      * rewrite map_app, E1, E2. unfold notices, notified. simpl.
        destruct (unblockable D task_id task && truthy (assigned_to task));
          reflexivity.
Qed.

Lemma TD_complete_task_runs self task_id task w :
  dict_get (TechDirector.tasks self) task_id = Some task ->
  status task <> COMPLETED ->
  status task <> BLOCKED ->
  messages_readable w ->
  let D := dict_set (TechDirector.tasks self) task_id
                    (completed_now task (wall w (clock w))) in
  let final := dict_map (unblock_task D task_id) D in
  exists w' appended,
    runs (TechDirector.complete_task self task_id) w (true, TechDirector.mk final) w'
    /\ tasks_file w' = Holds final
    /\ log_grows w w' appended
    /\ map envelope appended = notices "TD" TechDirector.unblock_notice D task_id D.
Proof.
  intros G NC NB R D final.
  apply status_eqb_neq in NC. apply status_eqb_neq in NB.
  unfold TechDirector.complete_task. rewrite G, NC, NB.
  pose proof (datetime_now_runs w) as L0.
  set (w0 := with_clock (S (clock w)) w) in L0.
  destruct (save_tasks_runs D w0) as (w1 & L1 & M1 & T1).
  destruct (append_log_runs "TD" ("Completed task " ++ task_id) w1) as (w2 & L2 & M2 & T2).
  assert (R2 : messages_readable w2).
  { apply (readable_same w1); [apply (readable_same w0)|]; auto. }
  destruct (unblock_loop_runs "TD" TechDirector.unblock_notice task_id D D [] w2
              (fun k => eq_refl) R2) as (w3 & app & L3 & G3 & T3 & E3).
  destruct (save_tasks_runs final w3) as (w4 & L4 & M4 & T4).
  eexists. exists app.
  split; [|split; [|split]].
  - eapply runs_bind; [exact L0|]. cbv zeta.
    eapply runs_bind; [exact L1|].
    eapply runs_bind; [exact L2|].
    eapply runs_bind.
    + unfold TechDirector._unblock_dependent_tasks.
      eapply runs_bind; [exact L3|].
      eapply runs_bind; [exact L4|apply runs_ret].
    + eapply runs_bind; [apply print_runs|apply runs_ret].
  - exact T4.
  - destruct G3 as [S3 R3]. split.
    + unfold stored_messages in *. simpl. rewrite M4, S3, M2, M1. reflexivity.
    + apply (readable_same w4); [apply (readable_same w3)|]; auto.
  - exact E3.
Qed.

Lemma load_tasks_Holds tasks w :
  tasks_file w = Holds tasks -> runs StateManager.load_tasks w tasks w.
Proof.
  unfold runs, StateManager.load_tasks. intros ->. reflexivity.
Qed.

Lemma Group_complete_task_runs self task_id tasks task w :
  tasks_file w = Holds tasks ->
  dict_get tasks task_id = Some task ->
  assigned_to task = Some (Group.name self) ->
  status task <> COMPLETED ->
  status task <> BLOCKED ->
  messages_readable w ->
  let D := dict_set tasks task_id (completed_now task (wall w (clock w))) in
  let final := dict_map (unblock_task D task_id) D in
  exists w' appended done,
    runs (Group.complete_task self task_id) w true w'
    /\ tasks_file w' = Holds final
    /\ log_grows w w' (appended ++ [done])
    /\ map envelope appended
       = notices (Group.name self) (Group.unblock_notice task_id) D task_id D
    /\ envelope done = (Group.name self, "TD", ("Task " ++ task_id ++ " completed")%string).
Proof.
  intros F G Own NC NB R D final.
  apply status_eqb_neq in NC. apply status_eqb_neq in NB.
  unfold Group.complete_task.
  assert (O : Group.assigned_to_other task self = false).
  { unfold Group.assigned_to_other. rewrite Own, String.eqb_refl. reflexivity. }
  pose proof (datetime_now_runs w) as L0.
  set (w0 := with_clock (S (clock w)) w) in L0.
  assert (R0 : messages_readable w0) by exact R.
  destruct (unblock_loop_runs (Group.name self) (Group.unblock_notice task_id)
              task_id D D [] w0 (fun k => eq_refl) R0) as (w1 & app & L1 & [S1 R1] & T1 & E1).
  destruct (save_tasks_runs final w1) as (w2 & L2 & M2 & T2).
  destruct (append_log_runs (Group.name self) ("Completed task " ++ task_id) w2)
    as (w3 & L3 & M3 & T3).
  destruct (new_Message_runs (Group.name self) "TD" ("Task " ++ task_id ++ " completed") w3)
    as (w4 & ts & L4 & M4 & T4).
  assert (R4 : messages_readable w4).
  { apply (readable_same w3); [apply (readable_same w2); [apply (readable_same w1)|]|]; auto. }
  destruct (append_message_runs
              (mkMessage (Group.name self) "TD" ("Task " ++ task_id ++ " completed") ts) w4 R4)
    as (w5 & L5 & [S5 R5] & T5).
  destruct (notify_runs "TD" (Group.name self ++ " completed task: " ++ task_id) w5)
    as (w6 & L6 & M6 & T6).
  eexists. exists app. eexists.
  split; [|split; [|split; [|split]]].
  - eapply runs_bind; [apply load_tasks_Holds; exact F|].
    rewrite G, O, NC, NB.
    eapply runs_bind; [exact L0|]. cbv zeta.
    eapply runs_bind; [exact L1|].
    eapply runs_bind; [exact L2|].
    eapply runs_bind; [exact L3|].
    eapply runs_bind; [exact L4|].
    eapply runs_bind; [exact L5|].
    eapply runs_bind; [exact L6|].
    eapply runs_bind; [apply print_runs|apply runs_ret].
  - simpl. congruence.
  - split.
    + unfold stored_messages in *. simpl. rewrite M6, S5, M4, M3, M2, S1, app_assoc.
      reflexivity.
    + apply (readable_same w6); [apply (readable_same w5)|]; auto.
  - exact E1.
  - reflexivity.
Qed.

Lemma string_length_append (a b : string) :
  String.length (a ++ b) = String.length a + String.length b.
Proof.
  induction a as [|c a IH]; simpl; [reflexivity|].
  rewrite IH. reflexivity.
Qed.

Lemma append_cancel_l (p a b : string) : (p ++ a = p ++ b)%string -> a = b.
Proof.
  induction p as [|c p IH]; simpl; intro H; [exact H|].
  injection H as H. auto.
Qed.

Lemma append_cancel_r (a b s : string) : (a ++ s = b ++ s)%string -> a = b.
Proof.
  revert b. induction a as [|c a IH]; intros [|d b] H; simpl in H.
  - reflexivity.
  - exfalso. apply (f_equal String.length) in H. simpl in H.
    rewrite string_length_append in H. lia.
  - exfalso. apply (f_equal String.length) in H. simpl in H.
    rewrite string_length_append in H. lia.
  - injection H as -> H. f_equal. auto.
Qed.

Lemma TD_unblock_notice_inj a b :
  TechDirector.unblock_notice a = TechDirector.unblock_notice b -> a = b.
Proof.
  unfold TechDirector.unblock_notice. intro H.
  apply append_cancel_l in H. apply append_cancel_r in H. exact H.
Qed.

Lemma Group_unblock_notice_inj task_id a b :
  Group.unblock_notice task_id a = Group.unblock_notice task_id b -> a = b.
Proof.
  unfold Group.unblock_notice. intro H.
  apply append_cancel_l in H. apply append_cancel_r in H. exact H.
Qed.

Lemma Group_done_is_no_notice task_id tid :
  ("Task " ++ task_id ++ " completed")%string <> Group.unblock_notice task_id tid.
Proof.
  unfold Group.unblock_notice. intro H.
  apply (f_equal String.length) in H.
  repeat (rewrite string_length_append in H; simpl in H). lia.
Qed.

(* ------------------------------------------------------------------ *)
(** *** Unique keys, consistent stores *)

Lemma distinct_NoDup (l : list string) : distinct l = true -> NoDup l.
Proof.
  induction l as [|x r IH]; simpl; intro H; [constructor|].
  apply andb_prop in H as [H1 H2]. constructor; [|auto].
  intro I. apply str_in_In in I. rewrite I in H1. discriminate H1.
Qed.

Lemma unique_keys_dict_set {V} (d : dict V) k v :
  dict_mem d k = true -> unique_keys d -> unique_keys (dict_set d k v).
Proof.
  unfold unique_keys. intros H U. rewrite keys_dict_set_present; assumption.
Qed.

Lemma unique_keys_dict_map {V} (g : V -> V) (d : dict V) :
  unique_keys d -> unique_keys (dict_map g d).
Proof. unfold unique_keys. rewrite keys_dict_map. auto. Qed.

Lemma store_consistent_get (tasks : dict Task) tid task :
  store_consistent tasks ->
  dict_get tasks tid = Some task ->
  status task = BLOCKED ->
  check_dependencies tasks task = false.
Proof.
  unfold store_consistent. intros C G S.
  rewrite forallb_forall in C. specialize (C _ (dict_get_In _ _ _ G)).
  simpl in C. rewrite S in C. simpl in C.
  destruct (check_dependencies tasks task); [discriminate C|reflexivity].
Qed.

Lemma filter_key_absent {V} (d : dict V) k :
  ~ In k (keys d) -> filter (fun kv => (fst kv =? k)%string) d = [].
Proof.
  induction d as [|[k' v'] r IH]; simpl; intro N; [reflexivity|].
  destruct (String.eqb_spec k' k) as [->|_]; [exfalso; auto|auto].
Qed.

(** In a dictionary a key selects one entry. *)
Lemma filter_key_unique {V} (d : dict V) k v :
  unique_keys d -> dict_get d k = Some v ->
  filter (fun kv => (fst kv =? k)%string) d = [(k, v)].
Proof.
  unfold unique_keys. intros U. apply distinct_NoDup in U. revert U.
  induction d as [|[k' v'] r IH]; simpl; intros U G; [discriminate G|].
  inversion U as [|? ? NI U']; subst.
  destruct (String.eqb_spec k k') as [->|N].
  - injection G as ->. rewrite String.eqb_refl.
    rewrite filter_key_absent; [reflexivity|exact NI].
  - destruct (String.eqb_spec k' k) as [E|_]; [congruence|auto].
Qed.

Lemma filter_filter_comm {X} (p q : X -> bool) (l : list X) :
  filter p (filter q l) = filter q (filter p l).
Proof.
  induction l as [|x r IH]; simpl; [reflexivity|].
  destruct (q x) eqn:Q, (p x) eqn:P; simpl; rewrite ?P, ?Q, IH; reflexivity.
Qed.

(** The messages of a cascade that speak of [tid] are those of the
    entries with key [tid]. *)
Lemma notices_about actor (notice : string -> string) D task_id todo tid :
  (forall a b, notice a = notice b -> a = b) ->
  filter (fun e => (snd e =? notice tid)%string) (notices actor notice D task_id todo)
  = notices actor notice D task_id (filter (fun kv => (fst kv =? tid)%string) todo).
Proof.
  intro Inj. unfold notices, notified.
  rewrite filter_filter_comm.
  induction (filter
               (fun kv => unblockable D task_id (snd kv) && truthy (assigned_to (snd kv)))
               todo) as [|[k t] r IH]; simpl; [reflexivity|].
  rewrite IH.
  destruct (String.eqb_spec (notice k) (notice tid)) as [E|N];
    destruct (String.eqb_spec k tid) as [E'|N']; try reflexivity.
  - exfalso. apply N'. apply Inj. exact E.
  - exfalso. apply N. rewrite E'. reflexivity.
Qed.

Lemma filter_content_envelope (p : string -> bool) (l : list Message) :
  map envelope (filter (fun m => p (content m)) l)
  = filter (fun e => p (snd e)) (map envelope l).
Proof.
  induction l as [|m r IH]; simpl; [reflexivity|].
  destruct (p (content m)); simpl; rewrite IH; reflexivity.
Qed.

Lemma map_envelope_single (l : list Message) e :
  map envelope l = [e] -> exists m, l = [m] /\ envelope m = e.
Proof.
  destruct l as [|m [|m' r]]; simpl; intro H; try discriminate H.
  injection H as H. exists m. auto.
Qed.

(** Which of the messages a cascade appends speak of one task: exactly
    one when the task is unblocked and assigned, none otherwise. *)
Lemma cascade_messages_about actor (notice : string -> string) D task_id tid task
      (appended : list Message) :
  (forall a b, notice a = notice b -> a = b) ->
  unique_keys D ->
  dict_get D tid = Some task ->
  map envelope appended = notices actor notice D task_id D ->
  map envelope (filter (fun m => (content m =? notice tid)%string) appended)
  = if unblockable D task_id task && truthy (assigned_to task)
    then [(actor, assignee task, notice tid)] else [].
Proof.
  intros Inj U G E.
  rewrite (filter_content_envelope (fun c => (c =? notice tid)%string)), E.
  rewrite (notices_about actor notice D task_id D tid Inj).
  rewrite (filter_key_unique D tid task U G).
  unfold notices, notified. simpl.
  destruct (unblockable D task_id task && truthy (assigned_to task)); reflexivity.
Qed.

Lemma truthy_Some g : g <> ""%string -> truthy (Some g) = true.
Proof. destruct g; [intro H; exfalso; apply H; reflexivity|reflexivity]. Qed.

Lemma check_dependencies_single (tasks : dict Task) task dep :
  dependencies task = [dep] ->
  check_dependencies tasks task = completed_in tasks dep.
Proof.
  unfold check_dependencies, completed_in. intros ->. simpl.
  apply andb_true_r.
Qed.

Lemma completed_in_dict_set_same (tasks : dict Task) k task :
  completed_in (dict_set tasks k task) k = status_eqb (status task) COMPLETED.
Proof. unfold completed_in. rewrite dict_get_set_same. reflexivity. Qed.

Lemma completed_in_dict_set_other (tasks : dict Task) k k' task :
  k <> k' -> completed_in (dict_set tasks k task) k' = completed_in tasks k'.
Proof. unfold completed_in. intro N. rewrite dict_get_set_other; auto. Qed.

Lemma untouched_print (w : World) (line : string) :
  untouched w (with_stdout (stdout w ++ [line]) w).
Proof. unfold untouched. simpl. repeat split. Qed.


(** What completing [A] does to a task [B] that waited for [A] alone. *)
Lemma sole_dependent_unblocked (tasks : dict Task) A B tA' tB :
  A <> B ->
  dict_get tasks B = Some tB -> dependencies tB = [A] -> status tB = BLOCKED ->
  status tA' = COMPLETED ->
  let D := dict_set tasks A tA' in
  dict_get D B = Some tB /\ unblockable D A tB = true.
Proof.
  intros N GB DB SB SA D. split.
  - unfold D. rewrite dict_get_set_other; assumption.
  - unfold unblockable. rewrite (check_dependencies_single D tB A DB).
    unfold D. rewrite completed_in_dict_set_same, DB, SB, SA. simpl.
    rewrite String.eqb_refl. reflexivity.
Qed.


Lemma check_dependencies_true (tasks : dict Task) task :
  (forall d, In d (dependencies task) -> completed_in tasks d = true) ->
  check_dependencies tasks task = true.
Proof.
  intro H. unfold check_dependencies. apply forallb_forall. intros d I.
  exact (H d I).
Qed.

Lemma check_dependencies_false (tasks : dict Task) task d :
  In d (dependencies task) -> completed_in tasks d = false ->
  check_dependencies tasks task = false.
Proof.
  intros I H. destruct (check_dependencies tasks task) eqn:E; [|reflexivity].
  unfold check_dependencies in E. rewrite forallb_forall in E.
  specialize (E d I). unfold completed_in in H. rewrite H in E. discriminate E.
Qed.

(** The store after a completion went through, entry by entry. *)
Lemma completion_outcome (tasks : dict Task) A tA' tid task :
  A <> tid ->
  dict_get tasks tid = Some task ->
  let D := dict_set tasks A tA' in
  dict_get (dict_map (unblock_task D A) D) tid = Some (unblock_task D A task).
Proof.
  intros N G D. rewrite dict_get_dict_map. unfold D at 2.
  rewrite dict_get_set_other; [|exact N]. rewrite G. reflexivity.
Qed.

Lemma open_status_neq (s : TaskStatus) :
  s = PENDING \/ s = IN_PROGRESS -> s <> COMPLETED /\ s <> BLOCKED.
Proof. intros [-> | ->]; split; discriminate. Qed.


(* ------------------------------------------------------------------ *)
(** *** Assignment *)

Lemma validate_id_runs (s name : string) (w : World) :
  exists w',
    runs (validate_id s name) w (passes_validate_id s) w'
    /\ untouched w w'
    /\ (passes_validate_id s = true -> w' = w).
Proof.
  unfold validate_id, passes_validate_id, runs.
  destruct (s =? "")%string; simpl.
  - eexists. split; [reflexivity|]. split; [apply untouched_print|discriminate].
  - destruct (re_match_id s); simpl.
    + exists w. split; [reflexivity|]. split; [|reflexivity].
      unfold untouched. repeat split.
    + eexists. split; [reflexivity|]. split; [apply untouched_print|discriminate].
Qed.

Lemma dict_set_set {V} (d : dict V) k v v' :
  dict_set (dict_set d k v) k v' = dict_set d k v'.
Proof.
  induction d as [|[k0 v0] r IH]; simpl.
  - rewrite String.eqb_refl. reflexivity.
  - destruct (String.eqb_spec k k0) as [E|N]; simpl.
    + rewrite E, String.eqb_refl. reflexivity.
    + destruct (String.eqb_spec k k0); [contradiction|]. rewrite IH. reflexivity.
Qed.

(** Replacing a task by one of the same status changes no dependency
    check. *)
Lemma completed_in_dict_set_status (tasks : dict Task) k task task' d :
  dict_get tasks k = Some task ->
  status task' = status task ->
  completed_in (dict_set tasks k task') d = completed_in tasks d.
Proof.
  intros G S. destruct (String.eqb_spec k d) as [<-|N].
  - rewrite completed_in_dict_set_same. unfold completed_in. rewrite G, S. reflexivity.
  - apply completed_in_dict_set_other. exact N.
Qed.

Lemma TD_assign_task_runs (tasks : dict Task) task_id task g w :
  dict_get tasks task_id = Some task ->
  passes_validate_id g = true ->
  messages_readable w ->
  let final := dict_set tasks task_id (assigned_now tasks task g) in
  exists w' appended,
    runs (TechDirector.assign_task (TechDirector.mk tasks) task_id g) w
         (true, TechDirector.mk final) w'
    /\ tasks_file w' = Holds final
    /\ log_grows w w' appended
    /\ map envelope appended
       = if check_dependencies tasks task
         then [("TD"%string, g, ("Assigned task " ++ task_id ++ ": " ++ title task)%string)]
         else [].
Proof.
  intros G V R final.
  destruct (validate_id_runs g "Group name" w) as (w0 & L0 & _ & W0).
  rewrite V in L0. rewrite (W0 V) in L0. clear W0 w0.
  assert (Ck : TechDirector._check_dependencies
                 (TechDirector.mk (dict_set tasks task_id (set_assigned_to task (Some g))))
                 (set_assigned_to task (Some g))
               = check_dependencies tasks task).
  { unfold TechDirector._check_dependencies. simpl TechDirector.tasks.
    rewrite (check_dependencies_ext _ tasks (set_assigned_to task (Some g))).
    - reflexivity.
    - intro k. apply (completed_in_dict_set_status tasks task_id task); auto. }
  unfold final, assigned_now.
  destruct (check_dependencies tasks task) eqn:CD.
  - destruct (save_tasks_runs
                (dict_set tasks task_id
                   (set_status (set_assigned_to task (Some g)) IN_PROGRESS)) w)
      as (w1 & L1 & M1 & T1).
    destruct (new_Message_runs "TD" g ("Assigned task " ++ task_id ++ ": " ++ title task) w1)
      as (w2 & ts & L2 & M2 & T2).
    assert (R2 : messages_readable w2).
    { apply (readable_same w1); [apply (readable_same w)|]; auto. }
    destruct (append_message_runs
                (mkMessage "TD" g ("Assigned task " ++ task_id ++ ": " ++ title task) ts)
                w2 R2) as (w3 & L3 & [S3 R3] & T3).
    destruct (append_log_runs "TD" ("Assigned task " ++ task_id ++ " to " ++ g) w3)
      as (w4 & L4 & M4 & T4).
    destruct (notify_runs g ("New task assigned: " ++ task_id ++ " - " ++ title task) w4)
      as (w5 & L5 & M5 & T5).
    eexists. eexists. split; [|split; [|split]].
    + unfold TechDirector.assign_task.
      eapply runs_bind; [exact L0|]. simpl negb. cbv iota.
      simpl TechDirector.tasks. rewrite G. cbv zeta. rewrite Ck. simpl negb. cbv iota.
      simpl TechDirector.tasks. rewrite dict_set_set.
      eapply runs_bind; [exact L1|].
      eapply runs_bind; [exact L2|].
      eapply runs_bind; [exact L3|].
      eapply runs_bind; [exact L4|].
      eapply runs_bind; [exact L5|].
      eapply runs_bind; [apply print_runs|apply runs_ret].
    + simpl. congruence.
    + split.
      * unfold stored_messages in *. simpl. rewrite M5, M4, S3, M2, M1. reflexivity.
      * apply (readable_same w3); [exact R3|]. simpl. congruence.
    + reflexivity.
  - destruct (save_tasks_runs
                (dict_set tasks task_id
                   (set_status (set_assigned_to task (Some g)) BLOCKED)) w)
      as (w1 & L1 & M1 & T1).
    destruct (append_log_runs "TD"
                ("Assigned task " ++ task_id ++ " to " ++ g ++ " (blocked by dependencies)") w1)
      as (w2 & L2 & M2 & T2).
    eexists. exists []. split; [|split; [|split]].
    + unfold TechDirector.assign_task.
      eapply runs_bind; [exact L0|]. simpl negb. cbv iota.
      simpl TechDirector.tasks. rewrite G. cbv zeta. rewrite Ck. simpl negb. cbv iota.
      simpl TechDirector.tasks. rewrite dict_set_set.
      eapply runs_bind; [exact L1|].
      eapply runs_bind; [exact L2|].
      eapply runs_bind; [apply print_runs|apply runs_ret].
    + simpl. congruence.
    + apply log_grows_same; [exact R|]. simpl. congruence.
    + reflexivity.
Qed.

(** What a completion that went through leaves of each task. *)
Lemma completion_edges (tasks : dict Task) A tA now tid t :
  dict_get tasks A = Some tA ->
  dict_get tasks tid = Some t ->
  let D := dict_set tasks A (completed_now tA now) in
  exists t',
    dict_get (dict_map (unblock_task D A) D) tid = Some t'
    /\ ((tid = A /\ t = tA /\ t' = completed_now tA now)
        \/ (tid <> A /\ t' = t)
        \/ (tid <> A /\ status t = BLOCKED /\ t' = set_status t IN_PROGRESS)).
Proof.
  intros GA G D. destruct (String.eqb_spec A tid) as [<-|N].
  - exists (completed_now tA now). split; [|left; repeat split; congruence].
    rewrite dict_get_dict_map. unfold D at 2. rewrite dict_get_set_same. simpl.
    unfold unblock_task, unblockable. simpl. rewrite andb_false_r. reflexivity.
  - exists (unblock_task D A t). split.
    + apply completion_outcome; assumption.
    + right. unfold unblock_task.
      destruct (unblockable D A t) eqn:U; [right|left; auto].
      unfold unblockable in U.
      apply andb_prop in U as [U _]. apply andb_prop in U as [_ U].
      apply status_eqb_eq in U. auto.
Qed.


(** [_check_dependencies] in words: every dependency is in the store and
    completed. *)
Lemma check_dependencies_spec (tasks : dict Task) (task : Task) :
  check_dependencies tasks task = true
  <-> forall d, In d (dependencies task) ->
                exists dep, dict_get tasks d = Some dep /\ status dep = COMPLETED.
Proof.
  unfold check_dependencies. rewrite forallb_forall. split; intros H d I.
  - specialize (H d I). destruct (dict_get tasks d) as [dep|]; [|discriminate H].
    exists dep. split; [reflexivity|]. apply status_eqb_eq. exact H.
  - destruct (H d I) as (dep & -> & S). apply status_eqb_eq. exact S.
Qed.


(* ------------------------------------------------------------------ *)
(** *** The identifier pattern and [create_task] *)

Lemma span_id_chars_cons c r :
  id_char c = true ->
  span_id_chars (String c r)
  = (S (fst (span_id_chars r)), snd (span_id_chars r)).
Proof.
  intro H. simpl. rewrite H. destruct (span_id_chars r). reflexivity.
Qed.

(** What follows the longest run of class characters is where [$]
    matches exactly when the string is a run of class characters,
    possibly followed by one line feed. *)
Lemma re_dollar_after_span (s : string) :
  re_dollar (snd (span_id_chars s)) = true
  <-> all_id_chars s = true
      \/ exists s', s = (s' ++ String LF "")%string /\ all_id_chars s' = true.
Proof.
  induction s as [|c r IH].
  - simpl. split; auto.
  - destruct (id_char c) eqn:Hc.
    + rewrite (span_id_chars_cons c r Hc). simpl snd. rewrite IH. simpl.
      rewrite Hc. simpl. split.
      * intros [H|(s' & -> & H)]; [left; exact H|].
        right. exists (String c s'). simpl. rewrite Hc. auto.
      * intros [H|(s' & E & H)]; [left; exact H|]. right.
        destruct s' as [|c' s'']; simpl in E.
        -- injection E as -> _. discriminate Hc.
        -- injection E as <- ->. simpl in H. rewrite Hc in H. exists s''. auto.
    + simpl. rewrite Hc. simpl. split.
      * destruct r; [|discriminate]. intro H. apply Ascii.eqb_eq in H. subst c.
        right. exists ""%string. auto.
      * intros [H|(s' & E & H)]; [discriminate H|].
        destruct s' as [|c' s'']; simpl in E.
        -- injection E as -> ->. reflexivity.
        -- injection E as <- _. simpl in H. rewrite Hc in H. discriminate H.
Qed.

(** The strings [validate_id] accepts: the identifiers, and the
    identifiers followed by one line feed. *)
Lemma passes_validate_id_spec (s : string) :
  passes_validate_id s = true
  <-> is_identifier s = true
      \/ exists s', s = (s' ++ String LF "")%string /\ is_identifier s' = true.
Proof.
  unfold passes_validate_id, is_identifier, re_match_id.
  destruct s as [|c r]; simpl.
  - split; [discriminate|]. intros [H|(s' & E & H)]; [discriminate H|].
    destruct s'; discriminate E.
  - destruct (id_char c) eqn:Hc.
    + destruct (span_id_chars r) as [n rest] eqn:Sp. simpl.
      pose proof (re_dollar_after_span r) as H. rewrite Sp in H. simpl in H.
      rewrite H. split.
      * intros [A|(s' & -> & A)]; [left; exact A|].
        right. exists (String c s'). simpl. rewrite Hc. auto.
      * intros [A|(s' & E & A)]; [left; exact A|]. right.
        destruct s' as [|c' s'']; [discriminate A|].
        simpl in E. injection E as <- ->. simpl in A. rewrite Hc in A.
        exists s''. auto.
    + simpl. split; [discriminate|]. intros [H|(s' & E & H)]; [discriminate H|].
      destruct s' as [|c' s'']; [discriminate H|].
      simpl in E. injection E as <- _. simpl in H. rewrite Hc in H. discriminate H.
Qed.

Lemma identifier_passes_validate_id (s : string) :
  is_identifier s = true -> passes_validate_id s = true.
Proof. intro H. apply passes_validate_id_spec. left. exact H. Qed.

(** [create_task] with an id [validate_id] refuses: False, nothing
    touched. *)
Lemma create_task_invalid_id (self : TechDirector.t) task_id ttl descr deps w :
  passes_validate_id task_id = false ->
  exists w',
    TechDirector.create_task self task_id ttl descr deps w = (Return (false, self), w')
    /\ untouched w w'.
Proof.
  intro V. destruct (validate_id_runs task_id "Task ID" w) as (w0 & L0 & U0 & _).
  rewrite V in L0. exists w0. split; [|exact U0].
  unfold TechDirector.create_task. eapply runs_bind; [exact L0|reflexivity].
Qed.

Lemma create_task_duplicate (self : TechDirector.t) task_id ttl descr deps w :
  passes_validate_id task_id = true ->
  dict_mem (TechDirector.tasks self) task_id = true ->
  exists w',
    TechDirector.create_task self task_id ttl descr deps w = (Return (false, self), w')
    /\ untouched w w'
    /\ stdout w' = stdout w ++ [("Error: Task " ++ task_id ++ " already exists")%string].
Proof.
  intros V Dm. destruct (validate_id_runs task_id "Task ID" w) as (w0 & L0 & _ & W0).
  rewrite V in L0. rewrite (W0 V) in L0.
  eexists. split; [|split; [apply untouched_print|reflexivity]].
  unfold TechDirector.create_task. eapply runs_bind; [exact L0|].
  simpl. rewrite Dm. reflexivity.
Qed.

Lemma create_task_unknown_dependency (self : TechDirector.t) task_id ttl descr listed dep w :
  passes_validate_id task_id = true ->
  dict_mem (TechDirector.tasks self) task_id = false ->
  In dep listed -> dict_mem (TechDirector.tasks self) dep = false ->
  exists w' missing,
    TechDirector.create_task self task_id ttl descr (Some listed) w
    = (Return (false, self), w')
    /\ untouched w w'
    /\ In missing listed /\ dict_mem (TechDirector.tasks self) missing = false
    /\ stdout w' = stdout w ++ [("Error: Dependency " ++ missing ++ " does not exist")%string].
Proof.
  intros V Dm I Dd. destruct (validate_id_runs task_id "Task ID" w) as (w0 & L0 & _ & W0).
  rewrite V in L0. rewrite (W0 V) in L0.
  destruct (find (fun dep_id => negb (dict_mem (TechDirector.tasks self) dep_id)) listed)
    as [missing|] eqn:F.
  - destruct (find_some _ _ F) as [Im Hm]. apply negb_true_iff in Hm.
    eexists. exists missing.
    split; [|split; [apply untouched_print|split; [exact Im|split; [exact Hm|reflexivity]]]].
    unfold TechDirector.create_task. eapply runs_bind; [exact L0|].
    simpl. rewrite Dm, F. reflexivity.
  - exfalso. pose proof (find_none _ _ F dep I) as H. simpl in H.
    rewrite Dd in H. discriminate H.
Qed.

(** [create_task] when every check passes: the new task is appended,
    Pending and unassigned, and the dictionary is saved. *)
Lemma create_task_runs (self : TechDirector.t) task_id ttl descr deps w :
  passes_validate_id task_id = true ->
  dict_mem (TechDirector.tasks self) task_id = false ->
  let listed := match deps with Some l => l | None => [] end in
  (forall dep, In dep listed -> dict_mem (TechDirector.tasks self) dep = true) ->
  let task := mkTask task_id ttl descr None PENDING listed (wall w (clock w)) None in
  let final := TechDirector.tasks self ++ [(task_id, task)] in
  exists w',
    runs (TechDirector.create_task self task_id ttl descr deps) w
         (true, TechDirector.mk final) w'
    /\ tasks_file w' = Holds final
    /\ messages_file w' = messages_file w.
Proof.
  intros V Dm listed Hd task final.
  destruct (validate_id_runs task_id "Task ID" w) as (w0 & L0 & _ & W0).
  rewrite V in L0. rewrite (W0 V) in L0.
  assert (F : find (fun dep_id => negb (dict_mem (TechDirector.tasks self) dep_id)) listed
              = None).
  { destruct (find _ listed) as [missing|] eqn:F; [|reflexivity].
    destruct (find_some _ _ F) as [Im Hm]. rewrite (Hd missing Im) in Hm. discriminate Hm. }
  eexists. split; [|split].
  - unfold TechDirector.create_task. eapply runs_bind; [exact L0|].
    simpl negb. cbv iota. rewrite Dm. fold listed. rewrite F.
    unfold final, task. rewrite <- (dict_set_absent _ _ _ Dm). reflexivity.
  - simpl. unfold final, task. rewrite <- (dict_set_absent _ _ _ Dm). reflexivity.
  - reflexivity.
Qed.


(* ------------------------------------------------------------------ *)
(** *** One process after the other *)

Lemma load_tasks_runs w :
  tasks_readable w ->
  exists w', runs StateManager.load_tasks w (stored_tasks w) w'
             /\ messages_file w' = messages_file w
             /\ tasks_file w' = tasks_file w.
Proof.
  unfold tasks_readable, stored_tasks, StateManager.load_tasks,
    StateManager.load_json, runs.
  destruct (tasks_file w) as [|l|e] eqn:E; intro R.
  - exists w. auto.
  - exists w. auto.
  - destruct (is_JSONDecodeError e).
    + eexists. split; [reflexivity|]. simpl. auto.
    + discriminate R.
Qed.

(** One [td create-task] process whose checks pass. *)
Lemma td_create_task_runs task_id ttl descr deps w :
  tasks_readable w ->
  passes_validate_id task_id = true ->
  dict_mem (stored_tasks w) task_id = false ->
  (forall dep, In dep deps -> dict_mem (stored_tasks w) dep = true) ->
  exists w' task,
    runs (td_create_task task_id ttl descr deps) w true w'
    /\ tasks_file w' = Holds (stored_tasks w ++ [(task_id, task)])
    /\ status task = PENDING /\ assigned_to task = None /\ dependencies task = deps.
Proof.
  intros R V Dm Hd.
  destruct (load_tasks_runs w R) as (w0 & L0 & _ & T0).
  destruct (create_task_runs (TechDirector.mk (stored_tasks w)) task_id ttl descr
              (Some deps) w0 V Dm Hd) as (w1 & L1 & T1 & _).
  exists w1. eexists. split; [|split; [exact T1|repeat split]].
  unfold td_create_task, TechDirector.__init__.
  eapply runs_bind; [eapply runs_bind; [exact L0|apply runs_ret]|].
  eapply runs_bind; [exact L1|apply runs_ret].
Qed.

Lemma dict_mem_app {V} (d1 d2 : dict V) k :
  dict_mem (d1 ++ d2) k = dict_mem d1 k || dict_mem d2 k.
Proof.
  unfold dict_mem. rewrite dict_get_app. destruct (dict_get d1 k); reflexivity.
Qed.


(* ------------------------------------------------------------------ *)
(** *** The stores the program builds are consistent *)

Lemma store_consistent_In (tasks : dict Task) :
  store_consistent tasks
  <-> forall kv, In kv tasks -> status (snd kv) = BLOCKED ->
                 check_dependencies tasks (snd kv) = false.
Proof.
  unfold store_consistent. rewrite forallb_forall. split; intros H kv I.
  - intro S. specialize (H kv I). rewrite S in H. simpl in H.
    destruct (check_dependencies tasks (snd kv)); [discriminate H|reflexivity].
  - destruct (status (snd kv)) eqn:S; try reflexivity.
    rewrite (H kv I S). reflexivity.
Qed.

(** More completed tasks can only help a dependency check. *)
Lemma check_dependencies_mono (d1 d2 : dict Task) task :
  (forall k, In k (dependencies task) ->
             completed_in d1 k = true -> completed_in d2 k = true) ->
  check_dependencies d1 task = true -> check_dependencies d2 task = true.
Proof.
  unfold check_dependencies. intros H C. rewrite forallb_forall in *.
  intros k I. apply (H k I). exact (C k I).
Qed.

Lemma check_dependencies_false_mono (d1 d2 : dict Task) task :
  (forall k, In k (dependencies task) ->
             completed_in d2 k = true -> completed_in d1 k = true) ->
  check_dependencies d1 task = false -> check_dependencies d2 task = false.
Proof.
  intros H C. destruct (check_dependencies d2 task) eqn:E; [|reflexivity].
  rewrite (check_dependencies_mono d2 d1 task H E) in C. discriminate C.
Qed.

Lemma In_dict_set {V} (d : dict V) k v kv :
  In kv (dict_set d k v) -> kv = (k, v) \/ In kv d.
Proof.
  induction d as [|[k0 v0] r IH]; simpl.
  - intros [E|[]]. auto.
  - destruct (String.eqb_spec k k0) as [->|N]; simpl.
    + intros [E|I]; auto.
    + intros [E|I]; [auto|]. destruct (IH I); auto.
Qed.

Lemma In_dict_map {V} (g : V -> V) (d : dict V) kv :
  In kv (dict_map g d) -> exists v, kv = (fst kv, g v) /\ In (fst kv, v) d.
Proof.
  unfold dict_map. rewrite in_map_iff. intros ([k v] & <- & I). simpl.
  exists v. auto.
Qed.

Lemma completed_in_app_open (tasks : dict Task) k task d :
  status task <> COMPLETED ->
  completed_in (tasks ++ [(k, task)]) d = true -> completed_in tasks d = true.
Proof.
  unfold completed_in. rewrite dict_get_app. intro N.
  destruct (dict_get tasks d); [auto|]. simpl.
  destruct (d =? k)%string; [|discriminate].
  intro H. apply status_eqb_eq in H. contradiction.
Qed.

Lemma create_task_consistent (tasks : dict Task) k task :
  status task = PENDING ->
  store_consistent tasks -> store_consistent (tasks ++ [(k, task)]).
Proof.
  intros S C. apply store_consistent_In. intros kv I Sb.
  apply in_app_or in I as [I|[<-|[]]].
  - apply (check_dependencies_false_mono tasks).
    + intros d _. apply completed_in_app_open. rewrite S. discriminate.
    + apply (proj1 (store_consistent_In tasks) C kv I Sb).
  - simpl in Sb. rewrite S in Sb. discriminate Sb.
Qed.

Lemma assign_task_consistent (tasks : dict Task) task_id task g :
  dict_get tasks task_id = Some task ->
  store_consistent tasks ->
  store_consistent (dict_set tasks task_id (assigned_now tasks task g)).
Proof.
  intros G C. apply store_consistent_In. intros kv I Sb.
  assert (Mono : forall t d, In d (dependencies t) ->
            completed_in (dict_set tasks task_id (assigned_now tasks task g)) d = true ->
            completed_in tasks d = true).
  { intros t d _. destruct (String.eqb_spec task_id d) as [<-|N].
    - rewrite completed_in_dict_set_same. unfold assigned_now. simpl.
      destruct (check_dependencies tasks task); discriminate.
    - rewrite completed_in_dict_set_other; auto. }
  apply In_dict_set in I as [->|I].
  - simpl in *. apply (check_dependencies_false_mono tasks); [apply Mono|].
    change (check_dependencies tasks task = false).
    destruct (check_dependencies tasks task); [discriminate Sb|reflexivity].
  - apply (check_dependencies_false_mono tasks); [apply Mono|].
    apply (proj1 (store_consistent_In tasks) C kv I Sb).
Qed.

Lemma completed_in_dict_map_unblock (D D' : dict Task) A k :
  completed_in (dict_map (unblock_task D' A) D) k = completed_in D k.
Proof.
  unfold completed_in. rewrite dict_get_dict_map.
  destruct (dict_get D k) as [t|]; [|reflexivity]. simpl.
  unfold unblock_task. destruct (unblockable D' A t) eqn:U; [|reflexivity].
  unfold unblockable in U.
  apply andb_prop in U as [U _]. apply andb_prop in U as [_ U].
  apply status_eqb_eq in U. simpl. rewrite U. reflexivity.
Qed.

Lemma str_in_false x l : str_in x l = false -> ~ In x l.
Proof.
  intros H I. apply str_in_In in I. rewrite I in H. discriminate H.
Qed.

Lemma complete_task_consistent (tasks : dict Task) A tA now :
  dict_get tasks A = Some tA ->
  store_consistent tasks ->
  let D := dict_set tasks A (completed_now tA now) in
  store_consistent (dict_map (unblock_task D A) D).
Proof.
  intros G C D. apply store_consistent_In. intros kv I Sb.
  destruct (In_dict_map _ _ _ I) as (t & E & It). rewrite E in Sb |- *. simpl in *.
  assert (Ck : check_dependencies (dict_map (unblock_task D A) D) (unblock_task D A t)
               = check_dependencies D t).
  { rewrite (check_dependencies_ext _ D (unblock_task D A t)
               (completed_in_dict_map_unblock D D A)).
    unfold unblock_task. destruct (unblockable D A t); reflexivity. }
  rewrite Ck. unfold unblock_task in Sb.
  destruct (unblockable D A t) eqn:U; [discriminate Sb|].
  unfold unblockable in U. rewrite Sb in U. simpl in U. rewrite andb_true_r in U.
  destruct (check_dependencies D t) eqn:CD; [|reflexivity].
  rewrite andb_true_r in U. apply str_in_false in U.
  apply In_dict_set in It as [Eq|It].
  - injection Eq as _ ->. discriminate Sb.
  - pose proof (proj1 (store_consistent_In tasks) C _ It Sb) as F. simpl in F.
    rewrite <- F. symmetry. apply check_dependencies_mono with (d1 := D); [|exact CD].
    intros d Id. unfold D. rewrite completed_in_dict_set_other; [auto|].
    intro Ed. apply U. rewrite Ed. exact Id.
Qed.

Lemma distinct_app_single (l : list string) x :
  distinct l = true -> str_in x l = false -> distinct (l ++ [x]) = true.
Proof.
  induction l as [|y r IH]; simpl; intros D N; [reflexivity|].
  apply andb_prop in D as [D1 D2].
  destruct (String.eqb_spec x y) as [|Nxy]; [discriminate N|].
  rewrite (IH D2 N), andb_true_r.
  destruct (str_in y (r ++ [x])) eqn:S; [|reflexivity].
  apply str_in_In in S. apply in_app_or in S as [S|[S|[]]].
  - apply str_in_In in S. rewrite S in D1. discriminate D1.
  - congruence.
Qed.

Lemma dict_mem_str_in {V} (d : dict V) k : dict_mem d k = str_in k (keys d).
Proof.
  unfold dict_mem. induction d as [|[k' v'] r IH]; simpl; [reflexivity|].
  destruct (k =? k')%string; [reflexivity|exact IH].
Qed.

(** Every store the program builds has unique keys and is consistent:
    the hypotheses of the cascade theorem hold of themselves. *)
Lemma built_is_consistent (tasks : dict Task) :
  built tasks -> unique_keys tasks /\ store_consistent tasks.
Proof.
  induction 1 as [|tasks task_id ttl descr now deps _ [U C] Dm _
                  |tasks task_id g task _ [U C] G
                  |tasks task_id now task _ [U C] G _].
  - split; reflexivity.
  - split.
    + unfold unique_keys, keys. rewrite map_app. simpl.
      apply distinct_app_single; [exact U|].
      pose proof (dict_mem_str_in tasks task_id) as E. unfold keys in E.
      rewrite <- E. exact Dm.
    + apply create_task_consistent; [reflexivity|exact C].
  - split.
    + apply unique_keys_dict_set; [eapply dict_mem_get_Some; exact G|exact U].
    + apply assign_task_consistent; assumption.
  - split.
    + apply unique_keys_dict_map. apply unique_keys_dict_set;
        [eapply dict_mem_get_Some; exact G|exact U].
    + apply complete_task_consistent; assumption.
Qed.

(** The Director's operations lead from built stores to built stores. *)
Lemma director_keeps_built (tasks : dict Task) (w : World) :
  built tasks ->
  messages_readable w ->
  (forall task_id ttl descr deps,
      exists ok final w',
        TechDirector.create_task (TechDirector.mk tasks) task_id ttl descr deps w
        = (Return (ok, TechDirector.mk final), w')
        /\ built final)
  /\ (forall task_id g,
         exists ok final w',
           TechDirector.assign_task (TechDirector.mk tasks) task_id g w
           = (Return (ok, TechDirector.mk final), w')
           /\ built final)
  /\ (forall task_id,
         exists ok final w',
           TechDirector.complete_task (TechDirector.mk tasks) task_id w
           = (Return (ok, TechDirector.mk final), w')
           /\ built final).
Proof.
  intros B R. split; [|split].
  - intros task_id ttl descr deps.
    destruct (passes_validate_id task_id) eqn:V.
    + destruct (dict_mem tasks task_id) eqn:Dm.
      * destruct (create_task_duplicate (TechDirector.mk tasks) task_id ttl descr deps w V Dm)
          as (w' & Run & _).
        exists false, tasks, w'. auto.
      * set (listed := match deps with Some l => l | None => [] end).
        destruct (find (fun dep_id => negb (dict_mem tasks dep_id)) listed)
          as [missing|] eqn:F.
        -- destruct (validate_id_runs task_id "Task ID" w) as (w0 & L0 & _ & W0).
           rewrite V in L0. rewrite (W0 V) in L0.
           exists false, tasks. eexists. split; [|exact B].
           unfold TechDirector.create_task. eapply runs_bind; [exact L0|].
           simpl. rewrite Dm. fold listed. rewrite F. reflexivity.
        -- assert (Hd : forall dep, In dep listed -> dict_mem tasks dep = true).
           { intros dep I. pose proof (find_none _ _ F dep I) as H. simpl in H.
             apply negb_false_iff in H. exact H. }
           destruct (create_task_runs (TechDirector.mk tasks) task_id ttl descr deps w
                       V Dm Hd) as (w' & Run & _).
           eexists. eexists. exists w'. split; [exact Run|].
           apply built_create; assumption.
    + destruct (create_task_invalid_id (TechDirector.mk tasks) task_id ttl descr deps w V)
        as (w' & Run & _).
      exists false, tasks, w'. auto.
  - intros task_id g. destruct (passes_validate_id g) eqn:V.
    + destruct (dict_get tasks task_id) as [task|] eqn:G.
      * destruct (TD_assign_task_runs tasks task_id task g w G V R)
          as (w' & appended & Run & _).
        eexists. eexists. exists w'. split; [exact Run|].
        apply built_assign; assumption.
      * destruct (validate_id_runs g "Group name" w) as (w0 & L0 & _ & W0).
        rewrite V in L0. exists false, tasks. eexists. split; [|exact B].
        unfold TechDirector.assign_task. eapply runs_bind; [exact L0|].
        simpl. rewrite G. reflexivity.
    + destruct (validate_id_runs g "Group name" w) as (w0 & L0 & _).
      rewrite V in L0. exists false, tasks, w0. split; [|exact B].
      unfold TechDirector.assign_task. eapply runs_bind; [exact L0|reflexivity].
  - intro task_id. destruct (dict_get tasks task_id) as [task|] eqn:G.
    + destruct (status task) eqn:S.
      1, 2:
        assert (SA : status task = PENDING \/ status task = IN_PROGRESS)
          by (rewrite S; auto);
        destruct (open_status_neq (status task) SA) as [NC NB];
        destruct (TD_complete_task_runs (TechDirector.mk tasks) task_id task w G NC NB R)
          as (w' & appended & Run & _);
        eexists; eexists; exists w'; (split; [exact Run|]);
        apply (built_complete tasks task_id (wall w (clock w)) task B G SA).
      * exists true, tasks. eexists. split; [|exact B].
        unfold TechDirector.complete_task. simpl. rewrite G, S. reflexivity.
      * exists false, tasks. eexists. split; [|exact B].
        unfold TechDirector.complete_task. simpl. rewrite G, S. reflexivity.
    + exists false, tasks. eexists. split; [|exact B].
      unfold TechDirector.complete_task. simpl. rewrite G. reflexivity.
Qed.

(** A group that calls [complete_task] on a task assigned elsewhere is
    turned away before the status is looked at. *)
Lemma Group_complete_task_not_owner (grp : Group.t) (tasks : dict Task) task_id task w :
  tasks_file w = Holds tasks ->
  dict_get tasks task_id = Some task ->
  assigned_to task <> Some (Group.name grp) ->
  exists w',
    Group.complete_task grp task_id w = (Return false, w')
    /\ untouched w w'
    /\ stdout w' = stdout w ++ [("Error: Task " ++ task_id ++ " is not assigned to "
                                 ++ Group.name grp)%string].
Proof.
  intros F G N. eexists. split; [|split; [apply untouched_print|reflexivity]].
  unfold Group.complete_task, bind, StateManager.load_tasks. rewrite F. simpl.
  rewrite G. unfold Group.assigned_to_other.
  destruct (assigned_to task) as [g|]; [|reflexivity].
  destruct (String.eqb_spec g (Group.name grp)) as [->|_]; [|reflexivity].
  exfalso. apply N. reflexivity.
Qed.



(** A task completed by the Director stays as the first completion left
    it when [complete_task] is called again: the stamp is that of the
    first call. *)
Lemma complete_task_twice (tasks : dict Task) task_id task w :
  dict_get tasks task_id = Some task ->
  status task = PENDING \/ status task = IN_PROGRESS ->
  messages_readable w ->
  exists w1 final,
    TechDirector.complete_task (TechDirector.mk tasks) task_id w
    = (Return (true, TechDirector.mk final), w1)
    /\ dict_get final task_id = Some (completed_now task (wall w (clock w)))
    /\ forall w2,
        exists w3,
          TechDirector.complete_task (TechDirector.mk final) task_id w2
          = (Return (true, TechDirector.mk final), w3)
          /\ untouched w2 w3.
Proof.
  intros G SA R. destruct (open_status_neq (status task) SA) as [NC NB].
  destruct (TD_complete_task_runs (TechDirector.mk tasks) task_id task w G NC NB R)
    as (w1 & appended & Run & _).
  destruct (completion_edges tasks task_id task (wall w (clock w)) task_id task G G)
    as (t' & Gt & [(_ & _ & E)|[(E & _)|(E & _)]]); try (exfalso; apply E; reflexivity).
  subst t'.
  set (final := dict_map
                  (unblock_task (dict_set tasks task_id
                                   (completed_now task (wall w (clock w)))) task_id)
                  (dict_set tasks task_id (completed_now task (wall w (clock w))))) in *.
  exists w1, final. split; [exact Run|]. split; [exact Gt|].
  intro w2. eexists. split; [|apply untouched_print].
  unfold TechDirector.complete_task. cbn [TechDirector.tasks]. rewrite Gt. reflexivity.
Qed.

(** The group facade leads from built stores to built stores as well. *)
Lemma group_keeps_built (grp : Group.t) (tasks : dict Task) task_id (w : World) :
  tasks_file w = Holds tasks ->
  built tasks ->
  messages_readable w ->
  exists ok w' final,
    Group.complete_task grp task_id w = (Return ok, w')
    /\ tasks_file w' = Holds final
    /\ built final.
Proof.
  intros F B R.
  destruct (dict_get tasks task_id) as [task|] eqn:G.
  - destruct (Group.assigned_to_other task grp) eqn:O.
    + exists false. eexists. exists tasks. split.
      { unfold Group.complete_task, bind, StateManager.load_tasks. rewrite F. simpl.
        rewrite G, O. reflexivity. }
      split; [simpl; exact F|exact B].
    + assert (Own : assigned_to task = Some (Group.name grp)).
      { unfold Group.assigned_to_other in O. destruct (assigned_to task) as [g|];
          [|discriminate O]. apply negb_false_iff in O. apply String.eqb_eq in O.
        rewrite O. reflexivity. }
      destruct (status task) eqn:S.
      1, 2:
        assert (SA : status task = PENDING \/ status task = IN_PROGRESS)
          by (rewrite S; auto);
        destruct (open_status_neq (status task) SA) as [NC NB];
        destruct (Group_complete_task_runs grp task_id tasks task w F G Own NC NB R)
          as (w' & appended & done & Run & TF & _);
        exists true, w'; eexists; (split; [exact Run|]); (split; [exact TF|]);
        apply (built_complete tasks task_id (wall w (clock w)) task B G SA).
      * exists true. eexists. exists tasks. split.
        { unfold Group.complete_task, bind, StateManager.load_tasks. rewrite F. simpl.
          rewrite G, O, S. reflexivity. }
        split; [simpl; exact F|exact B].
      * exists false. eexists. exists tasks. split.
        { unfold Group.complete_task, bind, StateManager.load_tasks. rewrite F. simpl.
          rewrite G, O, S. reflexivity. }
        split; [simpl; exact F|exact B].
  - exists false. eexists. exists tasks. split.
    { unfold Group.complete_task, bind, StateManager.load_tasks. rewrite F. simpl.
      rewrite G. reflexivity. }
    split; [simpl; exact F|exact B].
Qed.

(* ------------------------------------------------------------------ *)
(** *** [_check_dependencies] and the cascade, in words *)

(** The two answers of [_check_dependencies]: True when every dependency
    is stored and completed, False when one of them is missing from the
    store or stored with another status. *)
Lemma check_dependencies_cases (tasks : dict Task) (task : Task) :
  (check_dependencies tasks task = true
   /\ forall d, In d (dependencies task) ->
                exists dep, dict_get tasks d = Some dep /\ status dep = COMPLETED)
  \/ (check_dependencies tasks task = false
      /\ exists d, In d (dependencies task)
                   /\ (dict_get tasks d = None
                       \/ exists dep, dict_get tasks d = Some dep
                                      /\ status dep <> COMPLETED)).
Proof.
  destruct (check_dependencies tasks task) eqn:E.
  - left. split; [reflexivity|]. apply check_dependencies_spec. exact E.
  - right. split; [reflexivity|]. unfold check_dependencies in E.
    induction (dependencies task) as [|d r IH]; [discriminate E|].
    simpl in E. apply andb_false_iff in E. destruct E as [E|E].
    + exists d. split; [left; reflexivity|].
      destruct (dict_get tasks d) as [dep|]; [|left; reflexivity].
      right. exists dep. split; [reflexivity|]. apply status_eqb_neq. exact E.
    + destruct (IH E) as (d' & I & H). exists d'. split; [right; exact I|exact H].
Qed.

(** What a completion that goes through does to another task. *)
Lemma completion_of_other (tasks : dict Task) A tA now tid t :
  dict_get tasks A = Some tA ->
  tid <> A ->
  dict_get tasks tid = Some t ->
  let D := dict_set tasks A (completed_now tA now) in
  let final := dict_map (unblock_task D A) D in
  (dict_get final tid = Some t)
  \/ (dict_get final tid
      = Some (mkTask (id t) (title t) (description t) (assigned_to t) IN_PROGRESS
                     (dependencies t) (created_at t) (completed_at t))
      /\ status t = BLOCKED
      /\ In A (dependencies t)
      /\ forall d, In d (dependencies t) ->
                   exists dep, dict_get final d = Some dep /\ status dep = COMPLETED).
Proof.
  intros GA N G D final.
  assert (Gf : dict_get final tid = Some (unblock_task D A t)).
  { apply completion_outcome; [congruence|exact G]. }
  unfold unblock_task in Gf. destruct (unblockable D A t) eqn:U; [right|left; exact Gf].
  unfold unblockable in U.
  apply andb_prop in U as [U Ck]. apply andb_prop in U as [In_ St].
  split; [exact Gf|]. split; [apply status_eqb_eq; exact St|].
  split; [apply str_in_In; exact In_|].
  intros d I.
  assert (Cd : completed_in final d = true).
  { unfold final. rewrite completed_in_dict_map_unblock.
    unfold check_dependencies in Ck. rewrite forallb_forall in Ck.
    exact (Ck d I). }
  unfold completed_in in Cd. destruct (dict_get final d) as [dep|]; [|discriminate Cd].
  exists dep. split; [reflexivity|]. apply status_eqb_eq. exact Cd.
Qed.

Lemma completed_in_spec (tasks : dict Task) (d : string) :
  completed_in tasks d = true
  <-> exists dep, dict_get tasks d = Some dep /\ status dep = COMPLETED.
Proof.
  unfold completed_in. split.
  - destruct (dict_get tasks d) as [dep|]; [|discriminate].
    intro H. exists dep. split; [reflexivity|]. apply status_eqb_eq. exact H.
  - intros (dep & -> & S). apply status_eqb_eq. exact S.
Qed.

(** A completion of [A] that goes through unblocks a blocked task that
    waits for [A] and for nothing else that is not completed. *)
Lemma dependent_unblocked (tasks : dict Task) A B tA tA' tB :
  dict_get tasks A = Some tA ->
  status tA = PENDING \/ status tA = IN_PROGRESS ->
  status tA' = COMPLETED ->
  dict_get tasks B = Some tB -> status tB = BLOCKED ->
  In A (dependencies tB) ->
  (forall d, In d (dependencies tB) ->
             d = A \/ exists dep, dict_get tasks d = Some dep /\ status dep = COMPLETED) ->
  let D := dict_set tasks A tA' in
  dict_get (dict_map (unblock_task D A) D) B
  = Some (mkTask (id tB) (title tB) (description tB) (assigned_to tB) IN_PROGRESS
                 (dependencies tB) (created_at tB) (completed_at tB)).
Proof.
  intros GA SA SA' GB SB IA Others D.
  assert (NB : A <> B).
  { intro E. subst B. rewrite GA in GB. injection GB as ->.
    rewrite SB in SA. destruct SA; discriminate. }
  unfold D. rewrite (completion_outcome tasks A tA' B tB NB GB). f_equal.
  unfold unblock_task, unblockable.
  rewrite (proj2 (str_in_In A (dependencies tB)) IA), SB. simpl.
  rewrite check_dependencies_true; [reflexivity|].
  intros d Id. destruct (String.eqb_spec A d) as [<-|Nd].
  - rewrite completed_in_dict_set_same, SA'. reflexivity.
  - rewrite completed_in_dict_set_other; [|exact Nd].
    destruct (Others d Id) as [E|E]; [congruence|].
    apply completed_in_spec. exact E.
Qed.

(** The same completion leaves a blocked task that waits for a task
    which is not completed as it is. *)
Lemma waiting_stays_blocked (tasks : dict Task) A B C tA tA' tB tC :
  dict_get tasks A = Some tA ->
  status tA = PENDING \/ status tA = IN_PROGRESS ->
  dict_get tasks B = Some tB -> status tB = BLOCKED ->
  dict_get tasks C = Some tC -> status tC = BLOCKED ->
  In B (dependencies tC) ->
  let D := dict_set tasks A tA' in
  dict_get (dict_map (unblock_task D A) D) C = Some tC.
Proof.
  intros GA SA GB SB GC SC IB D.
  assert (NB : A <> B).
  { intro E. subst B. rewrite GA in GB. injection GB as ->.
    rewrite SB in SA. destruct SA; discriminate. }
  assert (NC : A <> C).
  { intro E. subst C. rewrite GA in GC. injection GC as ->.
    rewrite SC in SA. destruct SA; discriminate. }
  unfold D. rewrite (completion_outcome tasks A tA' C tC NC GC). f_equal.
  unfold unblock_task, unblockable.
  rewrite (check_dependencies_false (dict_set tasks A tA') tC B IB).
  - rewrite andb_false_r. reflexivity.
  - rewrite completed_in_dict_set_other; [|exact NB].
    unfold completed_in. rewrite GB, SB. reflexivity.
Qed.

Lemma truthy_spec (o : option string) :
  truthy o = true <-> exists g, o = Some g /\ g <> ""%string.
Proof.
  split.
  - destruct o as [[|c r]|]; try discriminate. intros _.
    exists (String c r). split; [reflexivity|discriminate].
  - intros (g & -> & N). apply truthy_Some. exact N.
Qed.

(** The entries a cascade sends a message for, in words. *)
Lemma notified_spec (D : dict Task) (A : string) (k : string) (t : Task) :
  In (k, t) (notified D A D)
  <-> In (k, t) D
      /\ In A (dependencies t)
      /\ status t = BLOCKED
      /\ (forall d, In d (dependencies t) ->
                    exists dep, dict_get D d = Some dep /\ status dep = COMPLETED)
      /\ exists g, assigned_to t = Some g /\ g <> ""%string.
Proof.
  unfold notified, unblockable. rewrite filter_In. simpl.
  rewrite !andb_true_iff, str_in_In, status_eqb_eq, check_dependencies_spec, truthy_spec.
  tauto.
Qed.

(* ================================================================== *)
(** ** The lifecycle properties, C1 to C10 *)

(** C1, as the code has it: B is not unblocked in every store that holds
    A and a Blocked B waiting for A alone.  When the Director's
    [complete_task] on A is cut short by a message log it cannot load, it
    has saved A as Completed and B still Blocked.  In that store
    [complete_task] on A finds A completed: it prints the warning and
    returns True, B stays Blocked and no message is appended, whatever
    the world. *)
Lemma cascading_unblock_counterexample :
  exists (stale : dict Task) (tA tB : Task),
    dict_get stale "A" = Some tA /\ dependencies tA = []
    /\ dict_get stale "B" = Some tB /\ dependencies tB = ["A"%string]
    /\ assigned_to tB = Some "beta"%string /\ status tB = BLOCKED
    /\ (exists w1,
           TechDirector.complete_task (TechDirector.mk chain_store) "A"
             (with_messages_file (Broken schema_error) chain_world)
           = (Raise schema_error, w1)
           /\ tasks_file w1 = Holds stale)
    /\ (forall w : World,
           TechDirector.complete_task (TechDirector.mk stale) "A" w
           = (Return (true, TechDirector.mk stale),
              with_stdout (stdout w ++ ["Warning: Task A is already completed"%string]) w))
    /\ (forall w : World,
           tasks_file w = Holds stale ->
           Group.complete_task (Group.mk "alpha") "A" w
           = (Return true,
              with_stdout (stdout w ++ ["Warning: Task A is already completed"%string]) w)).
Proof.
  exists (dict_set chain_store "A" (completed_now chain_A (example_wall 0))).
  eexists. eexists.
  split; [vm_compute; reflexivity|]. split; [reflexivity|].
  split; [vm_compute; reflexivity|]. split; [reflexivity|].
  split; [reflexivity|]. split; [reflexivity|].
  split; [|split].
  - eexists. split; vm_compute; reflexivity.
  - intro w. reflexivity.
  - intros w F. unfold Group.complete_task.
    eapply runs_bind; [apply load_tasks_Holds; exact F|]. reflexivity.
Qed.

(** C1, amended.  In a store that holds a task A that is Pending or
    InProgress and a task B with dependencies exactly [A], assigned to a
    group and Blocked, the Director's [complete_task] on A returns True,
    saves A as Completed with the time of the call and B as InProgress,
    every other field of B as it was, and appends to the message log
    exactly one message telling that B is unblocked; it is addressed to
    B's assignee.  The same holds for [complete_task] of the group A is
    assigned to.  The store is a dictionary (its keys are pairwise
    different); the tasks file and the message log are files the
    process can write over. *)
Theorem cascading_unblock :
  forall (tasks : dict Task) (A B : string) (tA tB : Task) (g : string) (w : World),
    unique_keys tasks ->
    tasks_readable w ->
    messages_readable w ->
    dict_get tasks A = Some tA ->
    status tA = PENDING \/ status tA = IN_PROGRESS ->
    dict_get tasks B = Some tB -> dependencies tB = [A] ->
    assigned_to tB = Some g -> g <> ""%string ->
    status tB = BLOCKED ->
    let tB' := mkTask (id tB) (title tB) (description tB) (Some g) IN_PROGRESS [A]
                      (created_at tB) (completed_at tB) in
    (exists w' final tA' appended note,
        TechDirector.complete_task (TechDirector.mk tasks) A w
        = (Return (true, TechDirector.mk final), w')
        /\ tasks_file w' = Holds final
        /\ dict_get final A = Some tA'
        /\ status tA' = COMPLETED /\ completed_at tA' = Some (wall w (clock w))
        /\ dict_get final B = Some tB'
        /\ stored_messages w' = stored_messages w ++ appended
        /\ filter (fun m => (content m =? TechDirector.unblock_notice B)%string) appended
           = [note]
        /\ envelope note = ("TD"%string, g, TechDirector.unblock_notice B))
    /\ (forall grp : Group.t,
           tasks_file w = Holds tasks ->
           assigned_to tA = Some (Group.name grp) ->
           exists w' final tA' appended note,
             Group.complete_task grp A w = (Return true, w')
             /\ tasks_file w' = Holds final
             /\ dict_get final A = Some tA'
             /\ status tA' = COMPLETED /\ completed_at tA' = Some (wall w (clock w))
             /\ dict_get final B = Some tB'
             /\ stored_messages w' = stored_messages w ++ appended
             /\ filter (fun m => (content m =? Group.unblock_notice A B)%string) appended
                = [note]
             /\ envelope note = (Group.name grp, g, Group.unblock_notice A B)).
Proof.
  intros tasks A B tA tB g w U Rt R GA SA GB DB Ag Ng SB tB'.
  destruct (open_status_neq (status tA) SA) as [NC NB].
  assert (N : A <> B).
  { intro E. subst B. rewrite GA in GB. injection GB as ->.
    rewrite SB in SA. destruct SA; discriminate. }
  set (tA' := completed_now tA (wall w (clock w))).
  destruct (sole_dependent_unblocked tasks A B tA' tB N GB DB SB eq_refl) as [GD UB].
  set (D := dict_set tasks A tA') in *.
  assert (UD : unique_keys D).
  { apply unique_keys_dict_set; [eapply dict_mem_get_Some; exact GA|exact U]. }
  assert (GF : dict_get (dict_map (unblock_task D A) D) B = Some tB').
  { rewrite dict_get_dict_map, GD. simpl. unfold unblock_task. rewrite UB.
    unfold set_status, tB'. rewrite Ag, DB. reflexivity. }
  assert (GFA : dict_get (dict_map (unblock_task D A) D) A = Some tA').
  { destruct (completion_edges tasks A tA (wall w (clock w)) A tA GA GA)
      as (t' & Gt & [(_ & _ & E)|[(E & _)|(E & _)]]);
      try (exfalso; apply E; reflexivity).
    subst t'. exact Gt. }
  assert (Tr : unblockable D A tB && truthy (assigned_to tB) = true).
  { rewrite UB, Ag, (truthy_Some g Ng). reflexivity. }
  assert (As : assignee tB = g) by (unfold assignee; rewrite Ag; reflexivity).
  split.
  - destruct (TD_complete_task_runs (TechDirector.mk tasks) A tA w GA NC NB R)
      as (w' & appended & Run & TF & [SM _] & E).
    pose proof (cascade_messages_about "TD" TechDirector.unblock_notice D A B tB
                  appended TD_unblock_notice_inj UD GD E) as Ab.
    rewrite Tr, As in Ab. apply map_envelope_single in Ab as (note & Fl & En).
    exists w', (dict_map (unblock_task D A) D), tA', appended, note.
    split; [exact Run|]. split; [exact TF|]. split; [exact GFA|].
    split; [reflexivity|]. split; [reflexivity|]. split; [exact GF|].
    split; [exact SM|]. split; [exact Fl|exact En].
  - intros grp F Own.
    destruct (Group_complete_task_runs grp A tasks tA w F GA Own NC NB R)
      as (w' & appended & done & Run & TF & [SM _] & E & Ed).
    pose proof (cascade_messages_about (Group.name grp) (Group.unblock_notice A) D A B tB
                  appended (Group_unblock_notice_inj A) UD GD E) as Ab.
    rewrite Tr, As in Ab. apply map_envelope_single in Ab as (note & Fl & En).
    exists w', (dict_map (unblock_task D A) D), tA', (appended ++ [done]), note.
    split; [exact Run|]. split; [exact TF|]. split; [exact GFA|].
    split; [reflexivity|]. split; [reflexivity|]. split; [exact GF|].
    split; [exact SM|]. split; [|exact En].
    rewrite filter_app, Fl. simpl.
    assert (Cd : content done = ("Task " ++ A ++ " completed")%string).
    { unfold envelope in Ed. congruence. }
    rewrite Cd.
    destruct (String.eqb_spec ("Task " ++ A ++ " completed") (Group.unblock_notice A B))
      as [E'|_]; [exfalso; exact (Group_done_is_no_notice A B E')|reflexivity].
Qed.

Lemma cascading_unblock_witness :
  let tB' := mkTask (id chain_B) (title chain_B) (description chain_B) (Some "beta"%string)
                    IN_PROGRESS ["A"%string] (created_at chain_B) (completed_at chain_B) in
  (exists w' final tA' appended note,
      TechDirector.complete_task (TechDirector.mk chain_store) "A" chain_world
      = (Return (true, TechDirector.mk final), w')
      /\ tasks_file w' = Holds final
      /\ dict_get final "A" = Some tA'
      /\ status tA' = COMPLETED
      /\ completed_at tA' = Some (wall chain_world (clock chain_world))
      /\ dict_get final "B" = Some tB'
      /\ stored_messages w' = stored_messages chain_world ++ appended
      /\ filter (fun m => (content m =? TechDirector.unblock_notice "B")%string) appended
         = [note]
      /\ envelope note = ("TD"%string, "beta"%string, TechDirector.unblock_notice "B"))
  /\ (forall grp : Group.t,
         tasks_file chain_world = Holds chain_store ->
         assigned_to chain_A = Some (Group.name grp) ->
         exists w' final tA' appended note,
           Group.complete_task grp "A" chain_world = (Return true, w')
           /\ tasks_file w' = Holds final
           /\ dict_get final "A" = Some tA'
           /\ status tA' = COMPLETED
           /\ completed_at tA' = Some (wall chain_world (clock chain_world))
           /\ dict_get final "B" = Some tB'
           /\ stored_messages w' = stored_messages chain_world ++ appended
           /\ filter (fun m => (content m =? Group.unblock_notice "A" "B")%string) appended
              = [note]
           /\ envelope note = (Group.name grp, "beta"%string, Group.unblock_notice "A" "B")).
Proof.
  apply (cascading_unblock chain_store "A" "B" chain_A chain_B "beta" chain_world);
    try reflexivity; try exact I; try discriminate.
  right. reflexivity.
Defined.

(** C2, as the code has it: the Director's [complete_task] takes a Pending
    task to Completed, and [assign_task] takes a Completed task back to
    InProgress. *)
Lemma state_machine_counterexample :
  (status fresh_t1 = PENDING
   /\ exists w' final t',
       TechDirector.complete_task (TechDirector.mk fresh_store) "t1"
         (with_tasks_file (Holds fresh_store) fresh_world)
       = (Return (true, TechDirector.mk final), w')
       /\ dict_get final "t1" = Some t' /\ status t' = COMPLETED)
  /\ (status done_t1 = COMPLETED
      /\ exists w' final t',
          TechDirector.assign_task (TechDirector.mk done_store) "t1" "alpha"
            (with_tasks_file (Holds done_store) fresh_world)
          = (Return (true, TechDirector.mk final), w')
          /\ dict_get final "t1" = Some t' /\ status t' = IN_PROGRESS).
Proof.
  split; (split; [reflexivity|]); eexists; eexists; eexists;
    (split; [vm_compute; reflexivity|]); split; vm_compute; reflexivity.
Qed.

(** C2, amended.  What the Director's [complete_task] and [assign_task]
    do to the status of every stored task, the tasks file and the
    message log being files the process can write over.
    [complete_task] takes the task it names from Pending or InProgress
    to Completed and returns True; a named task that is Completed (True)
    or Blocked (False) stays as it is and so does the whole store.
    Another task either stays as it is or goes from Blocked to
    InProgress, and then it depends on the named task and all its
    dependencies are stored as Completed.  [assign_task] returns True
    exactly when [validate_id] accepts the group and the task is stored;
    then the named task becomes InProgress when each of its dependencies
    is stored and Completed and Blocked when one of them is missing or
    has another status, whatever its status was, Completed included; no
    other task changes, and none at all when it returns False. *)
Theorem status_changes_of_the_director :
  forall (tasks : dict Task) (task_id : string) (w : World),
    tasks_readable w ->
    messages_readable w ->
    (exists ok final w',
        TechDirector.complete_task (TechDirector.mk tasks) task_id w
        = (Return (ok, TechDirector.mk final), w')
        /\ forall tid t,
            dict_get tasks tid = Some t ->
            exists t',
              dict_get final tid = Some t'
              /\ ((tid = task_id
                   /\ (status t = PENDING \/ status t = IN_PROGRESS)
                   /\ status t' = COMPLETED /\ ok = true)
                  \/ (tid = task_id
                      /\ ((status t = COMPLETED /\ ok = true)
                          \/ (status t = BLOCKED /\ ok = false))
                      /\ t' = t /\ final = tasks)
                  \/ (tid <> task_id /\ t' = t)
                  \/ (tid <> task_id
                      /\ status t = BLOCKED /\ status t' = IN_PROGRESS
                      /\ In task_id (dependencies t)
                      /\ forall d, In d (dependencies t) ->
                                   exists dep, dict_get final d = Some dep
                                               /\ status dep = COMPLETED)))
    /\ (forall g : string,
           exists ok final w',
             TechDirector.assign_task (TechDirector.mk tasks) task_id g w
             = (Return (ok, TechDirector.mk final), w')
             /\ (ok = true <-> passes_validate_id g = true /\ dict_mem tasks task_id = true)
             /\ (ok = false -> final = tasks)
             /\ forall tid t,
                 dict_get tasks tid = Some t ->
                 exists t',
                   dict_get final tid = Some t'
                   /\ (tid <> task_id -> t' = t)
                   /\ (tid = task_id -> ok = true ->
                       ((forall d, In d (dependencies t) ->
                                   exists dep, dict_get tasks d = Some dep
                                               /\ status dep = COMPLETED)
                        /\ status t' = IN_PROGRESS)
                       \/ ((exists d, In d (dependencies t)
                                      /\ (dict_get tasks d = None
                                          \/ exists dep, dict_get tasks d = Some dep
                                                         /\ status dep <> COMPLETED))
                           /\ status t' = BLOCKED))).
Proof.
  intros tasks task_id w Rt R. split.
  - destruct (dict_get tasks task_id) as [task|] eqn:G.
    + destruct (status task) eqn:S.
      1, 2:
        assert (SA : status task = PENDING \/ status task = IN_PROGRESS)
          by (rewrite S; auto);
        destruct (open_status_neq (status task) SA) as [NC NB];
        destruct (TD_complete_task_runs (TechDirector.mk tasks) task_id task w G NC NB R)
          as (w' & appended & Run & _);
        eexists; eexists; eexists; (split; [exact Run|]);
        intros tid t Gt; simpl TechDirector.tasks;
        (destruct (String.eqb_spec tid task_id) as [E|N];
         [ subst tid; rewrite G in Gt; injection Gt as <-;
           destruct (completion_edges tasks task_id task (wall w (clock w)) task_id task
                       G G)
             as (t' & Gf & [(_ & _ & E3)|[(E1 & _)|(E1 & _)]]);
           try (exfalso; apply E1; reflexivity);
           exists t'; (split; [exact Gf|]); subst t'; left;
           split; [reflexivity|]; split; [rewrite S; auto|]; split; reflexivity
         | destruct (completion_of_other tasks task_id task (wall w (clock w)) tid t
                       G N Gt) as [Gf|(Gf & Sb & Id & Dc)];
           [ exists t; split; [exact Gf|]; right; right; left; split; [exact N|reflexivity]
           | eexists; split; [exact Gf|]; right; right; right;
             split; [exact N|]; split; [exact Sb|]; split; [reflexivity|];
             split; [exact Id|exact Dc] ] ]).
      * exists true, tasks. eexists. split.
        { unfold TechDirector.complete_task. simpl. rewrite G, S. reflexivity. }
        intros tid t Gt. exists t. split; [exact Gt|].
        destruct (String.eqb_spec tid task_id) as [E|N].
        { subst tid. rewrite G in Gt. injection Gt as <-. right. left.
          split; [reflexivity|]. split; [left; split; [exact S|reflexivity]|].
          split; reflexivity. }
        { right. right. left. split; [exact N|reflexivity]. }
      * exists false, tasks. eexists. split.
        { unfold TechDirector.complete_task. simpl. rewrite G, S. reflexivity. }
        intros tid t Gt. exists t. split; [exact Gt|].
        destruct (String.eqb_spec tid task_id) as [E|N].
        { subst tid. rewrite G in Gt. injection Gt as <-. right. left.
          split; [reflexivity|]. split; [right; split; [exact S|reflexivity]|].
          split; reflexivity. }
        { right. right. left. split; [exact N|reflexivity]. }
    + exists false, tasks. eexists. split.
      { unfold TechDirector.complete_task. simpl. rewrite G. reflexivity. }
      intros tid t Gt. exists t. split; [exact Gt|]. right. right. left.
      split; [|reflexivity]. intro E. subst tid. rewrite G in Gt. discriminate Gt.
  - intro g. destruct (passes_validate_id g) eqn:V.
    + destruct (dict_get tasks task_id) as [task|] eqn:G.
      * destruct (TD_assign_task_runs tasks task_id task g w G V R)
          as (w' & appended & Run & _).
        eexists. eexists. eexists. split; [exact Run|].
        split.
        { split; [intros _|reflexivity]. split; [reflexivity|].
          eapply dict_mem_get_Some. exact G. }
        split; [discriminate|].
        intros tid t Gt. destruct (String.eqb_spec task_id tid) as [<-|N].
        { rewrite dict_get_set_same. eexists. split; [reflexivity|].
          split; [intro N; exfalso; apply N; reflexivity|]. intros _ _.
          rewrite G in Gt. injection Gt as <-. unfold assigned_now. simpl.
          destruct (check_dependencies_cases tasks task) as [(Ck & All)|(Ck & Some_)];
            rewrite Ck; [left|right]; split; try reflexivity; assumption. }
        { rewrite dict_get_set_other; [|exact N]. exists t. split; [exact Gt|].
          split; [reflexivity|]. intro E. exfalso. apply N. symmetry. exact E. }
      * destruct (validate_id_runs g "Group name" w) as (w0 & L0 & _ & W0).
        rewrite V in L0. exists false, tasks. eexists. split.
        { unfold TechDirector.assign_task. eapply runs_bind; [exact L0|].
          simpl. rewrite G. reflexivity. }
        split.
        { split; [discriminate|]. intros [_ Dm]. unfold dict_mem in Dm.
          rewrite G in Dm. discriminate Dm. }
        split; [reflexivity|].
        intros tid t Gt. exists t. split; [exact Gt|]. split; [reflexivity|].
        intros _ Ok. discriminate Ok.
    + destruct (validate_id_runs g "Group name" w) as (w0 & L0 & _).
      rewrite V in L0. exists false, tasks, w0. split.
      { unfold TechDirector.assign_task. eapply runs_bind; [exact L0|].
        reflexivity. }
      split.
      { split; [discriminate|]. intros [Va _]. discriminate Va. }
      split; [reflexivity|].
      intros tid t Gt. exists t. split; [exact Gt|]. split; [reflexivity|].
      intros _ Ok. discriminate Ok.
Qed.

Lemma status_changes_of_the_director_witness :
  let w := with_tasks_file (Holds chain_store) fresh_world in
  (exists ok final w',
      TechDirector.complete_task (TechDirector.mk chain_store) "A" w
      = (Return (ok, TechDirector.mk final), w')
      /\ forall tid t,
          dict_get chain_store tid = Some t ->
          exists t',
            dict_get final tid = Some t'
            /\ ((tid = "A"%string
                 /\ (status t = PENDING \/ status t = IN_PROGRESS)
                 /\ status t' = COMPLETED /\ ok = true)
                \/ (tid = "A"%string
                    /\ ((status t = COMPLETED /\ ok = true)
                        \/ (status t = BLOCKED /\ ok = false))
                    /\ t' = t /\ final = chain_store)
                \/ (tid <> "A"%string /\ t' = t)
                \/ (tid <> "A"%string
                    /\ status t = BLOCKED /\ status t' = IN_PROGRESS
                    /\ In "A"%string (dependencies t)
                    /\ forall d, In d (dependencies t) ->
                                 exists dep, dict_get final d = Some dep
                                             /\ status dep = COMPLETED)))
  /\ (forall g : string,
         exists ok final w',
           TechDirector.assign_task (TechDirector.mk chain_store) "A" g w
           = (Return (ok, TechDirector.mk final), w')
           /\ (ok = true <-> passes_validate_id g = true
                             /\ dict_mem chain_store "A" = true)
           /\ (ok = false -> final = chain_store)
           /\ forall tid t,
               dict_get chain_store tid = Some t ->
               exists t',
                 dict_get final tid = Some t'
                 /\ (tid <> "A"%string -> t' = t)
                 /\ (tid = "A"%string -> ok = true ->
                     ((forall d, In d (dependencies t) ->
                                 exists dep, dict_get chain_store d = Some dep
                                             /\ status dep = COMPLETED)
                      /\ status t' = IN_PROGRESS)
                     \/ ((exists d, In d (dependencies t)
                                    /\ (dict_get chain_store d = None
                                        \/ exists dep, dict_get chain_store d = Some dep
                                                       /\ status dep <> COMPLETED))
                         /\ status t' = BLOCKED))).
Proof.
  intro w.
  apply (status_changes_of_the_director chain_store "A" w); exact I.
Defined.

(** C3. The cascade of one completion is a single pass.  With B Blocked
    and waiting for A (its other dependencies, if any, stored as
    Completed) and C Blocked and waiting for B, a [complete_task] call
    that completes A (A Pending or InProgress; through the group facade,
    A assigned to the group) returns True and saves a store in which A
    is Completed, B is InProgress, every other field of B as it was, and
    C is exactly as it was, still Blocked.  C is unblocked by the later
    completion of B: in the store just saved, if the dependencies of C
    other than B are stored as Completed, [complete_task] on B returns
    True and saves C as InProgress.  The tasks file and the message log
    are files the process can write over. *)
Theorem cascade_single_pass :
  forall (tasks : dict Task) (A B C : string) (tA tB tC : Task) (w : World),
    tasks_readable w ->
    messages_readable w ->
    dict_get tasks A = Some tA ->
    status tA = PENDING \/ status tA = IN_PROGRESS ->
    dict_get tasks B = Some tB -> status tB = BLOCKED ->
    In A (dependencies tB) ->
    (forall d, In d (dependencies tB) ->
               d = A \/ exists dep, dict_get tasks d = Some dep /\ status dep = COMPLETED) ->
    dict_get tasks C = Some tC -> status tC = BLOCKED ->
    In B (dependencies tC) ->
    let tB' := mkTask (id tB) (title tB) (description tB) (assigned_to tB) IN_PROGRESS
                      (dependencies tB) (created_at tB) (completed_at tB) in
    let tC' := mkTask (id tC) (title tC) (description tC) (assigned_to tC) IN_PROGRESS
                      (dependencies tC) (created_at tC) (completed_at tC) in
    (exists w' final tA',
        TechDirector.complete_task (TechDirector.mk tasks) A w
        = (Return (true, TechDirector.mk final), w')
        /\ tasks_file w' = Holds final
        /\ dict_get final A = Some tA' /\ status tA' = COMPLETED
        /\ dict_get final B = Some tB'
        /\ dict_get final C = Some tC
        /\ forall w2 : World,
            tasks_readable w2 ->
            messages_readable w2 ->
            (forall d, In d (dependencies tC) ->
                       d = B \/ exists dep, dict_get final d = Some dep
                                            /\ status dep = COMPLETED) ->
            exists w3 final2,
              TechDirector.complete_task (TechDirector.mk final) B w2
              = (Return (true, TechDirector.mk final2), w3)
              /\ tasks_file w3 = Holds final2
              /\ dict_get final2 C = Some tC')
    /\ (forall grp : Group.t,
           tasks_file w = Holds tasks ->
           assigned_to tA = Some (Group.name grp) ->
           exists w' final tA',
             Group.complete_task grp A w = (Return true, w')
             /\ tasks_file w' = Holds final
             /\ dict_get final A = Some tA' /\ status tA' = COMPLETED
             /\ dict_get final B = Some tB'
             /\ dict_get final C = Some tC
             /\ forall (grp2 : Group.t) (w2 : World),
                 messages_readable w2 ->
                 tasks_file w2 = Holds final ->
                 assigned_to tB = Some (Group.name grp2) ->
                 (forall d, In d (dependencies tC) ->
                            d = B \/ exists dep, dict_get final d = Some dep
                                                 /\ status dep = COMPLETED) ->
                 exists w3 final2,
                   Group.complete_task grp2 B w2 = (Return true, w3)
                   /\ tasks_file w3 = Holds final2
                   /\ dict_get final2 C = Some tC').
Proof.
  intros tasks A B C tA tB tC w Rt R GA SA GB SB IA Others GC SC IB tB' tC'.
  destruct (open_status_neq (status tA) SA) as [NCo NBl].
  set (tA' := completed_now tA (wall w (clock w))).
  set (D := dict_set tasks A tA').
  set (final := dict_map (unblock_task D A) D).
  assert (FB : dict_get final B = Some tB').
  { apply (dependent_unblocked tasks A B tA tA' tB); try assumption. reflexivity. }
  assert (FC : dict_get final C = Some tC).
  { apply (waiting_stays_blocked tasks A B C tA tA' tB tC); assumption. }
  assert (FA : dict_get final A = Some tA').
  { destruct (completion_edges tasks A tA (wall w (clock w)) A tA GA GA)
      as (t' & Gt & [(_ & _ & E)|[(E & _)|(E & _)]]);
      try (exfalso; apply E; reflexivity).
    subst t'. exact Gt. }
  assert (SB' : status tB' = PENDING \/ status tB' = IN_PROGRESS) by (right; reflexivity).
  destruct (open_status_neq (status tB') SB') as [NCo' NBl'].
  assert (Next : forall now,
             (forall d, In d (dependencies tC) ->
                        d = B \/ exists dep, dict_get final d = Some dep
                                             /\ status dep = COMPLETED) ->
             let D2 := dict_set final B (completed_now tB' now) in
             dict_get (dict_map (unblock_task D2 B) D2) C = Some tC').
  { intros now OthersC.
    apply (dependent_unblocked final B C tB' (completed_now tB' now) tC);
      try assumption. reflexivity. }
  split.
  - destruct (TD_complete_task_runs (TechDirector.mk tasks) A tA w GA NCo NBl R)
      as (w' & appended & Run & TF & _).
    exists w', final, tA'. split; [exact Run|]. split; [exact TF|].
    split; [exact FA|]. split; [reflexivity|]. split; [exact FB|]. split; [exact FC|].
    intros w2 Rt2 R2 OthersC.
    destruct (TD_complete_task_runs (TechDirector.mk final) B tB' w2 FB NCo' NBl' R2)
      as (w3 & appended2 & Run2 & TF2 & _).
    eexists. eexists. split; [exact Run2|]. split; [exact TF2|].
    apply Next. exact OthersC.
  - intros grp F Own.
    destruct (Group_complete_task_runs grp A tasks tA w F GA Own NCo NBl R)
      as (w' & appended & done & Run & TF & _).
    exists w', final, tA'. split; [exact Run|]. split; [exact TF|].
    split; [exact FA|]. split; [reflexivity|]. split; [exact FB|]. split; [exact FC|].
    intros grp2 w2 R2 F2 Own2 OthersC.
    destruct (Group_complete_task_runs grp2 B final tB' w2 F2 FB Own2 NCo' NBl' R2)
      as (w3 & appended2 & done2 & Run2 & TF2 & _).
    eexists. eexists. split; [exact Run2|]. split; [exact TF2|].
    apply Next. exact OthersC.
Qed.

Lemma cascade_single_pass_witness :
  let tB' := mkTask (id chain_B) (title chain_B) (description chain_B)
                    (assigned_to chain_B) IN_PROGRESS (dependencies chain_B)
                    (created_at chain_B) (completed_at chain_B) in
  let tC' := mkTask (id chain_C) (title chain_C) (description chain_C)
                    (assigned_to chain_C) IN_PROGRESS (dependencies chain_C)
                    (created_at chain_C) (completed_at chain_C) in
  (exists w' final tA',
      TechDirector.complete_task (TechDirector.mk chain_store) "A" chain_world
      = (Return (true, TechDirector.mk final), w')
      /\ tasks_file w' = Holds final
      /\ dict_get final "A" = Some tA' /\ status tA' = COMPLETED
      /\ dict_get final "B" = Some tB'
      /\ dict_get final "C" = Some chain_C
      /\ forall w2 : World,
          tasks_readable w2 ->
          messages_readable w2 ->
          (forall d, In d (dependencies chain_C) ->
                     d = "B"%string \/ exists dep, dict_get final d = Some dep
                                                   /\ status dep = COMPLETED) ->
          exists w3 final2,
            TechDirector.complete_task (TechDirector.mk final) "B" w2
            = (Return (true, TechDirector.mk final2), w3)
            /\ tasks_file w3 = Holds final2
            /\ dict_get final2 "C" = Some tC')
  /\ (forall grp : Group.t,
         tasks_file chain_world = Holds chain_store ->
         assigned_to chain_A = Some (Group.name grp) ->
         exists w' final tA',
           Group.complete_task grp "A" chain_world = (Return true, w')
           /\ tasks_file w' = Holds final
           /\ dict_get final "A" = Some tA' /\ status tA' = COMPLETED
           /\ dict_get final "B" = Some tB'
           /\ dict_get final "C" = Some chain_C
           /\ forall (grp2 : Group.t) (w2 : World),
               messages_readable w2 ->
               tasks_file w2 = Holds final ->
               assigned_to chain_B = Some (Group.name grp2) ->
               (forall d, In d (dependencies chain_C) ->
                          d = "B"%string \/ exists dep, dict_get final d = Some dep
                                                        /\ status dep = COMPLETED) ->
               exists w3 final2,
                 Group.complete_task grp2 "B" w2 = (Return true, w3)
                 /\ tasks_file w3 = Holds final2
                 /\ dict_get final2 "C" = Some tC').
Proof.
  apply (cascade_single_pass chain_store "A" "B" "C" chain_A chain_B chain_C chain_world);
    try reflexivity; try exact I.
  - right. reflexivity.
  - simpl. left. reflexivity.
  - simpl. intros d [E|[]]. left. symmetry. exact E.
  - simpl. left. reflexivity.
Defined.

(** C4. Completing a task whose status is Blocked fails: the Director's
    [complete_task] returns False after printing that the task is blocked
    by dependencies, and so does the [complete_task] of the group the task
    is assigned to.  The object and the world stay as they were: no status
    change, no completion stamp, no message, no file saved. *)
Theorem complete_blocked_task_fails :
  forall (tasks : dict Task) (task_id : string) (task : Task) (w : World),
    dict_get tasks task_id = Some task ->
    status task = BLOCKED ->
    exists w',
      untouched w w'
      /\ stdout w' = stdout w ++ [("Error: Cannot complete task " ++ task_id
                                   ++ " - it is blocked by dependencies")%string]
      /\ TechDirector.complete_task (TechDirector.mk tasks) task_id w
         = (Return (false, TechDirector.mk tasks), w')
      /\ (forall grp : Group.t,
             tasks_file w = Holds tasks ->
             assigned_to task = Some (Group.name grp) ->
             Group.complete_task grp task_id w = (Return false, w')).
Proof.
  intros tasks task_id task w G S.
  eexists. split; [apply untouched_print|]. split; [reflexivity|]. split.
  - unfold TechDirector.complete_task. simpl. rewrite G, S. reflexivity.
  - intros grp F Own. unfold Group.complete_task, bind, StateManager.load_tasks.
    rewrite F. simpl. rewrite G.
    unfold Group.assigned_to_other. rewrite Own, String.eqb_refl, S. reflexivity.
Qed.

Lemma complete_blocked_task_fails_witness :
  exists w',
    untouched chain_world w'
    /\ stdout w' = ["Error: Cannot complete task B - it is blocked by dependencies"]
    /\ TechDirector.complete_task (TechDirector.mk chain_store) "B" chain_world
       = (Return (false, TechDirector.mk chain_store), w')
    /\ (forall grp : Group.t,
           tasks_file chain_world = Holds chain_store ->
           assigned_to chain_B = Some (Group.name grp) ->
           Group.complete_task grp "B" chain_world = (Return false, w')).
Proof.
  apply (complete_blocked_task_fails chain_store "B" chain_B chain_world);
    reflexivity.
Defined.

(** C5, where the code departs from it. [validate_id] lets an identifier
    followed by a line feed through, because [$] matches before a final
    line feed: [create_task] with the id t1 + line feed, which is no
    identifier, returns True and stores a Pending task under that id
    instead of failing. *)
Theorem create_task_accepts_trailing_newline :
  is_identifier newline_id = false
  /\ exists w' final task,
      TechDirector.create_task (TechDirector.mk []) newline_id "title" "text" None
                               fresh_world
      = (Return (true, TechDirector.mk final), w')
      /\ tasks_file w' = Holds final
      /\ dict_get final newline_id = Some task
      /\ status task = PENDING.
Proof.
  split; [reflexivity|]. eexists. eexists. eexists.
  split; [vm_compute; reflexivity|]. repeat split; vm_compute; reflexivity.
Qed.

(** A completed task of the chain example, for the repeated completion. *)
Lemma complete_task_twice_example :
  exists self1 w1 stamp,
    TechDirector.complete_task (TechDirector.mk chain_store) "A" chain_world
      = (Return (true, self1), w1)
    /\ option_map completed_at (dict_get (TechDirector.tasks self1) "A") = Some (Some stamp)
    /\ exists w2,
        TechDirector.complete_task self1 "A" w1 = (Return (true, self1), w2)
        /\ untouched w1 w2.
Proof.
  eexists. eexists. eexists. split; [vm_compute; reflexivity|].
  split; [vm_compute; reflexivity|].
  eexists. split; [vm_compute; reflexivity|]. vm_compute. repeat split.
Qed.

(** C6. Completing a task that is already Completed succeeds and changes
    nothing: the Director's [complete_task], and the [complete_task] of
    the group the task is assigned to, print a warning and return True;
    the task keeps the [completed_at] it has, and no file is written. *)
Theorem complete_completed_task_is_noop :
  forall (tasks : dict Task) (task_id : string) (task : Task) (w : World),
    dict_get tasks task_id = Some task ->
    status task = COMPLETED ->
    exists w',
      untouched w w'
      /\ stdout w' = stdout w ++ [("Warning: Task " ++ task_id
                                   ++ " is already completed")%string]
      /\ TechDirector.complete_task (TechDirector.mk tasks) task_id w
         = (Return (true, TechDirector.mk tasks), w')
      /\ (forall grp : Group.t,
             tasks_file w = Holds tasks ->
             assigned_to task = Some (Group.name grp) ->
             Group.complete_task grp task_id w = (Return true, w')).
Proof.
  intros tasks task_id task w G S.
  eexists. split; [apply untouched_print|]. split; [reflexivity|]. split.
  - unfold TechDirector.complete_task. simpl. rewrite G, S. reflexivity.
  - intros grp F Own. unfold Group.complete_task, bind, StateManager.load_tasks.
    rewrite F. simpl. rewrite G.
    unfold Group.assigned_to_other. rewrite Own, String.eqb_refl, S. reflexivity.
Qed.

Lemma complete_completed_task_is_noop_witness :
  let done_A := completed_now chain_A "2024-01-01T00:00:00" in
  let store := [("A", done_A); ("B", set_status chain_B IN_PROGRESS); ("C", chain_C)] in
  let w := with_tasks_file (Holds store) chain_world in
  exists w',
    untouched w w'
    /\ stdout w' = ["Warning: Task A is already completed"]
    /\ TechDirector.complete_task (TechDirector.mk store) "A" w
       = (Return (true, TechDirector.mk store), w')
    /\ (forall grp : Group.t,
           tasks_file w = Holds store ->
           assigned_to done_A = Some (Group.name grp) ->
           Group.complete_task grp "A" w = (Return true, w')).
Proof.
  intros done_A store w.
  apply (complete_completed_task_is_noop store "A" done_A w); reflexivity.
Defined.

(** The store of the example is one the program builds itself. *)
Lemma unsorted_store_is_built :
  exists w',
    (td <- TechDirector.__init__ ;;
     r <- TechDirector.create_task td "t1" "base" "" (Some []) ;;
     r <- TechDirector.create_task (snd r) "z" "later" "" (Some ["t1"]) ;;
     r <- TechDirector.create_task (snd r) "a" "sooner" "" (Some ["t1"]) ;;
     r <- TechDirector.assign_task (snd r) "t1" "alpha" ;;
     r <- TechDirector.assign_task (snd r) "z" "alpha" ;;
     TechDirector.assign_task (snd r) "a" "beta") fresh_world
    = (Return (true, TechDirector.mk unsorted_store), w')
    /\ tasks_file w' = Holds unsorted_store.
Proof. eexists. split; vm_compute; reflexivity. Qed.

(** C7, as the code has it: the messages of a cascade that speak of
    unblocked tasks are not in ascending order of task id.  Completing t1
    in a store where z was created before a tells z first. *)
Lemma cascade_order_counterexample :
  exists self' w',
    TechDirector.complete_task (TechDirector.mk unsorted_store) "t1" unsorted_world
    = (Return (true, self'), w')
    /\ map content (stored_messages w')
       = [TechDirector.unblock_notice "z"; TechDirector.unblock_notice "a"]
    /\ String.ltb "a" "z" = true.
Proof.
  eexists. eexists. split; [vm_compute; reflexivity|].
  split; vm_compute; reflexivity.
Qed.

(** C7, amended. The cascade visits the tasks in the order of the tasks
    dictionary, which is the order the tasks were created in and the
    order of the saved file.  The messages a completion appends are one
    for each entry of the store that is Blocked, depends on the
    completed task, has every dependency stored as Completed once that
    task is, and is assigned to a group, in the order of the store; the
    group facade appends its completion report to the Director after
    them.  The tasks file and the message log are files the process can
    write over. *)
Theorem cascade_follows_store_order :
  forall (tasks : dict Task) (A : string) (tA : Task) (w : World),
    tasks_readable w ->
    messages_readable w ->
    dict_get tasks A = Some tA ->
    status tA = PENDING \/ status tA = IN_PROGRESS ->
    let D := dict_set tasks A (completed_now tA (wall w (clock w))) in
    keys D = keys tasks
    /\ (exists sends : string * Task -> bool, notified D A D = filter sends D)
    /\ (forall k t,
           In (k, t) (notified D A D)
           <-> In (k, t) D
               /\ In A (dependencies t)
               /\ status t = BLOCKED
               /\ (forall d, In d (dependencies t) ->
                             exists dep, dict_get D d = Some dep
                                         /\ status dep = COMPLETED)
               /\ exists g, assigned_to t = Some g /\ g <> ""%string)
    /\ (exists w' self' appended,
           TechDirector.complete_task (TechDirector.mk tasks) A w
           = (Return (true, self'), w')
           /\ stored_messages w' = stored_messages w ++ appended
           /\ map envelope appended
              = map (fun kv => ("TD"%string, assignee (snd kv),
                                TechDirector.unblock_notice (fst kv)))
                    (notified D A D))
    /\ (forall grp : Group.t,
           tasks_file w = Holds tasks ->
           assigned_to tA = Some (Group.name grp) ->
           exists w' appended done,
             Group.complete_task grp A w = (Return true, w')
             /\ stored_messages w' = stored_messages w ++ appended ++ [done]
             /\ map envelope appended
                = map (fun kv => (Group.name grp, assignee (snd kv),
                                  Group.unblock_notice A (fst kv)))
                      (notified D A D)
             /\ envelope done
                = (Group.name grp, "TD"%string, ("Task " ++ A ++ " completed")%string)).
Proof.
  intros tasks A tA w Rt R GA SA D.
  destruct (open_status_neq (status tA) SA) as [NCo NBl].
  split; [|split; [|split; [|split]]].
  - apply keys_dict_set_present. eapply dict_mem_get_Some. exact GA.
  - eexists. reflexivity.
  - intros k t. apply notified_spec.
  - destruct (TD_complete_task_runs (TechDirector.mk tasks) A tA w GA NCo NBl R)
      as (w' & appended & Run & _ & [SM _] & E).
    eexists. eexists. exists appended. split; [exact Run|]. split; assumption.
  - intros grp F Own.
    destruct (Group_complete_task_runs grp A tasks tA w F GA Own NCo NBl R)
      as (w' & appended & done & Run & _ & [SM _] & E & Ed).
    exists w', appended, done. split; [exact Run|]. repeat split; assumption.
Qed.

Lemma cascade_follows_store_order_witness :
  let D := dict_set unsorted_store "t1"
             (completed_now unsorted_t1
                            (wall unsorted_world (clock unsorted_world))) in
  keys D = keys unsorted_store
  /\ (exists sends : string * Task -> bool, notified D "t1" D = filter sends D)
  /\ (forall k t,
         In (k, t) (notified D "t1" D)
         <-> In (k, t) D
             /\ In "t1"%string (dependencies t)
             /\ status t = BLOCKED
             /\ (forall d, In d (dependencies t) ->
                           exists dep, dict_get D d = Some dep
                                       /\ status dep = COMPLETED)
             /\ exists g, assigned_to t = Some g /\ g <> ""%string)
  /\ (exists w' self' appended,
         TechDirector.complete_task (TechDirector.mk unsorted_store) "t1" unsorted_world
         = (Return (true, self'), w')
         /\ stored_messages w' = stored_messages unsorted_world ++ appended
         /\ map envelope appended
            = map (fun kv => ("TD"%string, assignee (snd kv),
                              TechDirector.unblock_notice (fst kv)))
                  (notified D "t1" D))
  /\ (forall grp : Group.t,
         tasks_file unsorted_world = Holds unsorted_store ->
         assigned_to unsorted_t1
         = Some (Group.name grp) ->
         exists w' appended done,
           Group.complete_task grp "t1" unsorted_world = (Return true, w')
           /\ stored_messages w' = stored_messages unsorted_world ++ appended ++ [done]
           /\ map envelope appended
              = map (fun kv => (Group.name grp, assignee (snd kv),
                                Group.unblock_notice "t1" (fst kv)))
                    (notified D "t1" D)
           /\ envelope done
              = (Group.name grp, "TD"%string, ("Task " ++ "t1" ++ " completed")%string)).
Proof.
  apply (cascade_follows_store_order unsorted_store "t1"
           unsorted_t1
           unsorted_world).
  - exact I.
  - exact I.
  - reflexivity.
  - right. reflexivity.
Defined.

(** C8, as the code has it: two [td create-task] processes with the ids
    a and b that both build their Director (and so load the store)
    before either calls [create_task] both report success, and the store
    saved last holds b only. *)
Lemma concurrent_create_loses_update :
  exists td1 td2 w1 w2 td1' w3 td2' w4 final,
    TechDirector.__init__ fresh_world = (Return td1, w1)
    /\ TechDirector.__init__ w1 = (Return td2, w2)
    /\ TechDirector.create_task td1 "a" "first" "" (Some []) w2 = (Return (true, td1'), w3)
    /\ TechDirector.create_task td2 "b" "second" "" (Some []) w3 = (Return (true, td2'), w4)
    /\ tasks_file w4 = Holds final
    /\ dict_mem final "a" = false
    /\ dict_mem final "b" = true.
Proof.
  do 9 eexists.
  split; [vm_compute; reflexivity|]. split; [vm_compute; reflexivity|].
  split; [vm_compute; reflexivity|]. split; [vm_compute; reflexivity|].
  split; [vm_compute; reflexivity|]. split; vm_compute; reflexivity.
Qed.

(** C8, amended.  Two [td create-task] processes with different ids that
    [validate_id] accepts, new to the store and depending on stored
    tasks only.  Run one after the other, the second building its
    Director after the first has saved, both return True and the store
    saved at the end holds the old tasks followed by the two new ones.
    Run so that both build their Director, and so load the store, before
    either calls [create_task], both return True as well, but the store
    saved at the end holds the old tasks and the second task only: the
    first creation is lost. *)
Theorem creates_persist_only_in_sequence :
  forall (w : World) (id1 id2 ttl1 ttl2 descr1 descr2 : string)
         (deps1 deps2 : list string),
    tasks_readable w ->
    passes_validate_id id1 = true ->
    passes_validate_id id2 = true ->
    id1 <> id2 ->
    dict_mem (stored_tasks w) id1 = false ->
    dict_mem (stored_tasks w) id2 = false ->
    (forall dep, In dep deps1 -> dict_mem (stored_tasks w) dep = true) ->
    (forall dep, In dep deps2 -> dict_mem (stored_tasks w) dep = true) ->
    (exists w' task1 task2,
        (r1 <- td_create_task id1 ttl1 descr1 deps1 ;;
         r2 <- td_create_task id2 ttl2 descr2 deps2 ;;
         ret (r1, r2)) w
        = (Return (true, true), w')
        /\ tasks_file w' = Holds (stored_tasks w ++ [(id1, task1); (id2, task2)])
        /\ dict_mem (stored_tasks w') id1 = true
        /\ dict_mem (stored_tasks w') id2 = true)
    /\ (exists w' task2,
           (td1 <- TechDirector.__init__ ;;
            td2 <- TechDirector.__init__ ;;
            r1 <- TechDirector.create_task td1 id1 ttl1 descr1 (Some deps1) ;;
            r2 <- TechDirector.create_task td2 id2 ttl2 descr2 (Some deps2) ;;
            ret (fst r1, fst r2)) w
           = (Return (true, true), w')
           /\ tasks_file w' = Holds (stored_tasks w ++ [(id2, task2)])
           /\ dict_mem (stored_tasks w') id1 = false
           /\ dict_mem (stored_tasks w') id2 = true).
Proof.
  intros w id1 id2 ttl1 ttl2 descr1 descr2 deps1 deps2 R V1 V2 N D1 D2 H1 H2.
  split.
  - destruct (td_create_task_runs id1 ttl1 descr1 deps1 w R V1 D1 H1)
      as (w1 & task1 & L1 & T1 & _).
    assert (S1 : stored_tasks w1 = stored_tasks w ++ [(id1, task1)]).
    { unfold stored_tasks at 1. rewrite T1. reflexivity. }
    assert (R1 : tasks_readable w1) by (unfold tasks_readable; rewrite T1; exact I).
    destruct (td_create_task_runs id2 ttl2 descr2 deps2 w1 R1 V2)
      as (w2 & task2 & L2 & T2 & _).
    + rewrite S1, dict_mem_app, D2. unfold dict_mem. simpl.
      destruct (String.eqb_spec id2 id1); [congruence|reflexivity].
    + intros dep I. rewrite S1, dict_mem_app, (H2 dep I). reflexivity.
    + exists w2, task1, task2.
      assert (TF : tasks_file w2 = Holds (stored_tasks w ++ [(id1, task1); (id2, task2)])).
      { rewrite T2, S1, <- app_assoc. reflexivity. }
      split; [|split; [exact TF|]].
      * eapply runs_bind; [exact L1|]. eapply runs_bind; [exact L2|apply runs_ret].
      * unfold stored_tasks. rewrite TF. rewrite !dict_mem_app. unfold dict_mem. simpl.
        rewrite !String.eqb_refl.
        split; [rewrite orb_true_r; reflexivity|].
        destruct (id2 =? id1)%string; rewrite orb_true_r; reflexivity.
  - destruct (load_tasks_runs w R) as (w1 & L1 & _ & T1).
    assert (R1 : tasks_readable w1) by (unfold tasks_readable; rewrite T1; exact R).
    assert (S1 : stored_tasks w1 = stored_tasks w)
      by (unfold stored_tasks; rewrite T1; reflexivity).
    destruct (load_tasks_runs w1 R1) as (w2 & L2 & _ & T2).
    rewrite S1 in L2.
    destruct (create_task_runs (TechDirector.mk (stored_tasks w)) id1 ttl1 descr1
                (Some deps1) w2 V1 D1 H1) as (w3 & C1 & _).
    destruct (create_task_runs (TechDirector.mk (stored_tasks w)) id2 ttl2 descr2
                (Some deps2) w3 V2 D2 H2) as (w4 & C2 & T4 & _).
    exists w4. eexists. split; [|split; [exact T4|]].
    + unfold TechDirector.__init__.
      eapply runs_bind; [eapply runs_bind; [exact L1|apply runs_ret]|].
      eapply runs_bind; [eapply runs_bind; [exact L2|apply runs_ret]|].
      eapply runs_bind; [exact C1|]. eapply runs_bind; [exact C2|]. apply runs_ret.
    + unfold stored_tasks. rewrite T4. cbn [TechDirector.tasks].
      rewrite !dict_mem_app. rewrite D1, D2. unfold dict_mem. simpl.
      rewrite String.eqb_refl.
      destruct (String.eqb_spec id1 id2); [congruence|]. split; reflexivity.
Qed.

Lemma creates_persist_only_in_sequence_witness :
  (exists w' task1 task2,
      (r1 <- td_create_task "a" "first" "" [] ;;
       r2 <- td_create_task "b" "second" "" [] ;;
       ret (r1, r2)) fresh_world
      = (Return (true, true), w')
      /\ tasks_file w' = Holds (stored_tasks fresh_world ++ [("a", task1); ("b", task2)])
      /\ dict_mem (stored_tasks w') "a" = true
      /\ dict_mem (stored_tasks w') "b" = true)
  /\ (exists w' task2,
         (td1 <- TechDirector.__init__ ;;
          td2 <- TechDirector.__init__ ;;
          r1 <- TechDirector.create_task td1 "a" "first" "" (Some []) ;;
          r2 <- TechDirector.create_task td2 "b" "second" "" (Some []) ;;
          ret (fst r1, fst r2)) fresh_world
         = (Return (true, true), w')
         /\ tasks_file w' = Holds (stored_tasks fresh_world ++ [("b", task2)])
         /\ dict_mem (stored_tasks w') "a" = false
         /\ dict_mem (stored_tasks w') "b" = true).
Proof.
  apply (creates_persist_only_in_sequence fresh_world "a" "b" "first" "second" "" ""
                                          [] []);
    try reflexivity; try exact I; try discriminate; intros dep [].
Defined.




(** C10. [assign_task] does not look at the status the task has.  For
    every task of the store, whatever its status, and every group name
    [validate_id] accepts it returns True and saves the task with
    [assigned_to] set to the group and every other field but the status
    as it was, [completed_at] included.  The status is InProgress when
    every dependency of the task is stored and Completed, and Blocked
    when one of them is missing from the store or stored with another
    status.  So a Completed task whose dependencies are all stored and
    Completed goes back to InProgress with its completion stamp still
    set, and a later [complete_task] completes it again and replaces the
    stamp by the time of that call.  The tasks file and the message log
    are files the process can write over. *)
Theorem assign_task_ignores_status :
  forall (tasks : dict Task) (task_id : string) (task : Task) (g : string) (w : World),
    dict_get tasks task_id = Some task ->
    passes_validate_id g = true ->
    tasks_readable w ->
    messages_readable w ->
    exists w' final s,
      TechDirector.assign_task (TechDirector.mk tasks) task_id g w
      = (Return (true, TechDirector.mk final), w')
      /\ tasks_file w' = Holds final
      /\ dict_get final task_id
         = Some (mkTask (id task) (title task) (description task) (Some g) s
                        (dependencies task) (created_at task) (completed_at task))
      /\ (((forall d, In d (dependencies task) ->
                      exists dep, dict_get tasks d = Some dep /\ status dep = COMPLETED)
           /\ s = IN_PROGRESS)
          \/ ((exists d, In d (dependencies task)
                         /\ (dict_get tasks d = None
                             \/ exists dep, dict_get tasks d = Some dep
                                            /\ status dep <> COMPLETED))
              /\ s = BLOCKED))
      /\ (status task = COMPLETED ->
          (forall d, In d (dependencies task) ->
                     exists dep, dict_get tasks d = Some dep /\ status dep = COMPLETED) ->
          s = IN_PROGRESS
          /\ forall w2 : World,
              tasks_readable w2 ->
              messages_readable w2 ->
              exists w3 final2 task2,
                TechDirector.complete_task (TechDirector.mk final) task_id w2
                = (Return (true, TechDirector.mk final2), w3)
                /\ dict_get final2 task_id = Some task2
                /\ status task2 = COMPLETED
                /\ completed_at task2 = Some (wall w2 (clock w2))).
Proof.
  intros tasks task_id task g w G V Rt R.
  destruct (TD_assign_task_runs tasks task_id task g w G V R)
    as (w' & appended & Run & TF & _).
  exists w', (dict_set tasks task_id (assigned_now tasks task g)),
    (if check_dependencies tasks task then IN_PROGRESS else BLOCKED).
  split; [exact Run|]. split; [exact TF|].
  split; [rewrite dict_get_set_same; reflexivity|].
  split.
  { destruct (check_dependencies_cases tasks task) as [(Ck & All)|(Ck & Some_)];
      rewrite Ck; [left|right]; split; try reflexivity; assumption. }
  intros S All.
  assert (CD : check_dependencies tasks task = true)
    by (apply check_dependencies_spec; exact All).
  split; [rewrite CD; reflexivity|].
  intros w2 Rt2 R2.
  set (final := dict_set tasks task_id (assigned_now tasks task g)).
  assert (Gf : dict_get final task_id = Some (assigned_now tasks task g))
    by apply dict_get_set_same.
  assert (Sf : status (assigned_now tasks task g) = IN_PROGRESS)
    by (simpl; rewrite CD; reflexivity).
  assert (NC : status (assigned_now tasks task g) <> COMPLETED)
    by (rewrite Sf; discriminate).
  assert (NB : status (assigned_now tasks task g) <> BLOCKED)
    by (rewrite Sf; discriminate).
  destruct (TD_complete_task_runs (TechDirector.mk final) task_id
              (assigned_now tasks task g) w2 Gf NC NB R2)
    as (w3 & appended2 & Run2 & _).
  destruct (completion_edges final task_id (assigned_now tasks task g)
              (wall w2 (clock w2)) task_id (assigned_now tasks task g) Gf Gf)
    as (t' & Gt & [(_ & _ & E)|[(E & _)|(E & _)]]); try (exfalso; apply E; reflexivity).
  eexists. eexists. exists t'. split; [exact Run2|]. split; [exact Gt|].
  subst t'. split; reflexivity.
Qed.

Lemma assign_task_ignores_status_witness :
  let w := with_tasks_file (Holds done_store) fresh_world in
  exists w' final s,
    TechDirector.assign_task (TechDirector.mk done_store) "t1" "alpha" w
    = (Return (true, TechDirector.mk final), w')
    /\ tasks_file w' = Holds final
    /\ dict_get final "t1"
       = Some (mkTask (id done_t1) (title done_t1) (description done_t1)
                      (Some "alpha"%string) s
                      (dependencies done_t1) (created_at done_t1) (completed_at done_t1))
    /\ (((forall d, In d (dependencies done_t1) ->
                    exists dep, dict_get done_store d = Some dep /\ status dep = COMPLETED)
         /\ s = IN_PROGRESS)
        \/ ((exists d, In d (dependencies done_t1)
                       /\ (dict_get done_store d = None
                           \/ exists dep, dict_get done_store d = Some dep
                                          /\ status dep <> COMPLETED))
            /\ s = BLOCKED))
    /\ (status done_t1 = COMPLETED ->
        (forall d, In d (dependencies done_t1) ->
                   exists dep, dict_get done_store d = Some dep /\ status dep = COMPLETED) ->
        s = IN_PROGRESS
        /\ forall w2 : World,
            tasks_readable w2 ->
            messages_readable w2 ->
            exists w3 final2 task2,
              TechDirector.complete_task (TechDirector.mk final) "t1" w2
              = (Return (true, TechDirector.mk final2), w3)
              /\ dict_get final2 "t1" = Some task2
              /\ status task2 = COMPLETED
              /\ completed_at task2 = Some (wall w2 (clock w2))).
Proof.
  intro w.
  apply (assign_task_ignores_status done_store "t1" done_t1 "alpha" w);
    try reflexivity; exact I.
Defined.

(* ================================================================== *)
(** ** Further properties of the program, X1 onwards *)

(** X1. [validate_id] returns True exactly for the strings made of one or
    more letters, digits, underscores and hyphens, alone or followed by
    one line feed.  It writes no file; it prints nothing when it accepts
    and one line when it refuses. *)
Theorem validate_id_accepts_exactly :
  forall (s name : string) (w : World),
    exists (ok : bool) (w' : World),
      validate_id s name w = (Return ok, w')
      /\ (ok = true
          <-> is_identifier s = true
              \/ exists s', s = (s' ++ String LF "")%string /\ is_identifier s' = true)
      /\ untouched w w'
      /\ (ok = true -> w' = w)
      /\ (ok = false -> length (stdout w') = S (length (stdout w))).
Proof.
  intros s name w. exists (passes_validate_id s).
  unfold validate_id, passes_validate_id.
  destruct (s =? "")%string eqn:E; simpl.
  - eexists. split; [reflexivity|]. split; [|split; [apply untouched_print|split]].
    + split; [discriminate|]. apply String.eqb_eq in E. subst s.
      intros [H|(s' & E' & H)]; [discriminate H|].
      destruct s'; discriminate E'.
    + discriminate.
    + intros _. simpl. rewrite length_app. simpl. lia.
  - pose proof (passes_validate_id_spec s) as Sp. unfold passes_validate_id in Sp.
    rewrite E in Sp. simpl in Sp.
    destruct (re_match_id s); simpl.
    + exists w. split; [reflexivity|]. split; [exact Sp|].
      split; [unfold untouched; repeat split|]. split; [reflexivity|discriminate].
    + eexists. split; [reflexivity|]. split; [exact Sp|].
      split; [apply untouched_print|]. split; [discriminate|].
      intros _. simpl. rewrite length_app. simpl. lia.
Qed.

(** X2. What [to_dict] writes, [from_dict] reads back: for a task and for
    a message the round trip returns the object it started from, raises
    nothing and does not read the clock. *)
Theorem to_dict_from_dict_round_trip :
  forall (t : Task) (m : Message) (w : World),
    Task_from_dict (Task_to_dict t) w = (Return t, w)
    /\ Message_from_dict (Message_to_dict m) w = (Return m, w).
Proof.
  intros t m w. split.
  - unfold Task_from_dict, Task_to_dict. simpl.
    rewrite status_value_roundtrip. destruct t. reflexivity.
  - destruct m. reflexivity.
Qed.

Lemma TaskStatus_of_value_Some (v : string) (s : TaskStatus) :
  TaskStatus_of_value v = Some s <-> v = status_value s.
Proof.
  split.
  - unfold TaskStatus_of_value.
    destruct (String.eqb_spec v "pending") as [->|_];
      [intro H; injection H as <-; reflexivity|].
    destruct (String.eqb_spec v "in_progress") as [->|_];
      [intro H; injection H as <-; reflexivity|].
    destruct (String.eqb_spec v "completed") as [->|_];
      [intro H; injection H as <-; reflexivity|].
    destruct (String.eqb_spec v "blocked") as [->|_];
      [intro H; injection H as <-; reflexivity|discriminate].
  - intros ->. apply status_value_roundtrip.
Qed.

(** X3. [Task.from_dict] accepts exactly the four status strings.  On one
    of them it returns the task with that status, an empty dependency
    list for a null [dependencies] and, for a null [created_at], the time
    of the call; on any other string it raises [ValueError] before
    anything else happens. *)
Theorem from_dict_checks_the_status :
  forall (data : TaskData) (w : World),
    (forall s : TaskStatus,
        d_status data = status_value s ->
        exists t w',
          Task_from_dict data w = (Return t, w')
          /\ status t = s
          /\ dependencies t = match d_dependencies data with Some l => l | None => [] end
          /\ created_at t = match d_created_at data with
                            | Some c => c
                            | None => wall w (clock w)
                            end
          /\ (d_created_at data <> None -> w' = w))
    /\ ((forall s : TaskStatus, d_status data <> status_value s) ->
        exists e,
          Task_from_dict data w = (Raise e, w) /\ exn_type e = ValueError).
Proof.
  intros data w. split.
  - intros s E. apply TaskStatus_of_value_Some in E.
    unfold Task_from_dict. rewrite E.
    destruct (d_created_at data) as [c|]; eexists; eexists;
      (split; [reflexivity|]); simpl; repeat split; auto.
    intro H. exfalso. apply H. reflexivity.
  - intro N. unfold Task_from_dict.
    destruct (TaskStatus_of_value (d_status data)) as [s|] eqn:E.
    + apply TaskStatus_of_value_Some in E. exfalso. exact (N s E).
    + eexists. split; reflexivity.
Qed.

Lemma from_dict_checks_the_status_witness :
  (exists t w',
      Task_from_dict (mkTaskData "t1" "base" "" None "in_progress" None None None)
                     fresh_world
      = (Return t, w')
      /\ status t = IN_PROGRESS
      /\ dependencies t = []
      /\ created_at t = wall fresh_world (clock fresh_world)
      /\ (@None string <> None -> w' = fresh_world))
  /\ (exists e,
         Task_from_dict (mkTaskData "t1" "base" "" None "done" None None None) fresh_world
         = (Raise e, fresh_world)
         /\ exn_type e = ValueError).
Proof.
  split.
  - apply (proj1 (from_dict_checks_the_status
                    (mkTaskData "t1" "base" "" None "in_progress" None None None)
                    fresh_world) IN_PROGRESS).
    reflexivity.
  - apply (proj2 (from_dict_checks_the_status
                    (mkTaskData "t1" "base" "" None "done" None None None) fresh_world)).
    intros []; discriminate.
Defined.

(** X4. The message log is append only: [append_message] called for the
    messages of a list, one after the other, on a log that can be read,
    leaves the old messages followed by the new ones in the order of the
    calls, and touches neither the tasks nor the groups file.  A log
    whose text did not parse counts as empty: after the first call it
    holds the new messages only. *)
Theorem append_message_keeps_order :
  forall (messages : list Message) (w : World),
    messages_readable w ->
    exists w',
      append_messages messages w = (Return tt, w')
      /\ stored_messages w' = stored_messages w ++ messages
      /\ messages_readable w'
      /\ tasks_file w' = tasks_file w
      /\ groups_file w' = groups_file w
      /\ (messages <> [] -> messages_file w' = Holds (stored_messages w ++ messages)).
Proof.
  induction messages as [|m rest IH]; intros w R.
  - exists w. rewrite app_nil_r. repeat split; auto. intro H. exfalso. apply H.
    reflexivity.
  - destruct (load_messages_runs w R) as (w0 & L0 & M0 & T0).
    assert (G0 : groups_file w0 = groups_file w).
    { revert L0. unfold runs, StateManager.load_messages, StateManager.load_json.
      destruct (messages_file w) as [|l|e]; try (intro H; injection H as _ <-; reflexivity).
      destruct (is_JSONDecodeError e); [intro H; injection H as _ <-; reflexivity|].
      destruct (is_OSError e); [intro H; injection H as _ <-; reflexivity|discriminate]. }
    set (w1 := with_saves (saves w0 ++ ["messages.json"])
                 (with_messages_file (Holds (stored_messages w ++ [m])) w0)).
    assert (L1 : runs (StateManager.append_message m) w tt w1).
    { unfold StateManager.append_message. eapply runs_bind; [exact L0|reflexivity]. }
    destruct (IH w1 I) as (w2 & L2 & S2 & R2 & T2 & G2 & H2).
    exists w2. split; [|split; [|split; [|split; [|split]]]].
    + simpl. eapply runs_bind; [exact L1|exact L2].
    + rewrite S2. unfold stored_messages at 1. simpl. rewrite <- app_assoc. reflexivity.
    + exact R2.
    + rewrite T2. simpl. exact T0.
    + rewrite G2. simpl. exact G0.
    + intros _. destruct rest as [|m' rest'].
      * injection L2 as <-. simpl. reflexivity.
      * rewrite H2; [|discriminate]. unfold stored_messages at 1. simpl.
        rewrite <- app_assoc. reflexivity.
Qed.

Lemma append_message_keeps_order_witness :
  let m1 := mkMessage "TD" "alpha" "first" "2024-01-01T00:00:00" in
  let m2 := mkMessage "alpha" "TD" "second" "2024-01-01T00:00:01" in
  exists w',
    append_messages [m1; m2] corrupt_world = (Return tt, w')
    /\ stored_messages w' = stored_messages corrupt_world ++ [m1; m2]
    /\ messages_readable w'
    /\ tasks_file w' = tasks_file corrupt_world
    /\ groups_file w' = groups_file corrupt_world
    /\ ([m1; m2] <> [] -> messages_file w' = Holds (stored_messages corrupt_world ++ [m1; m2])).
Proof.
  intros m1 m2. apply (append_message_keeps_order [m1; m2] corrupt_world). reflexivity.
Defined.


(* ------------------------------------------------------------------ *)
(** *** A message log that cannot be read *)

Lemma append_message_unreadable (m : Message) (e : exn) (w : World) :
  messages_file w = Broken e ->
  is_JSONDecodeError e = false ->
  is_OSError e = false ->
  StateManager.append_message m w = (Raise e, w).
Proof.
  intros F J O.
  unfold StateManager.append_message, bind, StateManager.load_messages,
    StateManager.load_json.
  rewrite F, J, O. reflexivity.
Qed.

Lemma bind_then {A B} (c : M A) (k : A -> M B) w a w1 r :
  c w = (Return a, w1) -> k a w1 = r -> bind c k w = r.
Proof. unfold bind. intros -> H. exact H. Qed.

Lemma bind_raise {A B} (c : M A) (k : A -> M B) w e w1 :
  c w = (Raise e, w1) -> bind c k w = (Raise e, w1).
Proof. unfold bind. intros ->. reflexivity. Qed.

Lemma files_kept_refl w : files_kept w w.
Proof. unfold files_kept. auto. Qed.

Lemma files_kept_trans w1 w2 w3 :
  files_kept w1 w2 -> files_kept w2 w3 -> files_kept w1 w3.
Proof.
  unfold files_kept. intros (A1 & B1 & C1 & D1) (A2 & B2 & C2 & D2).
  repeat split; congruence.
Qed.

Lemma append_log_files_kept agent text w :
  exists w', runs (StateManager.append_log agent text) w tt w' /\ files_kept w w'.
Proof. eexists. split; [reflexivity|]. unfold files_kept. simpl. auto. Qed.

Lemma new_Message_files_kept sender receiver text w :
  exists w' ts, runs (new_Message sender receiver text) w
                     (mkMessage sender receiver text ts) w'
                /\ files_kept w w'.
Proof. eexists. eexists. split; [reflexivity|]. unfold files_kept. simpl. auto. Qed.

(** One visit of the cascade when the log cannot be read: a visit that
    has a message to send raises, any other goes through. *)
Lemma unblock_visit_unreadable actor notice task_id tasks tid task e w :
  messages_file w = Broken e ->
  is_JSONDecodeError e = false ->
  is_OSError e = false ->
  exists w',
    files_kept w w'
    /\ unblock_visit actor notice task_id tasks tid task w
       = (if unblockable tasks task_id task && truthy (assigned_to task)
          then Raise e else Return (unblock_task tasks task_id task), w').
Proof.
  intros F J O. unfold unblock_visit, unblock_task, unblockable.
  destruct (str_in task_id (dependencies task) && status_eqb (status task) BLOCKED);
    simpl; [|exists w; split; [apply files_kept_refl|reflexivity]].
  destruct (check_dependencies tasks task);
    simpl; [|exists w; split; [apply files_kept_refl|reflexivity]].
  destruct (append_log_files_kept actor ("Unblocked task " ++ tid) w) as (w1 & L1 & K1).
  destruct (truthy (assigned_to task)) eqn:Tr.
  - destruct (new_Message_files_kept actor (assignee task) (notice tid) w1)
      as (w2 & ts & L2 & K2).
    exists w2. split; [eapply files_kept_trans; eassumption|].
    assert (F2 : messages_file w2 = Broken e).
    { destruct K1 as (_ & M1 & _). destruct K2 as (_ & M2 & _). congruence. }
    unfold bind at 1. rewrite L1. unfold bind at 1. unfold bind at 1.
    unfold assignee in L2. rewrite L2. unfold bind at 1.
    rewrite (append_message_unreadable _ e w2 F2 J O). reflexivity.
  - exists w1. split; [exact K1|].
    unfold bind at 1. rewrite L1. reflexivity.
Qed.

(** The loop stops at the first entry that has a message to send. *)
Lemma unblock_loop_unreadable actor notice task_id D e :
  is_JSONDecodeError e = false ->
  is_OSError e = false ->
  forall todo visited w,
    (forall k, completed_in (visited ++ todo) k = completed_in D k) ->
    messages_file w = Broken e ->
    exists w',
      files_kept w w'
      /\ unblock_loop actor notice task_id visited todo w
         = (match notified D task_id todo with
            | [] => Return (visited ++ dict_map (unblock_task D task_id) todo)
            | _ => Raise e
            end, w').
Proof.
  intros J O. induction todo as [|[tid task] rest IH]; intros visited w HD F.
  - exists w. split; [apply files_kept_refl|]. simpl. rewrite app_nil_r. reflexivity.
  - destruct (unblock_visit_unreadable actor notice task_id
                (visited ++ (tid, task) :: rest) tid task e w F J O) as (w1 & K1 & V).
    assert (U : unblockable (visited ++ (tid, task) :: rest) task_id task
                = unblockable D task_id task).
    { unfold unblockable. rewrite (check_dependencies_ext _ D task HD). reflexivity. }
    rewrite U, (unblock_task_ext _ D task_id task HD) in V.
    unfold notified. simpl.
    destruct (unblockable D task_id task && truthy (assigned_to task)) eqn:Send.
    + exists w1. split; [exact K1|]. unfold bind. rewrite V. reflexivity.
    + assert (F1 : messages_file w1 = Broken e).
      { destruct K1 as (_ & M1 & _). congruence. }
      destruct (IH (visited ++ [(tid, unblock_task D task_id task)]) w1) as (w2 & K2 & L).
      * intro k. rewrite <- app_assoc. simpl.
        rewrite completed_in_unblock_task. apply HD.
      * exact F1.
      * exists w2. split; [eapply files_kept_trans; eassumption|].
        unfold bind. rewrite V. rewrite L. unfold notified.
        rewrite <- app_assoc. reflexivity.
Qed.

(** X5. A completion is not atomic.  When the message log exists but
    cannot be turned into messages (an exception [load_messages] does not
    catch) and completing A would unblock the assigned task B, the
    Director's [complete_task] raises that exception after it has saved A
    as Completed and before it saves any unblocking: the file holds A
    Completed and B still Blocked, a store in which a Blocked task waits
    for nothing.  The group facade raises as well but has saved nothing. *)
Theorem completion_is_not_atomic :
  forall (tasks : dict Task) (A B : string) (tA tB : Task) (g : string)
         (e : exn) (w : World),
    messages_file w = Broken e ->
    is_JSONDecodeError e = false ->
    is_OSError e = false ->
    dict_get tasks A = Some tA ->
    status tA = PENDING \/ status tA = IN_PROGRESS ->
    dict_get tasks B = Some tB -> dependencies tB = [A] ->
    assigned_to tB = Some g -> g <> ""%string ->
    status tB = BLOCKED ->
    let D := dict_set tasks A (completed_now tA (wall w (clock w))) in
    (exists w',
        TechDirector.complete_task (TechDirector.mk tasks) A w = (Raise e, w')
        /\ tasks_file w' = Holds D
        /\ dict_get D A = Some (completed_now tA (wall w (clock w)))
        /\ dict_get D B = Some tB
        /\ ~ store_consistent D)
    /\ (forall grp : Group.t,
           tasks_file w = Holds tasks ->
           assigned_to tA = Some (Group.name grp) ->
           exists w',
             Group.complete_task grp A w = (Raise e, w')
             /\ tasks_file w' = Holds tasks
             /\ saves w' = saves w).
Proof.
  intros tasks A B tA tB g e w F J O GA SA GB DB Ag Ng SB D.
  destruct (open_status_neq (status tA) SA) as [NC NB].
  assert (N : A <> B).
  { intro E. subst B. rewrite GA in GB. injection GB as ->.
    rewrite SB in SA. destruct SA; discriminate. }
  destruct (sole_dependent_unblocked tasks A B (completed_now tA (wall w (clock w))) tB
              N GB DB SB eq_refl) as [GD UB].
  fold D in GD, UB.
  assert (Send : notified D A D <> []).
  { intro E. pose proof (dict_get_In D B tB GD) as I.
    assert (I' : In (B, tB) (notified D A D)).
    { unfold notified. apply filter_In. split; [exact I|]. simpl.
      rewrite UB, Ag, (truthy_Some g Ng). reflexivity. }
    rewrite E in I'. exact I'. }
  apply status_eqb_neq in NC. apply status_eqb_neq in NB.
  split.
  - pose proof (datetime_now_runs w) as L0.
    set (w0 := with_clock (S (clock w)) w) in L0.
    destruct (save_tasks_runs D w0) as (w1 & L1 & M1 & T1).
    destruct (append_log_runs "TD" ("Completed task " ++ A) w1) as (w2 & L2 & M2 & T2).
    assert (F2 : messages_file w2 = Broken e) by (rewrite M2, M1; exact F).
    destruct (unblock_loop_unreadable "TD" TechDirector.unblock_notice A D e J O D [] w2
                (fun k => eq_refl) F2) as (w3 & K3 & L3).
    destruct (notified D A D) as [|x l] eqn:Nd; [exfalso; apply Send; reflexivity|].
    exists w3. split; [|split; [|split; [|split]]].
    + unfold TechDirector.complete_task. cbn [TechDirector.tasks]. rewrite GA, NC, NB.
      eapply bind_then; [exact L0|]. cbv zeta.
      eapply bind_then; [exact L1|].
      eapply bind_then; [exact L2|].
      apply bind_raise. unfold TechDirector._unblock_dependent_tasks.
      apply bind_raise. exact L3.
    + destruct K3 as (T3 & _). congruence.
    + unfold D. apply dict_get_set_same.
    + exact GD.
    + intro C. pose proof (store_consistent_get D B tB C GD SB) as H.
      unfold unblockable in UB. rewrite H in UB. rewrite andb_false_r in UB.
      discriminate UB.
  - intros grp Ft Own.
    assert (Ot : Group.assigned_to_other tA grp = false).
    { unfold Group.assigned_to_other. rewrite Own, String.eqb_refl. reflexivity. }
    pose proof (datetime_now_runs w) as L0.
    set (w0 := with_clock (S (clock w)) w) in L0.
    destruct (unblock_loop_unreadable (Group.name grp) (Group.unblock_notice A) A D e J O
                D [] w0 (fun k => eq_refl) F) as (w1 & K1 & L1).
    destruct (notified D A D) as [|x l] eqn:Nd; [exfalso; apply Send; reflexivity|].
    exists w1. split; [|split].
    + unfold Group.complete_task.
      eapply bind_then; [apply load_tasks_Holds; exact Ft|].
      rewrite GA, Ot, NC, NB.
      eapply bind_then; [exact L0|]. cbv zeta.
      apply bind_raise. exact L1.
    + destruct K1 as (T1 & _). rewrite T1. exact Ft.
    + destruct K1 as (_ & _ & _ & S1). exact S1.
Qed.

Lemma completion_is_not_atomic_witness :
  let w := with_messages_file (Broken schema_error) chain_world in
  let D := dict_set chain_store "A" (completed_now chain_A (wall w (clock w))) in
  (exists w',
      TechDirector.complete_task (TechDirector.mk chain_store) "A" w
      = (Raise schema_error, w')
      /\ tasks_file w' = Holds D
      /\ dict_get D "A" = Some (completed_now chain_A (wall w (clock w)))
      /\ dict_get D "B" = Some chain_B
      /\ ~ store_consistent D)
  /\ (forall grp : Group.t,
         tasks_file w = Holds chain_store ->
         assigned_to chain_A = Some (Group.name grp) ->
         exists w',
           Group.complete_task grp "A" w = (Raise schema_error, w')
           /\ tasks_file w' = Holds chain_store
           /\ saves w' = saves w).
Proof.
  intros w D.
  apply (completion_is_not_atomic chain_store "A" "B" chain_A chain_B "beta"
           schema_error w); try reflexivity.
  - right. reflexivity.
  - discriminate.
Defined.

(* ------------------------------------------------------------------ *)
(** *** Messages to and from the Director *)

(** X6. The Director's [send_message] checks nothing about the receiver:
    for every receiver, registered or not, even the empty string, it
    appends exactly one message from TD to that receiver with the given
    text, and leaves the tasks alone. *)
Theorem send_message_appends_one :
  forall (self : TechDirector.t) (to_agent text : string) (w : World),
    messages_readable w ->
    exists w' m,
      TechDirector'.send_message self to_agent text w = (Return tt, w')
      /\ stored_messages w' = stored_messages w ++ [m]
      /\ envelope m = ("TD"%string, to_agent, text)
      /\ timestamp m = wall w (clock w)
      /\ tasks_file w' = tasks_file w.
Proof.
  intros self to_agent text w R.
  pose proof (datetime_now_runs w) as L0.
  set (w0 := with_clock (S (clock w)) w) in L0.
  set (m := mkMessage "TD" to_agent text (wall w (clock w))).
  destruct (append_message_runs m w0 R) as (w1 & L1 & [S1 R1] & T1).
  destruct (append_log_runs "TD" ("Sent message to " ++ to_agent ++ ": " ++ text) w1)
    as (w2 & L2 & M2 & T2).
  destruct (notify_runs to_agent text w2) as (w3 & L3 & M3 & T3).
  eexists. exists m. split; [|split; [|split; [|split]]].
  - unfold TechDirector'.send_message.
    eapply runs_bind; [unfold new_Message; eapply runs_bind; [exact L0|apply runs_ret]|].
    eapply runs_bind; [exact L1|].
    eapply runs_bind; [exact L2|].
    eapply runs_bind; [exact L3|apply print_runs].
  - unfold stored_messages in *. simpl. rewrite M3, M2, S1. reflexivity.
  - reflexivity.
  - reflexivity.
  - assert (T0 : tasks_file w0 = tasks_file w) by reflexivity.
    simpl. congruence.
Qed.

Lemma send_message_appends_one_witness :
  exists w' m,
    TechDirector'.send_message (TechDirector.mk chain_store) "" "hello" chain_world
    = (Return tt, w')
    /\ stored_messages w' = stored_messages chain_world ++ [m]
    /\ envelope m = ("TD"%string, ""%string, "hello"%string)
    /\ timestamp m = wall chain_world (clock chain_world)
    /\ tasks_file w' = tasks_file chain_world.
Proof.
  apply (send_message_appends_one (TechDirector.mk chain_store) "" "hello" chain_world).
  exact I.
Defined.

(** X7. [report_progress] never changes a task.  It returns True exactly
    when the task exists and is assigned to the group; then it appends
    one message from the group to TD with the progress text.  Otherwise
    it prints an error and leaves everything else as it is. *)
Theorem report_progress_leaves_tasks :
  forall (grp : Group.t) (tasks : dict Task) (task_id text : string) (w : World),
    tasks_file w = Holds tasks ->
    messages_readable w ->
    exists ok w',
      Group'.report_progress grp task_id text w = (Return ok, w')
      /\ tasks_file w' = Holds tasks
      /\ (ok = true
          <-> exists task, dict_get tasks task_id = Some task
                           /\ assigned_to task = Some (Group.name grp))
      /\ (ok = false -> untouched w w')
      /\ (ok = true ->
          exists m,
            stored_messages w' = stored_messages w ++ [m]
            /\ envelope m = (Group.name grp, "TD"%string,
                             ("Progress on " ++ task_id ++ ": " ++ text)%string)).
Proof.
  intros grp tasks task_id text w F R.
  pose proof (load_tasks_Holds tasks w F) as L.
  destruct (dict_get tasks task_id) as [task|] eqn:G.
  - destruct (Group.assigned_to_other task grp) eqn:O.
    + exists false. eexists. split; [|split; [|split; [|split]]].
      * unfold Group'.report_progress. eapply runs_bind; [exact L|].
        rewrite G, O. reflexivity.
      * simpl. exact F.
      * split; [discriminate|]. intros (task' & E & Own). injection E as <-.
        unfold Group.assigned_to_other in O. rewrite Own, String.eqb_refl in O.
        discriminate O.
      * intros _. apply untouched_print.
      * discriminate.
    + assert (Own : assigned_to task = Some (Group.name grp)).
      { unfold Group.assigned_to_other in O. destruct (assigned_to task) as [g|];
          [|discriminate O]. apply negb_false_iff in O. apply String.eqb_eq in O.
        rewrite O. reflexivity. }
      destruct (append_log_runs (Group.name grp)
                  ("Progress on " ++ task_id ++ ": " ++ text) w) as (w1 & L1 & M1 & T1).
      destruct (new_Message_runs (Group.name grp) "TD"
                  ("Progress on " ++ task_id ++ ": " ++ text) w1)
        as (w2 & ts & L2 & M2 & T2).
      assert (R2 : messages_readable w2).
      { apply (readable_same w1); [apply (readable_same w)|]; auto. }
      destruct (append_message_runs
                  (mkMessage (Group.name grp) "TD"
                             ("Progress on " ++ task_id ++ ": " ++ text) ts) w2 R2)
        as (w3 & L3 & [S3 R3] & T3).
      destruct (notify_runs "TD" (Group.name grp ++ " reports: " ++ text) w3)
        as (w4 & L4 & M4 & T4).
      exists true. eexists. split; [|split; [|split; [|split]]].
      * unfold Group'.report_progress. eapply runs_bind; [exact L|].
        rewrite G, O.
        eapply runs_bind; [exact L1|].
        eapply runs_bind; [exact L2|].
        eapply runs_bind; [exact L3|].
        eapply runs_bind; [exact L4|].
        eapply runs_bind; [apply print_runs|apply runs_ret].
      * simpl. congruence.
      * split; [|reflexivity]. intros _. exists task. auto.
      * discriminate.
      * intros _. eexists. split.
        { unfold stored_messages in *. simpl. rewrite M4, S3, M2, M1. reflexivity. }
        reflexivity.
  - exists false. eexists. split; [|split; [|split; [|split]]].
    + unfold Group'.report_progress. eapply runs_bind; [exact L|].
      rewrite G. reflexivity.
    + simpl. exact F.
    + split; [discriminate|]. intros (task' & E & _). discriminate E.
    + intros _. apply untouched_print.
    + discriminate.
Qed.

Lemma report_progress_leaves_tasks_witness :
  exists ok w',
    Group'.report_progress (Group.mk "alpha") "A" "half way" chain_world = (Return ok, w')
    /\ tasks_file w' = Holds chain_store
    /\ (ok = true
        <-> exists task, dict_get chain_store "A" = Some task
                         /\ assigned_to task = Some (Group.name (Group.mk "alpha")))
    /\ (ok = false -> untouched chain_world w')
    /\ (ok = true ->
        exists m,
          stored_messages w' = stored_messages chain_world ++ [m]
          /\ envelope m = (Group.name (Group.mk "alpha"), "TD"%string,
                           ("Progress on " ++ "A" ++ ": " ++ "half way")%string)).
Proof.
  apply (report_progress_leaves_tasks (Group.mk "alpha") chain_store "A" "half way"
           chain_world); [reflexivity|exact I].
Defined.

(** X8. The two facades complete alike: for a task that is Pending or
    InProgress and assigned to the group, the Director's [complete_task]
    and the group's, started in the same world, save the same tasks
    dictionary; their unblock messages go to the same receivers in the
    same order, and the group adds one report to TD after them. *)
Theorem facades_save_the_same_store :
  forall (grp : Group.t) (tasks : dict Task) (task_id : string) (task : Task) (w : World),
    tasks_file w = Holds tasks ->
    messages_readable w ->
    dict_get tasks task_id = Some task ->
    status task = PENDING \/ status task = IN_PROGRESS ->
    assigned_to task = Some (Group.name grp) ->
    exists final w1 w2 sent1 sent2 report,
      TechDirector.complete_task (TechDirector.mk tasks) task_id w
      = (Return (true, TechDirector.mk final), w1)
      /\ Group.complete_task grp task_id w = (Return true, w2)
      /\ tasks_file w1 = Holds final
      /\ tasks_file w2 = Holds final
      /\ stored_messages w1 = stored_messages w ++ sent1
      /\ stored_messages w2 = stored_messages w ++ sent2 ++ [report]
      /\ map to_agent sent1 = map to_agent sent2
      /\ to_agent report = "TD"%string.
Proof.
  intros grp tasks task_id task w F R G SA Own.
  destruct (open_status_neq (status task) SA) as [NC NB].
  destruct (TD_complete_task_runs (TechDirector.mk tasks) task_id task w G NC NB R)
    as (w1 & sent1 & Run1 & TF1 & [S1 _] & E1).
  destruct (Group_complete_task_runs grp task_id tasks task w F G Own NC NB R)
    as (w2 & sent2 & report & Run2 & TF2 & [S2 _] & E2 & Er).
  eexists. exists w1, w2, sent1, sent2, report.
  split; [exact Run1|]. split; [exact Run2|]. split; [exact TF1|]. split; [exact TF2|].
  split; [exact S1|]. split; [exact S2|]. split.
  - assert (P : forall l : list Message,
               map to_agent l = map (fun e => snd (fst e)) (map envelope l)).
    { intro l. rewrite map_map. reflexivity. }
    rewrite (P sent1), (P sent2), E1, E2. unfold notices. rewrite !map_map. reflexivity.
  - unfold envelope in Er. congruence.
Qed.

Lemma facades_save_the_same_store_witness :
  exists final w1 w2 sent1 sent2 report,
    TechDirector.complete_task (TechDirector.mk chain_store) "A" chain_world
    = (Return (true, TechDirector.mk final), w1)
    /\ Group.complete_task (Group.mk "alpha") "A" chain_world = (Return true, w2)
    /\ tasks_file w1 = Holds final
    /\ tasks_file w2 = Holds final
    /\ stored_messages w1 = stored_messages chain_world ++ sent1
    /\ stored_messages w2 = stored_messages chain_world ++ sent2 ++ [report]
    /\ map to_agent sent1 = map to_agent sent2
    /\ to_agent report = "TD"%string.
Proof.
  apply (facades_save_the_same_store (Group.mk "alpha") chain_store "A" chain_A chain_world);
    try reflexivity; try exact I.
  right. reflexivity.
Defined.

(* ------------------------------------------------------------------ *)
(** *** The outcomes of [create_task] and [assign_task] *)

Lemma create_task_cases :
  forall (tasks : dict Task) (task_id ttl descr : string)
         (deps : option (list string)) (w : World),
    let listed := match deps with Some l => l | None => [] end in
    exists ok final w',
      TechDirector.create_task (TechDirector.mk tasks) task_id ttl descr deps w
      = (Return (ok, TechDirector.mk final), w')
      /\ (passes_validate_id task_id = false -> ok = false)
      /\ (passes_validate_id task_id = true -> dict_mem tasks task_id = true ->
          ok = false
          /\ stdout w' = stdout w ++ [("Error: Task " ++ task_id ++ " already exists")%string])
      /\ (passes_validate_id task_id = true -> dict_mem tasks task_id = false ->
          forall before missing after,
            listed = before ++ missing :: after ->
            (forall dep, In dep before -> dict_mem tasks dep = true) ->
            dict_mem tasks missing = false ->
            ok = false
            /\ stdout w' = stdout w ++ [("Error: Dependency " ++ missing
                                         ++ " does not exist")%string])
      /\ (ok = false -> final = tasks /\ untouched w w')
      /\ (ok = true ->
          passes_validate_id task_id = true
          /\ dict_mem tasks task_id = false
          /\ (forall dep, In dep listed -> dict_mem tasks dep = true)
          /\ final = tasks ++ [(task_id, mkTask task_id ttl descr None PENDING listed
                                                (wall w (clock w)) None)]
          /\ tasks_file w' = Holds final
          /\ saves w' = saves w ++ ["tasks.json"%string]).
Proof.
  intros tasks task_id ttl descr deps w listed.
  destruct (passes_validate_id task_id) eqn:V.
  - destruct (validate_id_runs task_id "Task ID" w) as (w0 & L0 & _ & W0).
    rewrite V in L0. rewrite (W0 V) in L0. clear W0 w0.
    destruct (dict_mem tasks task_id) eqn:Dm.
    + exists false, tasks. eexists. split.
      { unfold TechDirector.create_task. eapply runs_bind; [exact L0|].
        simpl. rewrite Dm. reflexivity. }
      split; [discriminate|]. split; [intros _ _; split; reflexivity|].
      split; [discriminate|]. split; [|discriminate].
      intros _. split; [reflexivity|apply untouched_print].
    + destruct (find (fun dep_id => negb (dict_mem tasks dep_id)) listed)
        as [missing|] eqn:Fd.
      * exists false, tasks. eexists. split.
        { unfold TechDirector.create_task. eapply runs_bind; [exact L0|].
          simpl. rewrite Dm. fold listed. rewrite Fd. reflexivity. }
        split; [discriminate|]. split; [discriminate|]. split.
        { intros _ _ before missing' after El Hb Hm. split; [reflexivity|].
          assert (E : missing = missing').
          { clear - Fd El Hb Hm. revert Fd. rewrite El. clear El.
            induction before as [|b r IH]; simpl.
            - rewrite Hm. simpl. intro H. injection H as ->. reflexivity.
            - rewrite (Hb b (or_introl eq_refl)). simpl.
              apply IH. intros dep I. apply Hb. right. exact I. }
          subst missing'. reflexivity. }
        split; [|discriminate]. intros _. split; [reflexivity|apply untouched_print].
      * assert (Hd : forall dep, In dep listed -> dict_mem tasks dep = true).
        { intros dep I. pose proof (find_none _ _ Fd dep I) as H. simpl in H.
          apply negb_false_iff in H. exact H. }
        destruct (create_task_runs (TechDirector.mk tasks) task_id ttl descr deps w
                    V Dm Hd) as (w' & Run & TF & _).
        exists true. eexists. exists w'. split; [exact Run|].
        split; [discriminate|]. split; [discriminate|]. split.
        { intros _ _ before missing after El _ Hm. exfalso.
          rewrite (Hd missing) in Hm; [discriminate Hm|]. unfold listed in *.
          rewrite El. apply in_or_app. right. left. reflexivity. }
        split; [discriminate|]. intros _.
        split; [reflexivity|]. split; [reflexivity|]. split; [exact Hd|].
        split; [reflexivity|]. split; [exact TF|].
        revert Run. unfold runs, TechDirector.create_task.
        unfold bind at 1. rewrite L0. simpl negb. cbv iota.
        cbn [TechDirector.tasks]. rewrite Dm. fold listed. rewrite Fd.
        intro H. injection H as _ <-. reflexivity.
  - destruct (create_task_invalid_id (TechDirector.mk tasks) task_id ttl descr deps w V)
      as (w' & Run & U).
    exists false, tasks, w'. split; [exact Run|].
    split; [reflexivity|]. split; [discriminate|]. split; [discriminate|].
    split; [|discriminate]. intros _. split; [reflexivity|exact U].
Qed.

(** X9. [create_task] tests in this order: the id ([validate_id]), the
    id being new, every listed dependency being a stored task.  If a
    test fails it returns False, the object is unchanged and no file is
    written; for a duplicate it names the task, for a missing dependency
    the first one of the list that is missing.  If all pass it returns
    True, appends the task to the dictionary (Pending, not assigned, not
    completed, created now) and saves it once. *)
Theorem create_task_outcomes :
  forall (tasks : dict Task) (task_id ttl descr : string)
         (deps : option (list string)) (w : World),
    let listed := match deps with Some l => l | None => [] end in
    exists ok final w',
      TechDirector.create_task (TechDirector.mk tasks) task_id ttl descr deps w
      = (Return (ok, TechDirector.mk final), w')
      /\ (passes_validate_id task_id = false -> ok = false)
      /\ (passes_validate_id task_id = true -> dict_mem tasks task_id = true ->
          ok = false
          /\ stdout w' = stdout w ++ [("Error: Task " ++ task_id ++ " already exists")%string])
      /\ (passes_validate_id task_id = true -> dict_mem tasks task_id = false ->
          forall before missing after,
            listed = before ++ missing :: after ->
            (forall dep, In dep before -> dict_mem tasks dep = true) ->
            dict_mem tasks missing = false ->
            ok = false
            /\ stdout w' = stdout w ++ [("Error: Dependency " ++ missing
                                         ++ " does not exist")%string])
      /\ (ok = false -> final = tasks /\ untouched w w')
      /\ (ok = true ->
          passes_validate_id task_id = true
          /\ dict_mem tasks task_id = false
          /\ (forall dep, In dep listed -> dict_mem tasks dep = true)
          /\ final = tasks ++ [(task_id, mkTask task_id ttl descr None PENDING listed
                                                (wall w (clock w)) None)]
          /\ tasks_file w' = Holds final
          /\ saves w' = saves w ++ ["tasks.json"%string]).
Proof. exact create_task_cases. Qed.

Lemma create_task_outcomes_witness :
  exists ok final w',
    TechDirector.create_task (TechDirector.mk chain_store) "D" "fourth" ""
                             (Some ["A"; "X"; "Y"]) chain_world
    = (Return (ok, TechDirector.mk final), w')
    /\ ok = false
    /\ stdout w' = stdout chain_world ++ ["Error: Dependency X does not exist"]
    /\ final = chain_store /\ untouched chain_world w'.
Proof.
  destruct (create_task_outcomes chain_store "D" "fourth" "" (Some ["A"; "X"; "Y"])
              chain_world) as (ok & final & w' & Run & _ & _ & Dep & Fail & _).
  destruct (Dep eq_refl eq_refl ["A"] "X" ["Y"] eq_refl) as [E S].
  - intros dep [<-|[]]. reflexivity.
  - reflexivity.
  - exists ok, final, w'. split; [exact Run|]. split; [exact E|]. split; [exact S|].
    exact (Fail E).
Defined.

Lemma assign_task_cases :
  forall (tasks : dict Task) (task_id g : string) (w : World),
    messages_readable w ->
    exists ok final w' sent,
      TechDirector.assign_task (TechDirector.mk tasks) task_id g w
      = (Return (ok, TechDirector.mk final), w')
      /\ stored_messages w' = stored_messages w ++ sent
      /\ (ok = true <-> passes_validate_id g = true /\ dict_mem tasks task_id = true)
      /\ (ok = false -> final = tasks /\ sent = [] /\ untouched w w')
      /\ (ok = true ->
          exists task,
            dict_get tasks task_id = Some task
            /\ final = dict_set tasks task_id (assigned_now tasks task g)
            /\ tasks_file w' = Holds final
            /\ map envelope sent
               = if check_dependencies tasks task
                 then [("TD"%string, g,
                        ("Assigned task " ++ task_id ++ ": " ++ title task)%string)]
                 else []).
Proof.
  intros tasks task_id g w R. unfold dict_mem.
  destruct (passes_validate_id g) eqn:V.
  - destruct (dict_get tasks task_id) as [task|] eqn:G.
    + destruct (TD_assign_task_runs tasks task_id task g w G V R)
        as (w' & sent & Run & TF & [S _] & E).
      exists true. eexists. exists w', sent. split; [exact Run|]. split; [exact S|].
      split; [split; auto|]. split; [discriminate|].
      intros _. exists task. auto.
    + destruct (validate_id_runs g "Group name" w) as (w0 & L0 & _ & W0).
      rewrite V in L0. rewrite (W0 V) in L0.
      exists false, tasks. eexists. exists []. split.
      { unfold TechDirector.assign_task. eapply runs_bind; [exact L0|].
        simpl. rewrite G. reflexivity. }
      split; [simpl; rewrite app_nil_r; reflexivity|].
      split; [split; [discriminate|intros [_ H]; discriminate H]|].
      split; [|discriminate]. intros _. split; [reflexivity|].
      split; [reflexivity|apply untouched_print].
  - destruct (validate_id_runs g "Group name" w) as (w0 & L0 & U0 & _).
    rewrite V in L0. exists false, tasks, w0, []. split.
    { unfold TechDirector.assign_task. eapply runs_bind; [exact L0|reflexivity]. }
    split.
    { rewrite app_nil_r. unfold stored_messages.
      destruct U0 as (_ & M & _). rewrite M. reflexivity. }
    split; [split; [discriminate|intros [H _]; discriminate H]|].
    split; [|discriminate]. intros _. auto.
Qed.

(** X10. [assign_task] returns True exactly when [validate_id] accepts
    the group name and the task is stored.  Then it saves the task with
    the group as assignee and every other field but the status as it
    was.  When every dependency of the task is stored and Completed the
    status is InProgress and one message from TD to the group is
    appended; when a dependency is missing or has another status the
    status is Blocked and no message is appended.  When it returns False
    the object is unchanged and nothing is written.  The tasks file and
    the message log are files the process can write over. *)
Theorem assign_task_outcomes :
  forall (tasks : dict Task) (task_id g : string) (w : World),
    tasks_readable w ->
    messages_readable w ->
    exists ok final w' sent,
      TechDirector.assign_task (TechDirector.mk tasks) task_id g w
      = (Return (ok, TechDirector.mk final), w')
      /\ stored_messages w' = stored_messages w ++ sent
      /\ (ok = true <-> passes_validate_id g = true /\ dict_mem tasks task_id = true)
      /\ (ok = false -> final = tasks /\ sent = [] /\ untouched w w')
      /\ (ok = true ->
          exists task s,
            dict_get tasks task_id = Some task
            /\ final
               = dict_set tasks task_id
                   (mkTask (id task) (title task) (description task) (Some g) s
                           (dependencies task) (created_at task) (completed_at task))
            /\ tasks_file w' = Holds final
            /\ (((forall d, In d (dependencies task) ->
                            exists dep, dict_get tasks d = Some dep
                                        /\ status dep = COMPLETED)
                 /\ s = IN_PROGRESS
                 /\ map envelope sent
                    = [("TD"%string, g,
                        ("Assigned task " ++ task_id ++ ": " ++ title task)%string)])
                \/ ((exists d, In d (dependencies task)
                               /\ (dict_get tasks d = None
                                   \/ exists dep, dict_get tasks d = Some dep
                                                  /\ status dep <> COMPLETED))
                    /\ s = BLOCKED /\ sent = []))).
Proof.
  intros tasks task_id g w _ R.
  destruct (assign_task_cases tasks task_id g w R)
    as (ok & final & w' & sent & Run & SM & Iff & Fail & Ok).
  exists ok, final, w', sent.
  split; [exact Run|]. split; [exact SM|]. split; [exact Iff|]. split; [exact Fail|].
  intro E. destruct (Ok E) as (task & G & F & TF & En).
  exists task, (if check_dependencies tasks task then IN_PROGRESS else BLOCKED).
  split; [exact G|]. split; [exact F|]. split; [exact TF|].
  destruct (check_dependencies_cases tasks task) as [(Ck & All)|(Ck & Miss)];
    rewrite Ck in *.
  - left. split; [exact All|]. split; [reflexivity|exact En].
  - right. split; [exact Miss|]. split; [reflexivity|].
    destruct sent; [reflexivity|discriminate En].
Qed.

Lemma assign_task_outcomes_witness :
  exists ok final w' sent,
    TechDirector.assign_task (TechDirector.mk chain_store) "C" "gamma" chain_world
    = (Return (ok, TechDirector.mk final), w')
    /\ stored_messages w' = stored_messages chain_world ++ sent
    /\ (ok = true <-> passes_validate_id "gamma" = true /\ dict_mem chain_store "C" = true)
    /\ (ok = false -> final = chain_store /\ sent = [] /\ untouched chain_world w')
    /\ (ok = true ->
        exists task s,
          dict_get chain_store "C" = Some task
          /\ final
             = dict_set chain_store "C"
                 (mkTask (id task) (title task) (description task) (Some "gamma"%string) s
                         (dependencies task) (created_at task) (completed_at task))
          /\ tasks_file w' = Holds final
          /\ (((forall d, In d (dependencies task) ->
                          exists dep, dict_get chain_store d = Some dep
                                      /\ status dep = COMPLETED)
               /\ s = IN_PROGRESS
               /\ map envelope sent
                  = [("TD"%string, "gamma"%string,
                      ("Assigned task " ++ "C" ++ ": " ++ title task)%string)])
              \/ ((exists d, In d (dependencies task)
                             /\ (dict_get chain_store d = None
                                 \/ exists dep, dict_get chain_store d = Some dep
                                                /\ status dep <> COMPLETED))
                  /\ s = BLOCKED /\ sent = []))).
Proof.
  apply (assign_task_outcomes chain_store "C" "gamma" chain_world); exact I.
Defined.

(** X11. No operation of the Director deletes, renames or reorders a
    task, or touches what was fixed when it was created: after
    [create_task], [assign_task] or [complete_task], whatever they
    return, the keys of the dictionary are the old ones in the old order
    ([create_task] may add one at the end) and every task has the id,
    title, description, dependencies and creation time it had.  The
    tasks file and the message log are files the process can write
    over. *)
Theorem director_keeps_the_tasks :
  forall (tasks : dict Task) (w : World),
    tasks_readable w ->
    messages_readable w ->
    (forall task_id ttl descr deps,
        exists ok final w',
          TechDirector.create_task (TechDirector.mk tasks) task_id ttl descr deps w
          = (Return (ok, TechDirector.mk final), w')
          /\ (keys final = keys tasks \/ keys final = keys tasks ++ [task_id])
          /\ forall tid t, dict_get tasks tid = Some t -> dict_get final tid = Some t)
    /\ (forall task_id g,
           exists ok final w',
             TechDirector.assign_task (TechDirector.mk tasks) task_id g w
             = (Return (ok, TechDirector.mk final), w')
             /\ keys final = keys tasks
             /\ forall tid t,
                 dict_get tasks tid = Some t ->
                 exists t', dict_get final tid = Some t' /\ same_core t t')
    /\ (forall task_id,
           exists ok final w',
             TechDirector.complete_task (TechDirector.mk tasks) task_id w
             = (Return (ok, TechDirector.mk final), w')
             /\ keys final = keys tasks
             /\ forall tid t,
                 dict_get tasks tid = Some t ->
                 exists t', dict_get final tid = Some t' /\ same_core t t'
                            /\ assigned_to t' = assigned_to t).
Proof.
  intros tasks w _ R.
  assert (Core : forall t, same_core t t) by (intro t; unfold same_core; auto).
  split; [|split].
  - intros task_id ttl descr deps.
    destruct (create_task_cases tasks task_id ttl descr deps w)
      as (ok & final & w' & Run & _ & _ & _ & Fail & Ok).
    exists ok, final, w'. split; [exact Run|]. destruct ok.
    + destruct (Ok eq_refl) as (_ & Dm & _ & -> & _). split.
      * right. unfold keys. rewrite map_app. reflexivity.
      * intros tid t G. rewrite dict_get_app, G. reflexivity.
    + destruct (Fail eq_refl) as [-> _]. auto.
  - intros task_id g.
    destruct (assign_task_cases tasks task_id g w R)
      as (ok & final & w' & sent & Run & _ & _ & Fail & Ok).
    exists ok, final, w'. split; [exact Run|]. destruct ok.
    + destruct (Ok eq_refl) as (task & G & -> & _). split.
      * apply keys_dict_set_present. eapply dict_mem_get_Some. exact G.
      * intros tid t Gt. destruct (String.eqb_spec task_id tid) as [<-|N].
        -- rewrite dict_get_set_same. eexists. split; [reflexivity|].
           rewrite G in Gt. injection Gt as <-. unfold same_core. simpl. auto.
        -- rewrite dict_get_set_other; [|exact N]. exists t. auto.
    + destruct (Fail eq_refl) as (-> & _). split; [reflexivity|].
      intros tid t Gt. exists t. auto.
  - intro task_id. destruct (dict_get tasks task_id) as [task|] eqn:G.
    + destruct (status task) eqn:S.
      1, 2:
        assert (SA : status task = PENDING \/ status task = IN_PROGRESS)
          by (rewrite S; auto);
        destruct (open_status_neq (status task) SA) as [NC NB];
        destruct (TD_complete_task_runs (TechDirector.mk tasks) task_id task w G NC NB R)
          as (w' & appended & Run & _);
        eexists; eexists; eexists; (split; [exact Run|]);
        (split; [rewrite keys_dict_map; apply keys_dict_set_present;
                 eapply dict_mem_get_Some; exact G|]);
        intros tid t Gt;
        destruct (completion_edges tasks task_id task (wall w (clock w)) tid t G Gt)
          as (t' & Gf & [(E1 & E2 & E3)|[(E1 & E2)|(E1 & E2 & E3)]]);
        exists t'; (split; [exact Gf|]); subst t'; try subst t;
        unfold same_core; simpl; auto 10.
      * exists true, tasks. eexists. split.
        { unfold TechDirector.complete_task. simpl. rewrite G, S. reflexivity. }
        split; [reflexivity|]. intros tid t Gt. exists t. auto.
      * exists false, tasks. eexists. split.
        { unfold TechDirector.complete_task. simpl. rewrite G, S. reflexivity. }
        split; [reflexivity|]. intros tid t Gt. exists t. auto.
    + exists false, tasks. eexists. split.
      { unfold TechDirector.complete_task. simpl. rewrite G. reflexivity. }
      split; [reflexivity|]. intros tid t Gt. exists t. auto.
Qed.

Lemma director_keeps_the_tasks_witness :
  (forall task_id ttl descr deps,
      exists ok final w',
        TechDirector.create_task (TechDirector.mk chain_store) task_id ttl descr deps
                                 chain_world
        = (Return (ok, TechDirector.mk final), w')
        /\ (keys final = keys chain_store \/ keys final = keys chain_store ++ [task_id])
        /\ forall tid t, dict_get chain_store tid = Some t -> dict_get final tid = Some t)
  /\ (forall task_id g,
         exists ok final w',
           TechDirector.assign_task (TechDirector.mk chain_store) task_id g chain_world
           = (Return (ok, TechDirector.mk final), w')
           /\ keys final = keys chain_store
           /\ forall tid t,
               dict_get chain_store tid = Some t ->
               exists t', dict_get final tid = Some t' /\ same_core t t')
  /\ (forall task_id,
         exists ok final w',
           TechDirector.complete_task (TechDirector.mk chain_store) task_id chain_world
           = (Return (ok, TechDirector.mk final), w')
           /\ keys final = keys chain_store
           /\ forall tid t,
               dict_get chain_store tid = Some t ->
               exists t', dict_get final tid = Some t' /\ same_core t t'
                          /\ assigned_to t' = assigned_to t).
Proof.
  apply (director_keeps_the_tasks chain_store chain_world); exact I.
Defined.

(* ------------------------------------------------------------------ *)
(** *** Printing *)

Lemma printed_nil w : printed w [] = w.
Proof. unfold printed. rewrite app_nil_r. destruct w. reflexivity. Qed.

Lemma printed_printed w l1 l2 : printed (printed w l1) l2 = printed w (l1 ++ l2).
Proof. unfold printed. simpl. rewrite app_assoc. reflexivity. Qed.

Lemma untouched_printed w l : untouched w (printed w l).
Proof. unfold untouched, printed. simpl. repeat split. Qed.

Lemma print_printed line w : print line w = (Return tt, printed w [line]).
Proof. reflexivity. Qed.

Lemma print_lines_runs lines w : print_lines lines w = (Return tt, printed w lines).
Proof.
  revert w. induction lines as [|l r IH]; intro w; simpl.
  - rewrite printed_nil. reflexivity.
  - unfold bind. rewrite print_printed, IH, printed_printed. reflexivity.
Qed.

(* ------------------------------------------------------------------ *)
(** *** [sorted] *)

Lemma insert_item_perm {V} (kv : string * V) (l : dict V) :
  Permutation (kv :: l) (insert_item kv l).
Proof.
  induction l as [|x r IH]; simpl; [apply Permutation_refl|].
  destruct (String.leb (fst kv) (fst x)); [apply Permutation_refl|].
  eapply perm_trans; [apply perm_swap|]. apply perm_skip. exact IH.
Qed.

Lemma sorted_items_perm {V} (d : dict V) : Permutation d (sorted_items d).
Proof.
  induction d as [|kv r IH]; simpl; [constructor|].
  eapply perm_trans; [apply perm_skip; exact IH|apply insert_item_perm].
Qed.

Lemma leb_false_flip (a b : string) : String.leb a b = false -> String.leb b a = true.
Proof.
  intro H. destruct (String.leb_total a b) as [T|T]; [congruence|exact T].
Qed.

Lemma insert_item_ascending {V} (kv : string * V) (l : dict V) :
  ascending l -> ascending (insert_item kv l).
Proof.
  unfold ascending. induction l as [|x r IH]; simpl; intro S.
  - constructor; constructor.
  - destruct (String.leb (fst kv) (fst x)) eqn:E.
    + constructor; [exact S|]. constructor. exact E.
    + inversion S as [|? ? Sr Hd]; subst. constructor; [apply IH; exact Sr|].
      destruct r as [|y r']; simpl.
      * constructor. apply leb_false_flip. exact E.
      * destruct (String.leb (fst kv) (fst y)).
        -- constructor. apply leb_false_flip. exact E.
        -- inversion Hd; subst. constructor. assumption.
Qed.

Lemma sorted_items_ascending {V} (d : dict V) : ascending (sorted_items d).
Proof.
  induction d as [|kv r IH]; simpl; [constructor|].
  apply insert_item_ascending. exact IH.
Qed.

Lemma sorted_items_nil {V} (d : dict V) : sorted_items d = [] -> d = [].
Proof.
  intro H. pose proof (sorted_items_perm d) as P. rewrite H in P.
  apply Permutation_sym, Permutation_nil in P. exact P.
Qed.

Lemma print_tasks_runs status_filter items w :
  TechDirector'.print_tasks status_filter items w
  = (Return tt,
     printed w (map (fun kv => TechDirector'.task_line (fst kv) (snd kv))
                    (filter (fun kv => TechDirector'.shown status_filter (snd kv)) items))).
Proof.
  revert w. induction items as [|[k t] r IH]; intro w.
  - simpl. rewrite printed_nil. reflexivity.
  - simpl. destruct (TechDirector'.shown status_filter t); simpl.
    + unfold bind. simpl. rewrite IH. unfold printed. simpl.
      rewrite <- app_assoc. reflexivity.
    + unfold bind. simpl. apply IH.
Qed.

(** X12. [list_tasks] only prints.  For an empty dictionary it prints
    that no tasks were found; otherwise a header, one line for each task
    that passes the filter, in ascending order of the task ids, and an
    empty line.  Every task passes when there is no filter or the filter
    is the empty string; otherwise those whose status value equals the
    filter, so an unknown status name shows no task and is no error. *)
Theorem list_tasks_prints_in_id_order :
  forall (tasks : dict Task) (status_filter : option string) (w : World),
    exists (w' : World) (rows : dict Task),
      TechDirector'.list_tasks (TechDirector.mk tasks) status_filter w = (Return tt, w')
      /\ untouched w w'
      /\ Permutation tasks rows
      /\ ascending rows
      /\ stdout w'
         = stdout w
           ++ match tasks with
              | [] => ["No tasks found"%string]
              | _ => [String LF "=== Tasks ==="]
                     ++ map (fun kv => TechDirector'.task_line (fst kv) (snd kv))
                            (filter (fun kv => TechDirector'.shown status_filter (snd kv))
                                    rows)
                     ++ [""%string]
              end
      /\ (forall t : Task,
             TechDirector'.shown status_filter t = true
             <-> (status_filter = None \/ status_filter = Some ""%string
                  \/ status_filter = Some (status_value (status t)))).
Proof.
  intros tasks status_filter w.
  assert (Sh : forall t : Task,
             TechDirector'.shown status_filter t = true
             <-> (status_filter = None \/ status_filter = Some ""%string
                  \/ status_filter = Some (status_value (status t)))).
  { intro t. unfold TechDirector'.shown.
    destruct status_filter as [[|c f]|]; simpl.
    - split; auto.
    - destruct (String.eqb_spec (status_value (status t)) (String c f)) as [E|N]; simpl.
      + split; [intros _; right; right; rewrite E; reflexivity|reflexivity].
      + split; [discriminate|]. intros [H|[H|H]]; try discriminate H.
        injection H as H. exfalso. apply N. symmetry. exact H.
    - split; auto. }
  exists (match tasks with
          | [] => printed w ["No tasks found"%string]
          | _ => printed w ([String LF "=== Tasks ==="]
                            ++ map (fun kv => TechDirector'.task_line (fst kv) (snd kv))
                                 (filter (fun kv => TechDirector'.shown status_filter (snd kv))
                                         (sorted_items tasks))
                            ++ [""%string])
          end), (sorted_items tasks).
  split; [|split; [|split; [|split; [|split]]]].
  - unfold TechDirector'.list_tasks. cbn [TechDirector.tasks].
    destruct tasks as [|kv r]; [reflexivity|].
    unfold bind. rewrite print_printed, print_tasks_runs, print_printed.
    rewrite !printed_printed. reflexivity.
  - destruct tasks; apply untouched_printed.
  - apply sorted_items_perm.
  - apply sorted_items_ascending.
  - destruct tasks; reflexivity.
  - exact Sh.
Qed.

Lemma print_my_tasks_runs items w :
  Group'.print_my_tasks items w
  = (Return tt,
     printed w (flat_map (fun kv => [(fst kv ++ ": " ++ title (snd kv) ++ " ["
                                      ++ status_value (status (snd kv)) ++ "]")%string;
                                     ("  Description: " ++ description (snd kv))%string])
                         items)).
Proof.
  revert w. induction items as [|[k t] r IH]; intro w.
  - simpl. rewrite printed_nil. reflexivity.
  - simpl. unfold bind. simpl. rewrite IH. unfold printed. simpl.
    rewrite <- !app_assoc. reflexivity.
Qed.

(** X13. [my_tasks] only prints, and it prints the tasks assigned to the
    group and no others: two lines for each, in ascending order of the
    task ids, between a header and an empty line; or one line saying that
    no task is assigned. *)
Theorem my_tasks_prints_own_tasks :
  forall (grp : Group.t) (tasks : dict Task) (w : World),
    tasks_file w = Holds tasks ->
    exists (w' : World) (rows : dict Task),
      Group'.my_tasks grp w = (Return tt, w')
      /\ untouched w w'
      /\ (forall kv, In kv rows
                     <-> In kv tasks /\ assigned_to (snd kv) = Some (Group.name grp))
      /\ ascending rows
      /\ length rows
         = length (filter (fun kv => Group'.assigned_to_me grp (snd kv)) tasks)
      /\ stdout w'
         = stdout w
           ++ match rows with
              | [] => [("No tasks assigned to " ++ Group.name grp)%string]
              | _ => [String LF ("=== Tasks for " ++ Group.name grp ++ " ===")]
                     ++ flat_map
                          (fun kv => [(fst kv ++ ": " ++ title (snd kv) ++ " ["
                                       ++ status_value (status (snd kv)) ++ "]")%string;
                                      ("  Description: " ++ description (snd kv))%string])
                          rows
                     ++ [""%string]
              end.
Proof.
  intros grp tasks w F.
  set (mine := filter (fun kv => Group'.assigned_to_me grp (snd kv)) tasks).
  assert (Me : forall t, Group'.assigned_to_me grp t = true
                         <-> assigned_to t = Some (Group.name grp)).
  { intro t. unfold Group'.assigned_to_me, Group.assigned_to_other.
    destruct (assigned_to t) as [g|]; simpl.
    - rewrite negb_involutive. rewrite String.eqb_eq.
      split; [intros ->; reflexivity|intro H; injection H as ->; reflexivity].
    - split; discriminate. }
  pose proof (sorted_items_perm mine) as P.
  exists (match mine with
          | [] => printed w [("No tasks assigned to " ++ Group.name grp)%string]
          | _ => printed w
                   ([String LF ("=== Tasks for " ++ Group.name grp ++ " ===")]
                    ++ flat_map
                         (fun kv => [(fst kv ++ ": " ++ title (snd kv) ++ " ["
                                      ++ status_value (status (snd kv)) ++ "]")%string;
                                     ("  Description: " ++ description (snd kv))%string])
                         (sorted_items mine)
                    ++ [""%string])
          end), (sorted_items mine).
  split; [|split; [|split; [|split; [|split]]]].
  - unfold Group'.my_tasks. eapply bind_then; [apply load_tasks_Holds; exact F|].
    fold mine. destruct mine as [|kv r]; [reflexivity|].
    unfold bind. rewrite print_printed, print_my_tasks_runs, print_printed.
    rewrite !printed_printed. reflexivity.
  - destruct mine; apply untouched_printed.
  - intro kv. split.
    + intro I. apply (Permutation_in kv (Permutation_sym P)) in I.
      unfold mine in I. apply filter_In in I as [I M]. split; [exact I|].
      apply Me. exact M.
    + intros [I A]. apply (Permutation_in kv P). unfold mine. apply filter_In.
      split; [exact I|]. apply Me. exact A.
  - apply sorted_items_ascending.
  - symmetry. apply Permutation_length. exact P.
  - destruct mine as [|kv r] eqn:Em; [reflexivity|].
    destruct (sorted_items (kv :: r)) eqn:Es; [|reflexivity].
    apply sorted_items_nil in Es. discriminate Es.
Qed.

Lemma my_tasks_prints_own_tasks_witness :
  exists (w' : World) (rows : dict Task),
    Group'.my_tasks (Group.mk "beta") chain_world = (Return tt, w')
    /\ untouched chain_world w'
    /\ (forall kv, In kv rows
                   <-> In kv chain_store
                       /\ assigned_to (snd kv) = Some (Group.name (Group.mk "beta")))
    /\ ascending rows
    /\ length rows
       = length (filter (fun kv => Group'.assigned_to_me (Group.mk "beta") (snd kv))
                        chain_store)
    /\ stdout w'
       = stdout chain_world
         ++ match rows with
            | [] => [("No tasks assigned to " ++ Group.name (Group.mk "beta"))%string]
            | _ => [String LF ("=== Tasks for " ++ Group.name (Group.mk "beta") ++ " ===")]
                   ++ flat_map
                        (fun kv => [(fst kv ++ ": " ++ title (snd kv) ++ " ["
                                     ++ status_value (status (snd kv)) ++ "]")%string;
                                    ("  Description: " ++ description (snd kv))%string])
                        rows
                   ++ [""%string]
            end.
Proof.
  apply (my_tasks_prints_own_tasks (Group.mk "beta") chain_store chain_world).
  reflexivity.
Defined.

Lemma print_messages_runs msgs w :
  Group'.print_messages msgs w = (Return tt, printed w (map Group'.message_line msgs)).
Proof.
  revert w. induction msgs as [|m r IH]; intro w.
  - simpl. rewrite printed_nil. reflexivity.
  - simpl. unfold bind. simpl. rewrite IH. unfold printed. simpl.
    rewrite <- app_assoc. reflexivity.
Qed.

Lemma last_n_suffix {X} (n : nat) (l : list X) :
  exists older, l = older ++ last_n n l /\ length (last_n n l) = Nat.min n (length l).
Proof.
  unfold last_n. exists (firstn (length l - n) l). split.
  - symmetry. apply firstn_skipn.
  - rewrite length_skipn. lia.
Qed.

(** X14. [read_messages] only prints, and shows at most ten messages: of
    the messages addressed to the group, in the order they were appended,
    the last ten (all of them if there are fewer), one line each between
    a header and an empty line; or one line saying there is none. *)
Theorem read_messages_shows_last_ten :
  forall (grp : Group.t) (messages : list Message) (w : World),
    messages_file w = Holds messages ->
    let mine := filter (fun m => (to_agent m =? Group.name grp)%string) messages in
    exists (w' : World) (older rows : list Message),
      Group'.read_messages grp w = (Return tt, w')
      /\ untouched w w'
      /\ mine = older ++ rows
      /\ length rows = Nat.min 10 (length mine)
      /\ stdout w'
         = stdout w
           ++ match mine with
              | [] => [("No messages for " ++ Group.name grp)%string]
              | _ => [String LF ("=== Messages for " ++ Group.name grp ++ " ===")]
                     ++ map Group'.message_line rows
                     ++ [""%string]
              end.
Proof.
  intros grp messages w F mine.
  destruct (last_n_suffix 10 mine) as (older & E & Len).
  exists (match mine with
          | [] => printed w [("No messages for " ++ Group.name grp)%string]
          | _ => printed w
                   ([String LF ("=== Messages for " ++ Group.name grp ++ " ===")]
                    ++ map Group'.message_line (last_n 10 mine) ++ [""%string])
          end), older, (last_n 10 mine).
  split; [|split; [|split; [|split]]].
  - unfold Group'.read_messages.
    eapply bind_then.
    { unfold StateManager.load_messages, StateManager.load_json. rewrite F. reflexivity. }
    fold mine. destruct mine as [|m r]; [reflexivity|].
    unfold bind. rewrite print_printed, print_messages_runs, print_printed.
    rewrite !printed_printed. reflexivity.
  - destruct mine; apply untouched_printed.
  - exact E.
  - exact Len.
  - destruct mine; reflexivity.
Qed.

Lemma read_messages_shows_last_ten_witness :
  let messages := [mkMessage "TD" "beta" "start" "2024-01-01T00:00:00";
                   mkMessage "TD" "alpha" "wait" "2024-01-01T00:00:01";
                   mkMessage "alpha" "beta" "done" "2024-01-01T00:00:02"] in
  let w := with_messages_file (Holds messages) fresh_world in
  let mine := filter (fun m => (to_agent m =? "beta")%string) messages in
  exists (w' : World) (older rows : list Message),
    Group'.read_messages (Group.mk "beta") w = (Return tt, w')
    /\ untouched w w'
    /\ mine = older ++ rows
    /\ length rows = Nat.min 10 (length mine)
    /\ stdout w'
       = stdout w
         ++ match mine with
            | [] => [("No messages for " ++ "beta")%string]
            | _ => [String LF ("=== Messages for " ++ "beta" ++ " ===")]
                   ++ map Group'.message_line rows
                   ++ [""%string]
            end.
Proof.
  intros messages w mine.
  apply (read_messages_shows_last_ten (Group.mk "beta") messages w).
  reflexivity.
Defined.

Lemma load_groups_readable (w : World) :
  groups_readable w ->
  exists w0,
    StateManager.load_groups w = (Return (stored_groups w), w0)
    /\ untouched w w0
    /\ wall w0 = wall w
    /\ (forall d, groups_file w = Holds d -> w0 = w).
Proof.
  unfold groups_readable, StateManager.load_groups, stored_groups,
         StateManager.load_json.
  destruct (groups_file w) as [|d|e] eqn:F.
  - intros _. exists w. split; [reflexivity|]. split; [|split; reflexivity].
    unfold untouched. repeat split.
  - intros _. exists w. split; [reflexivity|]. split; [|split; reflexivity].
    unfold untouched. repeat split.
  - intro R. destruct (is_JSONDecodeError e); simpl.
    + eexists. split; [reflexivity|].
      split; [apply untouched_print|split; [reflexivity|discriminate]].
    + discriminate R.
Qed.

(** What the constructor of [Group] does with a valid name. *)
Lemma Group_init_cases :
  forall (name : string) (w : World),
    passes_validate_id name = true ->
    groups_readable w ->
    exists (w1 : World),
      Group.__init__ name w = (Return (Group.mk name), w1)
      /\ tasks_file w1 = tasks_file w
      /\ messages_file w1 = messages_file w
      /\ logs w1 = logs w
      /\ tmux_keys w1 = tmux_keys w
      /\ match dict_get (stored_groups w) name with
         | Some info => w1 = w
         | None =>
             groups_file w1
             = Holds (stored_groups w ++ [(name, mkGroupInfo name (wall w (clock w)))])
             /\ saves w1 = saves w ++ ["groups.json"%string]
         end
      /\ Group.__init__ name w1 = (Return (Group.mk name), w1).
Proof.
  intros name w V R.
  destruct (validate_id_runs name "Group name" w) as (wv & Rv & _ & Same).
  rewrite V in Rv. specialize (Same V). subst wv. unfold runs in Rv.
  destruct (load_groups_readable w R) as (w0 & L & U0 & W0 & Same0).
  destruct (dict_get (stored_groups w) name) as [info|] eqn:G.
  - assert (Hw : w0 = w).
    { unfold stored_groups in G. destruct (groups_file w) as [|d|e] eqn:F;
        try discriminate G. apply (Same0 d). reflexivity. }
    subst w0.
    assert (Run : Group.__init__ name w = (Return (Group.mk name), w)).
    { unfold Group.__init__. eapply bind_then; [exact Rv|]. simpl.
      eapply bind_then; [exact L|].
      unfold dict_mem. rewrite G. reflexivity. }
    exists w. repeat split; try reflexivity; exact Run.
  - destruct U0 as (T0 & M0 & G0 & S0 & L0 & K0 & C0).
    set (groups' := stored_groups w ++ [(name, mkGroupInfo name (wall w (clock w)))]).
    set (w1 := with_saves (saves w0 ++ ["groups.json"%string])
                 (with_groups_file (Holds groups') (with_clock (S (clock w0)) w0))).
    assert (Run : Group.__init__ name w = (Return (Group.mk name), w1)).
    { unfold Group.__init__. eapply bind_then; [exact Rv|]. simpl.
      eapply bind_then; [exact L|].
      unfold dict_mem. rewrite G. simpl.
      unfold bind, datetime_now, StateManager.save_groups, ret. simpl.
      rewrite dict_set_absent by (unfold dict_mem; rewrite G; reflexivity).
      unfold w1, groups'.
      rewrite W0, C0. reflexivity. }
    exists w1. split; [exact Run|].
    split; [exact T0|]. split; [exact M0|]. split; [exact L0|]. split; [exact K0|].
    split.
    + split; [reflexivity|]. unfold w1. simpl. rewrite S0. reflexivity.
    + destruct (validate_id_runs name "Group name" w1) as (wv & Rv1 & _ & Same1).
      rewrite V in Rv1. specialize (Same1 V). subst wv. unfold runs in Rv1.
      unfold Group.__init__. eapply bind_then; [exact Rv1|]. simpl.
      eapply bind_then.
      { unfold StateManager.load_groups, StateManager.load_json. simpl. reflexivity. }
      unfold dict_mem, groups'. rewrite dict_get_app, G. simpl.
      rewrite String.eqb_refl. reflexivity.
Qed.

(** X15. Building a [Group] with a valid name registers the name once.
    A name that is not yet in [groups.json] is added behind the others
    with the time of the call, and only [groups.json] is written; a name
    that is there already keeps its record and nothing at all is
    written, so its [created_at] is that of the first registration.  In
    both cases building the group once more changes nothing. *)
Theorem group_registration_is_idempotent :
  forall (name : string) (w : World),
    passes_validate_id name = true ->
    groups_readable w ->
    exists (w1 : World),
      Group.__init__ name w = (Return (Group.mk name), w1)
      /\ tasks_file w1 = tasks_file w
      /\ messages_file w1 = messages_file w
      /\ logs w1 = logs w
      /\ tmux_keys w1 = tmux_keys w
      /\ match dict_get (stored_groups w) name with
         | Some info => w1 = w
         | None =>
             groups_file w1
             = Holds (stored_groups w ++ [(name, mkGroupInfo name (wall w (clock w)))])
             /\ saves w1 = saves w ++ ["groups.json"%string]
         end
      /\ Group.__init__ name w1 = (Return (Group.mk name), w1).
Proof. exact Group_init_cases. Qed.

Lemma group_registration_is_idempotent_witness :
  exists (w1 : World),
    Group.__init__ "alpha" corrupt_world = (Return (Group.mk "alpha"), w1)
    /\ tasks_file w1 = tasks_file corrupt_world
    /\ messages_file w1 = messages_file corrupt_world
    /\ logs w1 = logs corrupt_world
    /\ tmux_keys w1 = tmux_keys corrupt_world
    /\ match dict_get (stored_groups corrupt_world) "alpha" with
       | Some info => w1 = corrupt_world
       | None =>
           groups_file w1
           = Holds (stored_groups corrupt_world
                    ++ [("alpha"%string,
                         mkGroupInfo "alpha" (wall corrupt_world (clock corrupt_world)))])
           /\ saves w1 = saves corrupt_world ++ ["groups.json"%string]
       end
    /\ Group.__init__ "alpha" w1 = (Return (Group.mk "alpha"), w1).
Proof.
  apply (group_registration_is_idempotent "alpha" corrupt_world).
  - reflexivity.
  - reflexivity.
Defined.

(** X16. The exit status does not tell whether the operation was done:
    [td complete-task <id>] for a task that is blocked prints the refusal,
    leaves every file as it was, and [main] returns 0. *)
Theorem main_exit_status_ignores_refusal :
  forall (depth : nat) (prog task_id : string) (tasks : dict Task) (task : Task)
         (w : World),
    tasks_file w = Holds tasks ->
    dict_get tasks task_id = Some task ->
    status task = BLOCKED ->
    exists w',
      main depth [prog; "td"; "complete-task"; task_id]%string w = (Return (Some 0), w')
      /\ untouched w w'
      /\ stdout w'
         = stdout w ++ [("Error: Cannot complete task " ++ task_id
                         ++ " - it is blocked by dependencies")%string].
Proof.
  intros depth prog task_id tasks task w F G B.
  exists (printed w [("Error: Cannot complete task " ++ task_id
                      ++ " - it is blocked by dependencies")%string]).
  split; [|split; [apply untouched_printed|reflexivity]].
  unfold main. simpl.
  eapply bind_then.
  { unfold TechDirector.__init__. eapply bind_then; [apply load_tasks_Holds; exact F|].
    reflexivity. }
  unfold TechDirector.complete_task. cbn [TechDirector.tasks].
  unfold arg. cbn [nth]. rewrite G, B. simpl.
  reflexivity.
Qed.

Lemma main_exit_status_ignores_refusal_witness :
  exists w',
    main 1000 ["agent_swarm.py"; "td"; "complete-task"; "B"]%string chain_world
    = (Return (Some 0), w')
    /\ untouched chain_world w'
    /\ stdout w'
       = stdout chain_world
         ++ [("Error: Cannot complete task " ++ "B"
              ++ " - it is blocked by dependencies")%string].
Proof.
  apply (main_exit_status_ignores_refusal 1000 "agent_swarm.py" "B" chain_store chain_B
                                          chain_world).
  - reflexivity.
  - reflexivity.
  - reflexivity.
Defined.

Lemma TechDirector_init_untouched (w w1 : World) (td : TechDirector.t) :
  TechDirector.__init__ w = (Return td, w1) -> untouched w w1.
Proof.
  unfold TechDirector.__init__, StateManager.load_tasks, StateManager.load_json, bind.
  destruct (tasks_file w) as [|d|e].
  - intro H. injection H as _ <-. unfold untouched. repeat split.
  - intro H. injection H as _ <-. unfold untouched. repeat split.
  - destruct (is_JSONDecodeError e); simpl.
    + intro H. injection H as _ <-. apply untouched_print.
    + destruct (is_OSError e); simpl; [|discriminate].
      intro H. injection H as _ <-. apply untouched_print.
Qed.

Lemma Group_init_keeps (name : string) (w w1 : World) (g : Group.t) :
  Group.__init__ name w = (Return g, w1) ->
  g = Group.mk name
  /\ tasks_file w1 = tasks_file w /\ messages_file w1 = messages_file w
  /\ logs w1 = logs w /\ tmux_keys w1 = tmux_keys w.
Proof.
  unfold Group.__init__. intro H.
  destruct (validate_id_runs name "Group name" w) as (wv & Rv & Uv & _).
  unfold runs in Rv. unfold bind at 1 in H. rewrite Rv in H.
  destruct (passes_validate_id name); simpl in H; [|discriminate H].
  destruct Uv as (T0 & M0 & G0 & S0 & L0 & K0 & C0).
  unfold bind at 1 in H.
  assert (Ld : forall r wl, StateManager.load_groups wv = (r, wl) ->
                            tasks_file wl = tasks_file wv
                            /\ messages_file wl = messages_file wv
                            /\ logs wl = logs wv /\ tmux_keys wl = tmux_keys wv).
  { unfold StateManager.load_groups, StateManager.load_json.
    intros r wl. destruct (groups_file wv) as [|d|e].
    - intro E. injection E as _ <-. repeat split.
    - intro E. injection E as _ <-. repeat split.
    - destruct (is_JSONDecodeError e); simpl.
      + intro E. injection E as _ <-. repeat split.
      + destruct (is_OSError e); simpl; intro E; injection E as _ <-; repeat split. }
  destruct (StateManager.load_groups wv) as [[groups|e] wl] eqn:L; [|discriminate H].
  destruct (Ld _ _ eq_refl) as (T1 & M1 & L1 & K1).
  destruct (dict_mem groups name); simpl in H.
  - injection H as <- <-. split; [reflexivity|].
    rewrite T1, M1, L1, K1. repeat split; assumption.
  - unfold bind, datetime_now, StateManager.save_groups, ret in H. simpl in H.
    injection H as <- <-. split; [reflexivity|]. simpl.
    rewrite T1, M1, L1, K1. repeat split; assumption.
Qed.

(** X17. When [main] returns 1 it has turned the command line down and
    carried out no operation: no task and no message was written, no log
    line was added and no tmux key was sent; unless the command was
    [group], no file was written at all.  This is about the value [main]
    returns, not about a run that an exception ends. *)
Theorem main_returning_one_wrote_no_task :
  forall (depth : nat) (argv : list string) (w w' : World),
    main depth argv w = (Return (Some 1), w') ->
    tasks_file w' = tasks_file w
    /\ messages_file w' = messages_file w
    /\ logs w' = logs w
    /\ tmux_keys w' = tmux_keys w
    /\ (arg argv 1 <> "group"%string ->
        groups_file w' = groups_file w /\ saves w' = saves w).
Proof.
  intros depth argv w w' H. unfold main in H.
  assert (P : forall l, tasks_file (printed w l) = tasks_file w
                        /\ messages_file (printed w l) = messages_file w
                        /\ logs (printed w l) = logs w
                        /\ tmux_keys (printed w l) = tmux_keys w
                        /\ (arg argv 1 <> "group"%string ->
                            groups_file (printed w l) = groups_file w
                            /\ saves (printed w l) = saves w)).
  { intro l. repeat split. }
  assert (Q : forall w1 line,
             untouched w w1 ->
             tasks_file (printed w1 [line]) = tasks_file w
             /\ messages_file (printed w1 [line]) = messages_file w
             /\ logs (printed w1 [line]) = logs w
             /\ tmux_keys (printed w1 [line]) = tmux_keys w
             /\ (arg argv 1 <> "group"%string ->
                 groups_file (printed w1 [line]) = groups_file w
                 /\ saves (printed w1 [line]) = saves w)).
  { intros w1 line (T0 & M0 & G0 & S0 & L0 & K0 & C0). simpl. repeat split; assumption. }
  destruct (length argv <? 2).
  { unfold bind in H. rewrite print_lines_runs in H. injection H as <-. apply P. }
  cbv zeta in H.
  destruct (arg argv 1 =? "td")%string eqn:Etd.
  { destruct (length argv <? 3).
    { unfold bind in H. rewrite print_printed in H. injection H as <-. apply P. }
    unfold bind at 1 in H.
    destruct (TechDirector.__init__ w) as [[td|e] w1] eqn:I; [|discriminate H].
    apply TechDirector_init_untouched in I.
    destruct (arg argv 2 =? "create-task")%string.
    { destruct (length argv <? 6).
      - unfold bind in H. rewrite print_printed in H. injection H as <-. apply Q, I.
      - run_to_status H. discriminate H. }
    destruct (arg argv 2 =? "assign-task")%string.
    { destruct (length argv <? 5).
      - unfold bind in H. rewrite print_printed in H. injection H as <-. apply Q, I.
      - run_to_status H. discriminate H. }
    destruct (arg argv 2 =? "complete-task")%string.
    { destruct (length argv <? 4).
      - unfold bind in H. rewrite print_printed in H. injection H as <-. apply Q, I.
      - run_to_status H. discriminate H. }
    destruct (arg argv 2 =? "list-tasks")%string.
    { run_to_status H. discriminate H. }
    destruct (arg argv 2 =? "monitor-logs")%string.
    { run_to_status H; discriminate H. }
    destruct (arg argv 2 =? "send-message")%string.
    { destruct (length argv <? 5).
      - unfold bind in H. rewrite print_printed in H. injection H as <-. apply Q, I.
      - run_to_status H. discriminate H. }
    unfold bind in H. rewrite print_printed in H. injection H as <-. apply Q, I. }
  destruct (arg argv 1 =? "group")%string eqn:Egr.
  { assert (R : forall w1 line,
               tasks_file w1 = tasks_file w /\ messages_file w1 = messages_file w
               /\ logs w1 = logs w /\ tmux_keys w1 = tmux_keys w ->
               tasks_file (printed w1 [line]) = tasks_file w
               /\ messages_file (printed w1 [line]) = messages_file w
               /\ logs (printed w1 [line]) = logs w
               /\ tmux_keys (printed w1 [line]) = tmux_keys w
               /\ (arg argv 1 <> "group"%string ->
                   groups_file (printed w1 [line]) = groups_file w
                   /\ saves (printed w1 [line]) = saves w)).
    { intros w1 line (T0 & M0 & L0 & K0). simpl.
      split; [exact T0|]. split; [exact M0|]. split; [exact L0|]. split; [exact K0|].
      intro N. apply String.eqb_eq in Egr. contradiction. }
    destruct (length argv <? 4).
    { unfold bind in H. rewrite print_printed in H. injection H as <-. apply P. }
    unfold bind at 1 in H.
    destruct (Group.__init__ (arg argv 2) w) as [[g|e] w1] eqn:I; [|discriminate H].
    apply Group_init_keeps in I. destruct I as (_ & I).
    destruct (arg argv 3 =? "my-tasks")%string.
    { run_to_status H. discriminate H. }
    destruct (arg argv 3 =? "report-progress")%string.
    { destruct (length argv <? 6).
      - unfold bind in H. rewrite print_printed in H. injection H as <-. apply R, I.
      - run_to_status H. discriminate H. }
    destruct (arg argv 3 =? "complete-task")%string.
    { destruct (length argv <? 5).
      - unfold bind in H. rewrite print_printed in H. injection H as <-. apply R, I.
      - run_to_status H. discriminate H. }
    destruct (arg argv 3 =? "read-messages")%string.
    { run_to_status H. discriminate H. }
    unfold bind in H. rewrite print_printed in H. injection H as <-. apply R, I. }
  unfold bind in H. rewrite print_printed in H. injection H as <-. apply P.
Qed.

Lemma main_returning_one_wrote_no_task_witness :
  let argv := ["agent_swarm.py"; "group"; "alpha"; "start"]%string in
  let w' := printed (with_saves ["groups.json"%string]
                       (with_groups_file
                          (Holds [("alpha"%string, mkGroupInfo "alpha" (example_wall 0))])
                          (with_clock 1 chain_world)))
                    ["Error: Unknown group command: start"%string] in
  tasks_file w' = tasks_file chain_world
  /\ messages_file w' = messages_file chain_world
  /\ logs w' = logs chain_world
  /\ tmux_keys w' = tmux_keys chain_world
  /\ (arg argv 1 <> "group"%string ->
      groups_file w' = groups_file chain_world /\ saves w' = saves chain_world).
Proof.
  intros argv w'.
  apply (main_returning_one_wrote_no_task 1000 argv chain_world w').
  reflexivity.
Defined.

(** X18. An invalid group name on the command line makes [main] raise
    instead of return: [Group(...)] is built before the action is looked
    at, so for every action [main] is left by the [ValueError] of the
    constructor, after the one line [validate_id] printed and with
    nothing written. *)
Theorem main_invalid_group_name_raises :
  forall (depth : nat) (prog name action : string) (rest : list string) (w : World),
    passes_validate_id name = false ->
    exists w',
      main depth (prog :: "group"%string :: name :: action :: rest) w
      = (Raise (mkExn ValueError ("Invalid group name: " ++ name)), w')
      /\ untouched w w'
      /\ length (stdout w') = S (length (stdout w)).
Proof.
  intros depth prog name action rest w V.
  assert (Hv : exists w', validate_id name "Group name" w = (Return false, w')
                          /\ untouched w w'
                          /\ length (stdout w') = S (length (stdout w))).
  { unfold passes_validate_id in V. unfold validate_id.
    destruct (name =? "")%string; simpl in *.
    - eexists. split; [reflexivity|]. split; [apply untouched_print|].
      simpl. rewrite length_app. simpl. lia.
    - rewrite V. simpl.
      eexists. split; [reflexivity|]. split; [apply untouched_print|].
      simpl. rewrite length_app. simpl. lia. }
  destruct Hv as (w' & Rv & U & Len).
  exists w'. split; [|split; assumption].
  unfold main. simpl length. simpl Nat.ltb. cbv iota zeta.
  unfold arg. cbn [nth]. simpl String.eqb. cbv iota.
  apply bind_raise. unfold Group.__init__.
  eapply bind_then; [exact Rv|]. reflexivity.
Qed.

Lemma main_invalid_group_name_raises_witness :
  exists w',
    main 1000 ("agent_swarm.py" :: "group" :: "team one" :: "my-tasks" :: [])%string
         chain_world
    = (Raise (mkExn ValueError ("Invalid group name: " ++ "team one")), w')
    /\ untouched chain_world w'
    /\ length (stdout w') = S (length (stdout chain_world)).
Proof.
  apply (main_invalid_group_name_raises 1000 "agent_swarm.py" "team one" "my-tasks" []
                                        chain_world).
  reflexivity.
Defined.

(** X19. A [group] command registers the group even when its action is
    not one of the four: the name is added to [groups.json] and nothing
    else is written, the unknown action is reported, and [main]
    returns 1. *)
Theorem main_unknown_action_registers_group :
  forall (depth : nat) (prog name action : string) (rest : list string) (w : World),
    passes_validate_id name = true ->
    groups_readable w ->
    dict_get (stored_groups w) name = None ->
    action <> "my-tasks"%string -> action <> "report-progress"%string ->
    action <> "complete-task"%string -> action <> "read-messages"%string ->
    exists w',
      main depth (prog :: "group"%string :: name :: action :: rest) w
      = (Return (Some 1), w')
      /\ groups_file w'
         = Holds (stored_groups w ++ [(name, mkGroupInfo name (wall w (clock w)))])
      /\ saves w' = saves w ++ ["groups.json"%string]
      /\ tasks_file w' = tasks_file w
      /\ messages_file w' = messages_file w
      /\ exists shown,
           stdout w' = shown ++ [("Error: Unknown group command: " ++ action)%string].
Proof.
  intros depth prog name action rest w V R G N1 N2 N3 N4.
  destruct (Group_init_cases name w V R) as (w1 & Run & T & M & _ & _ & C & _).
  rewrite G in C. destruct C as (Gf & Sv).
  exists (printed w1 [("Error: Unknown group command: " ++ action)%string]).
  split; [|split; [exact Gf|split; [exact Sv|split; [exact T|split; [exact M|]]]]].
  - unfold main. simpl length. simpl Nat.ltb. cbv iota zeta.
    unfold arg. cbn [nth]. simpl String.eqb. cbv iota.
    eapply bind_then; [exact Run|].
    apply String.eqb_neq in N1, N2, N3, N4. rewrite N1, N2, N3, N4.
    reflexivity.
  - exists (stdout w1). reflexivity.
Qed.

Lemma main_unknown_action_registers_group_witness :
  exists w',
    main 1000 ("agent_swarm.py" :: "group" :: "alpha" :: "start" :: [])%string chain_world
    = (Return (Some 1), w')
    /\ groups_file w'
       = Holds (stored_groups chain_world
                ++ [("alpha"%string,
                     mkGroupInfo "alpha" (wall chain_world (clock chain_world)))])
    /\ saves w' = saves chain_world ++ ["groups.json"%string]
    /\ tasks_file w' = tasks_file chain_world
    /\ messages_file w' = messages_file chain_world
    /\ exists shown,
         stdout w' = shown ++ [("Error: Unknown group command: " ++ "start")%string].
Proof.
  apply (main_unknown_action_registers_group 1000 "agent_swarm.py" "alpha" "start" []
                                             chain_world).
  - reflexivity.
  - exact I.
  - reflexivity.
  - discriminate.
  - discriminate.
  - discriminate.
  - discriminate.
Defined.

Lemma log_text_printed (w : World) (l : list string) (g : string) :
  log_text (printed w l) g = log_text w g.
Proof. reflexivity. Qed.

(** [monitor_logs] with the name of a group. *)
Lemma monitor_logs_named (depth : nat) (self : TechDirector.t) (g : string) (w : World) :
  g <> ""%string ->
  monitor_logs (S depth) self (Some g) w
  = (Return (Some tt),
     printed w match log_text w g with
               | Some text => [String LF ("=== " ++ g ++ " Logs ==="); text]
               | None => [("No logs found for " ++ g)%string]
               end).
Proof.
  intro N. cbn [monitor_logs]. rewrite (truthy_Some g N).
  destruct (log_text w g) as [text|].
  - unfold bind. rewrite !print_printed, printed_printed. reflexivity.
  - reflexivity.
Qed.

(** X20. [monitor_logs] without a group shows the log of every
    registered group, in the order of registration: the header and the
    text of the log file for a group that has one, the line [No logs
    found] for a group that has none.  It only prints; two nested calls
    are all it needs. *)
Theorem monitor_logs_shows_every_group :
  forall (depth : nat) (self : TechDirector.t) (groups : dict GroupInfo) (w : World),
    groups_file w = Holds groups ->
    Forall (fun g => g <> ""%string) (keys groups) ->
    exists w',
      monitor_logs (S (S depth)) self None w = (Return (Some tt), w')
      /\ untouched w w'
      /\ stdout w'
         = stdout w
           ++ flat_map (fun g => match log_text w g with
                                 | Some text => [String LF ("=== " ++ g ++ " Logs ==="); text]
                                 | None => [("No logs found for " ++ g)%string]
                                 end)
                       (keys groups).
Proof.
  intros depth self groups w F NE.
  set (section := fun g => match log_text w g with
                           | Some text => [String LF ("=== " ++ g ++ " Logs ==="); text]
                           | None => [("No logs found for " ++ g)%string]
                           end).
  exists (printed w (flat_map section (keys groups))).
  split; [|split; [apply untouched_printed|reflexivity]].
  change (monitor_logs (S (S depth)) self None w)
    with ((groups0 <- StateManager.load_groups ;;
           (fix each (names : list string) : M (option unit) :=
              match names with
              | [] => ret (Some tt)
              | gname :: rest =>
                  r <- monitor_logs (S depth) self (Some gname) ;;
                  match r with
                  | Some _ => each rest
                  | None => ret None
                  end
              end) (keys groups0)) w).
  eapply bind_then.
  { unfold StateManager.load_groups, StateManager.load_json. rewrite F. reflexivity. }
  generalize (keys groups) NE. clear F NE groups.
  intros names NE.
  rewrite <- (printed_nil w) at 1.
  change (flat_map section names) with ([] ++ flat_map section names).
  generalize (@nil string) as done.
  induction NE as [|g rest Ng _ IH]; intro done.
  - simpl. rewrite app_nil_r. reflexivity.
  - eapply bind_then.
    { apply monitor_logs_named. exact Ng. }
    rewrite log_text_printed. fold (section g).
    rewrite printed_printed. cbv beta iota.
    rewrite IH. simpl. rewrite <- app_assoc. reflexivity.
Qed.

Lemma monitor_logs_shows_every_group_witness :
  let groups := [("alpha"%string, mkGroupInfo "alpha" "2024-01-01T00:00:00");
                 ("beta"%string, mkGroupInfo "beta" "2024-01-01T00:00:01")] in
  let w := with_logs [("beta"%string, "[2024-01-01T00:00:02] Completed task B"%string)]
             (with_groups_file (Holds groups) fresh_world) in
  exists w',
    monitor_logs 2 (TechDirector.mk []) None w = (Return (Some tt), w')
    /\ untouched w w'
    /\ stdout w'
       = stdout w
         ++ flat_map (fun g => match log_text w g with
                               | Some text => [String LF ("=== " ++ g ++ " Logs ==="); text]
                               | None => [("No logs found for " ++ g)%string]
                               end)
                     (keys groups).
Proof.
  intros groups w.
  apply (monitor_logs_shows_every_group 0 (TechDirector.mk []) groups w).
  - reflexivity.
  - repeat constructor; discriminate.
Defined.

Lemma skeleton_dict_set (tasks : dict Task) k (t t' : Task) :
  dict_get tasks k = Some t -> dependencies t' = dependencies t ->
  skeleton (dict_set tasks k t') = skeleton tasks.
Proof.
  intros G D. induction tasks as [|[k0 t0] r IH]; simpl in *; [discriminate G|].
  destruct (String.eqb_spec k k0) as [->|N]; simpl.
  - injection G as ->. rewrite D. reflexivity.
  - rewrite (IH G). reflexivity.
Qed.

Lemma skeleton_dict_map (g : Task -> Task) (tasks : dict Task) :
  (forall t, dependencies (g t) = dependencies t) ->
  skeleton (dict_map g tasks) = skeleton tasks.
Proof.
  intro D. unfold skeleton, dict_map. rewrite map_map. apply map_ext.
  intros [k t]. simpl. rewrite D. reflexivity.
Qed.

Lemma dependencies_unblock_task (D : dict Task) task_id (t : Task) :
  dependencies (unblock_task D task_id t) = dependencies t.
Proof. unfold unblock_task. destruct (unblockable D task_id t); reflexivity. Qed.

(** The skeleton of a built store lists every dependency before the
    task that has it. *)
Lemma built_skeleton_points_back (tasks : dict Task) :
  built tasks ->
  forall pre k deps post,
    skeleton tasks = pre ++ (k, deps) :: post ->
    forall dep, In dep deps -> In dep (map fst pre).
Proof.
  induction 1 as [|tasks task_id ttl descr now deps0 _ IH Dm Dp
                  |tasks task_id g task _ IH G
                  |tasks task_id now task _ IH G _].
  - intros pre k deps post E. destruct pre; discriminate E.
  - intros pre k deps post E dep I.
    unfold skeleton in E. rewrite map_app in E. simpl in E. fold (skeleton tasks) in E.
    destruct (exists_last (l := (k, deps) :: post)) as (mid & last & El); [discriminate|].
    rewrite El in E. rewrite app_assoc in E.
    apply app_inj_tail in E. destruct E as (E1 & E2).
    destruct mid as [|m mid'].
    + simpl in El. injection El as E3 E4. subst post.
      rewrite <- E3 in E2. injection E2 as _ E5.
      rewrite app_nil_r in E1. subst deps0 pre.
      specialize (Dp dep I). rewrite dict_mem_str_in in Dp.
      apply str_in_In in Dp. unfold keys in Dp. unfold skeleton.
      rewrite map_map. simpl. exact Dp.
    + simpl in El. injection El as E3 E4. subst m post.
      apply (IH pre k deps mid'); [|exact I]. exact E1.
  - intros pre k deps post E.
    rewrite (skeleton_dict_set tasks task_id task _ G) in E by reflexivity.
    apply (IH pre k deps post E).
  - intros pre k deps post E. cbv zeta in E.
    rewrite skeleton_dict_map in E by apply dependencies_unblock_task.
    rewrite (skeleton_dict_set tasks task_id task _ G) in E by reflexivity.
    apply (IH pre k deps post E).
Qed.

Lemma distinct_app_cons (l1 l2 : list string) (x : string) :
  distinct (l1 ++ x :: l2) = true -> ~ In x l1.
Proof.
  induction l1 as [|y r IH]; simpl; [intros _ []|].
  intro H. apply andb_prop in H. destruct H as (Hy & Hr).
  intros [->|I].
  - apply negb_true_iff in Hy. apply str_in_false in Hy. apply Hy.
    apply in_or_app. right. left. reflexivity.
  - exact (IH Hr I).
Qed.

(** X21. In a store the operations have built, every dependency of a
    task is the identifier of a task that was created before it and
    stands before it in the store.  So no task depends on itself, and
    the dependencies form no cycle. *)
Theorem built_dependencies_point_back :
  forall (tasks pre post : dict Task) (k : string) (t : Task),
    built tasks ->
    tasks = pre ++ (k, t) :: post ->
    (forall dep, In dep (dependencies t) -> In dep (keys pre))
    /\ ~ In k (dependencies t).
Proof.
  intros tasks pre post k t B E.
  assert (Back : forall dep, In dep (dependencies t) -> In dep (keys pre)).
  { intros dep I.
    pose proof (built_skeleton_points_back tasks B (skeleton pre) k (dependencies t)
                                           (skeleton post)) as P.
    assert (Es : skeleton tasks = skeleton pre ++ (k, dependencies t) :: skeleton post).
    { rewrite E. unfold skeleton. rewrite map_app. reflexivity. }
    specialize (P Es dep I). unfold skeleton in P. rewrite map_map in P. exact P. }
  split; [exact Back|].
  intro I. apply Back in I.
  destruct (built_is_consistent tasks B) as (U & _).
  unfold unique_keys, keys in U. rewrite E, map_app in U. simpl in U.
  exact (distinct_app_cons _ _ _ U I).
Qed.

Lemma chain_store_built : built chain_store.
Proof.
  pose proof built_empty as B0.
  assert (B1 : built [("A"%string,
                       mkTask "A" "first" "" None PENDING [] "2023-12-31T10:00:00" None)]).
  { apply (built_create [] "A" "first" "" "2023-12-31T10:00:00" [] B0 eq_refl).
    intros dep []. }
  assert (B2 : built [("A"%string,
                       mkTask "A" "first" "" None PENDING [] "2023-12-31T10:00:00" None);
                      ("B"%string,
                       mkTask "B" "second" "" None PENDING ["A"%string]
                              "2023-12-31T10:00:01" None)]).
  { apply (built_create _ "B" "second" "" "2023-12-31T10:00:01" ["A"%string] B1 eq_refl).
    intros dep [<-|[]]. reflexivity. }
  assert (B3 : built [("A"%string,
                       mkTask "A" "first" "" None PENDING [] "2023-12-31T10:00:00" None);
                      ("B"%string,
                       mkTask "B" "second" "" None PENDING ["A"%string]
                              "2023-12-31T10:00:01" None);
                      ("C"%string,
                       mkTask "C" "third" "" None PENDING ["B"%string]
                              "2023-12-31T10:00:02" None)]).
  { apply (built_create _ "C" "third" "" "2023-12-31T10:00:02" ["B"%string] B2 eq_refl).
    intros dep [<-|[]]. reflexivity. }
  pose proof (built_assign _ "A" "alpha" _ B3 eq_refl) as B4.
  pose proof (built_assign _ "B" "beta" _ B4 eq_refl) as B5.
  pose proof (built_assign _ "C" "beta" _ B5 eq_refl) as B6.
  exact B6.
Qed.

Lemma built_dependencies_point_back_witness :
  (forall dep, In dep (dependencies chain_C) -> In dep (keys [("A"%string, chain_A);
                                                               ("B"%string, chain_B)]))
  /\ ~ In "C"%string (dependencies chain_C).
Proof.
  apply (built_dependencies_point_back chain_store
           [("A"%string, chain_A); ("B"%string, chain_B)] [] "C" chain_C).
  - exact chain_store_built.
  - reflexivity.
Defined.

Lemma coherent_unblock_task (D : dict Task) task_id k (t : Task) :
  coherent k t -> coherent k (unblock_task D task_id t).
Proof.
  unfold unblock_task, unblockable.
  destruct (status_eqb (status t) BLOCKED) eqn:Eb;
    [|rewrite andb_false_r; simpl; intro C; exact C].
  destruct (str_in task_id (dependencies t) && true && check_dependencies D t);
    [|intro C; exact C].
  apply status_eqb_eq in Eb.
  intros (I & P & A & C). unfold coherent. simpl.
  split; [exact I|]. split; [discriminate|]. split; [|discriminate].
  intros _. apply A. left. exact Eb.
Qed.

(** X22. In a store the operations have built the fields of every task
    agree with each other: the task carries the identifier it is stored
    under; while it is pending it has no group and no completion time;
    blocked or in progress it has a group; completed it has a completion
    time. *)
Theorem built_tasks_are_coherent :
  forall (tasks : dict Task) (k : string) (t : Task),
    built tasks -> In (k, t) tasks -> coherent k t.
Proof.
  intros tasks k t B. revert k t.
  induction B as [|tasks task_id ttl descr now deps0 _ IH Dm Dp
                  |tasks task_id g task _ IH G
                  |tasks task_id now task _ IH G St].
  - intros k t [].
  - intros k t I. apply in_app_or in I. destruct I as [I|[E|[]]]; [exact (IH k t I)|].
    injection E as <- <-. unfold coherent. simpl.
    split; [reflexivity|]. split; [auto|]. split.
    + intros [X|X]; discriminate X.
    + discriminate.
  - intros k t I. apply In_dict_set in I. destruct I as [E|I]; [|exact (IH k t I)].
    injection E as -> ->.
    destruct (IH task_id task (dict_get_In _ _ _ G)) as (Hid & _).
    unfold coherent, assigned_now. simpl.
    split; [exact Hid|]. split.
    + destruct (check_dependencies tasks task); discriminate.
    + split; [intros _; exists g; reflexivity|].
      destruct (check_dependencies tasks task); discriminate.
  - intros k t I. cbv zeta in I. apply In_dict_map in I.
    destruct I as (v & E & I). simpl in E. injection E as ->.
    apply coherent_unblock_task.
    apply In_dict_set in I. destruct I as [E|I]; [|exact (IH k v I)].
    injection E as -> ->.
    destruct (IH task_id task (dict_get_In _ _ _ G)) as (Hid & _).
    unfold coherent, completed_now. simpl.
    split; [exact Hid|]. split; [discriminate|]. split.
    + intros [X|X]; discriminate X.
    + intros _. exists now. reflexivity.
Qed.

Lemma built_tasks_are_coherent_witness : coherent "B" chain_B.
Proof.
  apply (built_tasks_are_coherent chain_store "B" chain_B).
  - exact chain_store_built.
  - right. left. reflexivity.
Defined.

(** X23. A [tasks.json] that does not parse is not repaired but
    replaced: the next [td create-task] whose identifier is valid and
    which names no dependency loads the empty store, returns True and
    writes a file that holds the new task and nothing else, whatever the
    file held before. *)
Theorem create_task_replaces_corrupt_store :
  forall (e : exn) (task_id ttl descr : string) (w : World),
    tasks_file w = Broken e ->
    is_JSONDecodeError e = true ->
    passes_validate_id task_id = true ->
    exists w',
      td_create_task task_id ttl descr [] w = (Return true, w')
      /\ tasks_file w'
         = Holds [(task_id, mkTask task_id ttl descr None PENDING [] (wall w (clock w)) None)]
      /\ saves w' = saves w ++ ["tasks.json"%string]
      /\ stdout w'
         = stdout w ++ [("Error: Corrupted tasks file. " ++ exn_str e)%string;
                        ("Task " ++ task_id ++ " created successfully")%string].
Proof.
  intros e task_id ttl descr w F J V.
  destruct (validate_id_runs task_id "Task ID"
              (printed w [("Error: Corrupted tasks file. " ++ exn_str e)%string]))
    as (wv & Rv & _ & Same).
  rewrite V in Rv. specialize (Same V). subst wv. unfold runs in Rv.
  eexists. split.
  - unfold td_create_task. eapply bind_then.
    { unfold TechDirector.__init__. eapply bind_then.
      { unfold StateManager.load_tasks, StateManager.load_json. rewrite F, J.
        unfold bind. rewrite print_printed. reflexivity. }
      reflexivity. }
    eapply bind_then.
    { unfold TechDirector.create_task. eapply bind_then; [exact Rv|].
      simpl. reflexivity. }
    reflexivity.
  - simpl. split; [reflexivity|]. split; [reflexivity|].
    rewrite <- app_assoc. reflexivity.
Qed.

Lemma create_task_replaces_corrupt_store_witness :
  exists w',
    td_create_task "t1" "base" "" [] corrupt_world = (Return true, w')
    /\ tasks_file w'
       = Holds [("t1"%string,
                 mkTask "t1" "base" "" None PENDING []
                        (wall corrupt_world (clock corrupt_world)) None)]
    /\ saves w' = saves corrupt_world ++ ["tasks.json"%string]
    /\ stdout w'
       = stdout corrupt_world
         ++ [("Error: Corrupted tasks file. " ++ exn_str bad_json)%string;
             ("Task " ++ "t1" ++ " created successfully")%string].
Proof.
  apply (create_task_replaces_corrupt_store bad_json "t1" "base" "" corrupt_world).
  - reflexivity.
  - reflexivity.
  - reflexivity.
Defined.
